(** * Completion engine and custom-tag registry of the LWC language server

  A shallow embedding of

  - [metadata-utils/custom-components-util.ts] (the tag registry
    [LWC_TAGS] with its bulk load, workspace scan and single-file
    upsert), and
  - [html-language-service/services/htmlCompletion.ts] ([doComplete],
    [doTagComplete] and their helpers),

  followed by the properties established about them.

  Conventions.  JavaScript numbers used as offsets are [Z]; strings are
  [string], a character being one code unit in the range 0..255; a value
  that may be [undefined] or [null] is an [option]; an object used as a
  dictionary is a [gmap]; a callback-driven enumeration
  ([provider.collectTags(cb)]) is the list of the calls made to [cb], in
  order.  Collaborators whose code lives elsewhere (scanner, parser,
  providers, metadata compiler) are [Section] variables. *)

From Stdlib Require Import ZArith List Ascii String Bool Lia.
From stdpp Require Import base option gmap strings.

Local Open Scope string_scope.
Local Open Scope Z_scope.
Local Open Scope list_scope.

(** ** JavaScript string primitives *)

Module JS.

Definition length (s : string) : Z := Z.of_nat (String.length s).

(** [s[i]]: [undefined] outside [0 .. length-1]. *)
Definition index (s : string) (i : Z) : option ascii :=
  if i <? 0 then None else String.get (Z.to_nat i) s.

(** [s.charAt(i)]: the empty string outside [0 .. length-1]. *)
Definition charAt (s : string) (i : Z) : string :=
  match index s i with
  | Some c => String c EmptyString
  | None => EmptyString
  end.

Definition clamp (s : string) (i : Z) : Z := Z.max 0 (Z.min i (length s)).

(** [s.substring(a, b)]: both ends are clamped to [0 .. length] and
    swapped when [a > b]. *)
Definition substring (s : string) (a b : Z) : string :=
  let a' := clamp s a in
  let b' := clamp s b in
  let lo := Z.min a' b' in
  let hi := Z.max a' b' in
  String.substring (Z.to_nat lo) (Z.to_nat (hi - lo)) s.

Definition is_upper (c : ascii) : bool :=
  let n := nat_of_ascii c in (65 <=? n)%nat && (n <=? 90)%nat.

Definition is_lower (c : ascii) : bool :=
  let n := nat_of_ascii c in (97 <=? n)%nat && (n <=? 122)%nat.

Definition is_digit (c : ascii) : bool :=
  let n := nat_of_ascii c in (48 <=? n)%nat && (n <=? 57)%nat.

(** Code units 192..222 except 215 are the upper-case letters of the
    Latin-1 supplement; like A..Z they lower-case by adding 32. *)
Definition lower_char (c : ascii) : ascii :=
  let n := nat_of_ascii c in
  if is_upper c then ascii_of_nat (n + 32)
  else if (192 <=? n)%nat && (n <=? 222)%nat && negb (n =? 215)%nat
       then ascii_of_nat (n + 32)
       else c.

(** [s.toLowerCase()]. *)
Fixpoint toLowerCase (s : string) : string :=
  match s with
  | EmptyString => EmptyString
  | String c r => String (lower_char c) (toLowerCase r)
  end.

(** The class [\s] of regular expressions, on code units below 256:
    TAB, LF, VT, FF, CR, space and the no-break space. *)
Definition is_space (c : ascii) : bool :=
  let n := nat_of_ascii c in
  ((9 <=? n)%nat && (n <=? 13)%nat) || (n =? 32)%nat || (n =? 160)%nat.

Fixpoint all_chars (p : ascii -> bool) (s : string) : bool :=
  match s with
  | EmptyString => true
  | String c r => p c && all_chars p r
  end.

(** A string is truthy when it is not empty. *)
Definition truthy (s : string) : bool :=
  match s with EmptyString => false | _ => true end.

(** [s.split(sep)[0]] for a one-character separator: the part of [s]
    before the first occurrence of [sep], all of [s] when there is none. *)
Fixpoint split_head (sep : ascii) (s : string) : string :=
  match s with
  | EmptyString => EmptyString
  | String c r => if Ascii.eqb c sep then EmptyString else String c (split_head sep r)
  end.

Definition dquote : ascii := ascii_of_nat 34.

End JS.

(** ** Language-server protocol values
  ([vscode-languageserver-types]) *)

Record Position := { line : Z; character : Z }.

Record Range := { start : Position; end_ : Position }.

Record Location := { uri : string; range : Range }.

Module PositionNS.
(** [Position.create(line, character)] *)
Definition create (l c : Z) : Position := {| line := l; character := c |}.
End PositionNS.

Module RangeNS.
(** [Range.create(start, end)] *)
Definition create (s e : Position) : Range := {| start := s; end_ := e |}.
End RangeNS.

Module LocationNS.
(** [Location.create(uri, range)] *)
Definition create (u : string) (r : Range) : Location := {| uri := u; range := r |}.
End LocationNS.

#[global] Instance Position_eq_dec : EqDecision Position.
Proof. solve_decision. Defined.

#[global] Instance Range_eq_dec : EqDecision Range.
Proof. solve_decision. Defined.

(** ** The tag registry: [custom-components-util.ts] *)

(** Modelled from the spec: the classes [AttributeInfo] and [TagInfo] are
  declared in the package [lightning-lsp-common], which is not among the
  sources.  The fields follow the order of the constructor calls in
  [custom-components-util.ts] and the TagRecord of the data model; the
  fields a constructor call leaves out are [None]. *)
Module AttributeInfo.
Record t := create {
  name : string;
  documentation : option string;
  type : option string;
  location : option Location;
  detail : option string
}.
End AttributeInfo.

Module TagInfo.
Record t (ClassMember : Type) := create {
  isCustom : bool;
  attributes : list AttributeInfo.t;
  declarationLocation : option Location;
  documentation : option string;
  tagName : option string;
  namespace : option string;
  properties : option (list ClassMember);
  methods : option (list ClassMember)
}.
Arguments create {ClassMember}.
Arguments isCustom {ClassMember}.
Arguments attributes {ClassMember}.
Arguments declarationLocation {ClassMember}.
Arguments documentation {ClassMember}.
Arguments tagName {ClassMember}.
Arguments namespace {ClassMember}.
Arguments properties {ClassMember}.
Arguments methods {ClassMember}.
End TagInfo.

(** The bundled standard-tag description after [JSON.parse]: the entries
  of the object in the order [for ... in] enumerates them. *)
Module StandardAttribute.
Record t := { name : string; description : option string; type : option string }.
End StandardAttribute.

Module StandardTag.
Record t := {
  description : option string;
  attributes : option (list StandardAttribute.t)
}.
End StandardTag.

(** [name.replace(/([A-Z])/g, match => `-${match.toLowerCase()}`)] *)
Fixpoint camelToKebab (name : string) : string :=
match name with
| EmptyString => EmptyString
| String c r =>
    if JS.is_upper c
    then String "-" (JS.toLowerCase (String c EmptyString) +:+ camelToKebab r)
    else String c (camelToKebab r)
end.

Section Registry.

(** What [@lwc/babel-plugin-component] and [../javascript/compiler]
    provide: the metadata of a compiled component and the functions
    reading it. *)
Variables Metadata ClassMember SourceLocation Diagnostic Error : Type.
Variable doc : Metadata -> option string.
Variable declarationLoc : Metadata -> option SourceLocation.
Variable extractAttributes : Metadata -> string -> list AttributeInfo.t.
Variable getProperties : Metadata -> list ClassMember.
Variable getMethods : Metadata -> list ClassMember.
Variable toVSCodeRange : SourceLocation -> Range.

(** [componentUtil.tagFromFile(file, sfdxProject)] of
    [lightning-lsp-common]: the tag a component file defines, if any. *)
Variable tagFromFile : string -> bool -> option string.

(** [URI.file(path.resolve(file)).toString()] *)
Variable fileUri : string -> string.

(** [compileFile(file)] either throws or resolves to
    [{ metadata?, diagnostics }]. *)
Record CompilerResult := {
  metadata : option Metadata;
  diagnostics : list Diagnostic
}.

Variable compileFile : string -> Error + CompilerResult.

Local Abbreviation Tag := (TagInfo.t ClassMember).
Local Abbreviation Tags := (gmap string (TagInfo.t ClassMember)).

(** *** Map operations on [LWC_TAGS] *)

(** [LWC_TAGS.get(tag)] *)
Definition getLwcByTag (LWC_TAGS : Tags) (tag : string) : option Tag :=
  LWC_TAGS !! tag.

(** [LWC_TAGS.set(tag, info)] *)
Definition setTag (tag : string) (info : Tag) (LWC_TAGS : Tags) : Tags :=
  <[tag := info]> LWC_TAGS.

(** [LWC_TAGS.delete(tag)] *)
Definition removeCustomTag (tag : string) (LWC_TAGS : Tags) : Tags :=
  delete tag LWC_TAGS.

(** [LWC_TAGS.clear()] *)
Definition resetCustomComponents (LWC_TAGS : Tags) : Tags := ∅.

Definition zeroRange : Range :=
  RangeNS.create (PositionNS.create 0 0) (PositionNS.create 0 0).

(** The record [addCustomTag] builds. *)
Definition customTagInfo (tag uri : string) (md : Metadata) : Tag :=
  let doc := doc md in
  let attributes := extractAttributes md uri in
  let range :=
    match declarationLoc md with
    | Some loc => toVSCodeRange loc
    | None => zeroRange
    end in
  let location := LocationNS.create uri range in
  let namespace := JS.split_head "-" tag in
  TagInfo.create true attributes (Some location) doc (Some tag) (Some namespace)
                 (Some (getProperties md)) (Some (getMethods md)).

Definition addCustomTag (tag uri : string) (md : Metadata) (LWC_TAGS : Tags) : Tags :=
  setTag tag (customTagInfo tag uri md) LWC_TAGS.

(** *** Bulk load of the standard tags *)

Definition standardAttribute (a : StandardAttribute.t) : AttributeInfo.t :=
  let name := camelToKebab (StandardAttribute.name a) in
  AttributeInfo.create name (StandardAttribute.description a) (StandardAttribute.type a)
                       None (Some "LWC standard attribute").

Definition standardTagInfo (d : StandardTag.t) : Tag :=
  let attributes :=
    match StandardTag.attributes d with
    | Some l => map standardAttribute l
    | None => []
    end in
  TagInfo.create true attributes None (StandardTag.description d) None None None None.

(** The loop of [loadStandardComponents] over the parsed resource. *)
Fixpoint loadStandardComponents (lwcStandard : list (string * StandardTag.t))
         (LWC_TAGS : Tags) : Tags :=
  match lwcStandard with
  | [] => LWC_TAGS
  | (tag, d) :: rest =>
      loadStandardComponents rest (setTag ("lightning-" +:+ tag) (standardTagInfo d) LWC_TAGS)
  end.

(** *** Effects of the indexing code

    The registry and the console are the state; a computation may throw.
    What was changed before a throw stays changed. *)

Inductive LogEntry :=
| LogDiagnostics (file : string) (ds : list Diagnostic)
    (* console.log('error compiling ' + file + ': ', diagnostics) *)
| LogError (file : string) (error : Error)
    (* console.log('error compiling ' + file, error) *)
| LogProcessed (count : nat).
    (* console.log('loadCustomTagsFromFiles: processed ' + n + ' files in ' + elapsed) *)

Record World := {
  LWC_TAGS : Tags;
  console : list LogEntry
}.

Definition Eff (A : Type) : Type := World -> World * (Error + A).

Definition ret {A} (a : A) : Eff A := fun w => (w, inr a).

Definition bind {A B} (m : Eff A) (k : A -> Eff B) : Eff B :=
  fun w =>
    match m w with
    | (w', inr a) => k a w'
    | (w', inl e) => (w', inl e)
    end.

Definition tryCatch {A} (body : Eff A) (handler : Error -> Eff A) : Eff A :=
  fun w =>
    match body w with
    | (w', inr a) => (w', inr a)
    | (w', inl e) => handler e w'
    end.

(** An awaited promise: its value, or its rejection thrown. *)
Definition await {A} (r : Error + A) : Eff A := fun w => (w, r).

Definition consoleLog (entry : LogEntry) : Eff unit :=
  fun w => ({| LWC_TAGS := LWC_TAGS w; console := console w ++ [entry] |}, inr tt).

Definition modifyTags (f : Tags -> Tags) : Eff unit :=
  fun w => ({| LWC_TAGS := f (LWC_TAGS w); console := console w |}, inr tt).

Notation "x <- m ;; k" := (bind m (fun x => k))
  (at level 100, m at next level, right associativity).
Notation "m ;;; k" := (bind m (fun _ => k))
  (at level 100, right associativity).

Definition when (b : bool) (m : Eff unit) : Eff unit := if b then m else ret tt.

Definition nonEmpty {A} (l : list A) : bool :=
  match l with [] => false | _ => true end.

Definition addCustomTagFromFile (file : string) (sfdxProject : bool) : Eff unit :=
  match tagFromFile file sfdxProject with
  | Some tag =>
      if JS.truthy tag then
        tryCatch
          (r <- await (compileFile file) ;;
           when (nonEmpty (diagnostics r)) (consoleLog (LogDiagnostics file (diagnostics r))) ;;;
           match metadata r with
           | Some md => modifyTags (addCustomTag tag (fileUri file) md)
           | None => ret tt
           end)
          (fun error => consoleLog (LogError file error))
      else ret tt
  | None => ret tt
  end.

(** The [for ... of] loop of [loadCustomTagsFromFiles]. *)
Fixpoint forEachFile (filePaths : list string) (sfdxProject : bool) : Eff unit :=
  match filePaths with
  | [] => ret tt
  | file :: rest =>
      addCustomTagFromFile file sfdxProject ;;;
      forEachFile rest sfdxProject
  end.

Definition loadCustomTagsFromFiles (filePaths : list string) (sfdxProject : bool) : Eff unit :=
  forEachFile filePaths sfdxProject ;;;
  consoleLog (LogProcessed (List.length filePaths)).

(** What the scan writes to the console for a file whose compilation did
    not produce metadata: the error caught, or the diagnostics when there
    are some. *)
Definition failureReport (file : string) (outcome : Error + CompilerResult)
  : list LogEntry :=
  match outcome with
  | inl error => [LogError file error]
  | inr r =>
      if nonEmpty (diagnostics r)
      then [LogDiagnostics file (diagnostics r)]
      else []
  end.

(** [addCustomTagFromResults(uri, metadata, sfdxProject)]; [fsPath] is
    [URI.parse(uri).fsPath]. *)
Definition addCustomTagFromResults (fsPath : string -> string)
           (uri : string) (md : Metadata) (sfdxProject : bool) : Eff unit :=
  match tagFromFile (fsPath uri) sfdxProject with
  | Some tag => if JS.truthy tag then modifyTags (addCustomTag tag uri md) else ret tt
  | None => ret tt
  end.

Definition removeCustomTagFromFile (file : string) (sfdxProject : bool) : Eff unit :=
  match tagFromFile file sfdxProject with
  | Some tag => if JS.truthy tag then modifyTags (removeCustomTag tag) else ret tt
  | None => ret tt
  end.

End Registry.

Arguments metadata {Metadata Diagnostic}.
Arguments diagnostics {Metadata Diagnostic}.
Arguments getLwcByTag {ClassMember}.
Arguments setTag {ClassMember}.
Arguments removeCustomTag {ClassMember}.
Arguments resetCustomComponents {ClassMember}.
Arguments customTagInfo {Metadata ClassMember SourceLocation}.
Arguments addCustomTag {Metadata ClassMember SourceLocation}.
Arguments standardTagInfo {ClassMember}.
Arguments loadStandardComponents {ClassMember}.
Arguments LogDiagnostics {Diagnostic Error}.
Arguments LogError {Diagnostic Error}.
Arguments LogProcessed {Diagnostic Error}.
Arguments LWC_TAGS {ClassMember Diagnostic Error}.
Arguments console {ClassMember Diagnostic Error}.
Arguments addCustomTagFromFile {Metadata ClassMember SourceLocation Diagnostic Error}.
Arguments forEachFile {Metadata ClassMember SourceLocation Diagnostic Error}.
Arguments loadCustomTagsFromFiles {Metadata ClassMember SourceLocation Diagnostic Error}.
Arguments failureReport {Metadata Diagnostic Error}.

(** ** The completion engine: [htmlCompletion.ts] *)

(** *** Collaborators *)

(** Modelled from the spec: the enumerations [TokenType] and
    [ScannerState] are declared in [../parser/htmlScanner], which is not
    among the sources.  The members are the ones [htmlCompletion.ts] names
    and the data model lists, with the remaining token kinds and states of
    the scanner, which the engine only meets in the [default] branch. *)
Module TokenType.
Inductive t :=
| StartCommentTag | Comment | EndCommentTag
| StartTagOpen | StartTagClose | StartTagSelfClose | StartTag
| EndTagOpen | EndTagClose | EndTag
| DelimiterAssign | AttributeName | AttributeValue
| StartDoctypeTag | Doctype | EndDoctypeTag
| Content | Whitespace | Unknown | Script | Styles | EOS.

#[global] Instance eq_dec : EqDecision t.
Proof. solve_decision. Defined.

Definition eqb (a b : t) : bool := bool_decide (a = b).
End TokenType.

Module ScannerState.
Inductive t :=
| WithinContent | AfterOpeningStartTag | AfterOpeningEndTag
| WithinDoctype | WithinTag | WithinEndTag | WithinComment
| WithinScriptContent | WithinStyleContent
| AfterAttributeName | BeforeAttributeValue.

#[global] Instance eq_dec : EqDecision t.
Proof. solve_decision. Defined.
End ScannerState.

(** What the scanner shows after one [scan()]: the token kind
    ([scan]'s result), [getTokenOffset()], [getTokenEnd()] and
    [getScannerState()]. *)
Module Token.
Record t := create {
  type : TokenType.t;
  offset : Z;
  end_ : Z;
  state : ScannerState.t
}.

(** [getTokenLength()] *)
Definition length (tok : t) : Z := end_ tok - offset tok.

(** [getTokenText()] *)
Definition text (source : string) (tok : t) : string :=
  JS.substring source (offset tok) (end_ tok).
End Token.

(** A node of the parse tree, as far as the engine reads it. *)
Module Node.
#[warnings="-register-all"]
Inductive t := create {
  tag : option string;
  start : Z;
  end_ : Z;
  closed : bool;
  endTagStart : option Z;
  parent : option t
}.
End Node.

Module TextDocument.
Record t := {
  uri : string;
  languageId : string;
  getText : string;
  offsetAt : Position -> Z;
  positionAt : Z -> Position
}.
End TextDocument.

Module HTMLDocument.
Record t := { findNodeBefore : Z -> option Node.t }.
End HTMLDocument.

(** A tag provider; each [collect...] field lists the calls the provider
    makes to its collector. *)
Module Provider.
Record TagEntry := { tag : string; tagDocumentation : option string }.

Record AttributeEntry := {
  attribute : string;
  detail : option string;
  documentation : option string;
  type : option string
}.

Record t := {
  getId : string;
  isApplicable : string -> bool;
  collectTags : list TagEntry;
  collectAttributes : string -> list AttributeEntry;
  collectValues : string -> string -> list string;
  collectExpressionValues : string -> list string
}.
End Provider.

Module CompletionItemKind.
Inductive t := Function | Property | Unit | Value | Reference.

#[global] Instance eq_dec : EqDecision t.
Proof. solve_decision. Defined.
End CompletionItemKind.

Module InsertTextFormat.
Inductive t := PlainText | Snippet.

#[global] Instance eq_dec : EqDecision t.
Proof. solve_decision. Defined.
End InsertTextFormat.

Module TextEdit.
Record t := { range : Range; newText : string }.

(** [TextEdit.replace(range, newText)] *)
Definition replace (r : Range) (newText : string) : t :=
  {| range := r; newText := newText |}.

(** [TextEdit.insert(position, newText)] *)
Definition insert (p : Position) (newText : string) : t :=
  {| range := {| start := p; end_ := p |}; newText := newText |}.
End TextEdit.

Module CompletionItem.
Record t := {
  label : string;
  kind : CompletionItemKind.t;
  detail : option string;
  documentation : option string;
  filterText : option string;
  textEdit : TextEdit.t;
  insertTextFormat : InsertTextFormat.t
}.
End CompletionItem.

Module CompletionList.
Record t := { isIncomplete : bool; items : list CompletionItem.t }.

(** [result.items.push(item)] *)
Definition push (result : t) (item : CompletionItem.t) : t :=
  {| isIncomplete := isIncomplete result; items := items result ++ [item] |}.

Definition pushAll (result : t) (new : list CompletionItem.t) : t :=
  {| isIncomplete := isIncomplete result; items := items result ++ new |}.
End CompletionList.

(** The result of a call that may throw. *)
Inductive Exception := TypeError (message : string).

Inductive Outcome (A : Type) :=
| Returns (a : A)
| Throws (e : Exception).
Arguments Returns {A}.
Arguments Throws {A}.

(** [isWhiteSpace(s)], that is [/^\s*$/.test(s)], on a string. *)
Definition isWhiteSpace (s : string) : bool := JS.all_chars JS.is_space s.

(** [isWhiteSpace(s[i])]: on [undefined] the test runs on the text
    [undefined], which is not white space. *)
Definition isWhiteSpaceAt (s : string) (i : Z) : bool :=
  match JS.index s i with
  | Some c => JS.is_space c
  | None => false
  end.

(** [s[i] === c] *)
Definition charIs (s : string) (i : Z) (c : ascii) : bool :=
  match JS.index s i with
  | Some d => Ascii.eqb d c
  | None => false
  end.

(** [getWordStart]: [n] bounds the iterations by [offset - limit]. *)
Fixpoint getWordStart_loop (n : nat) (s : string) (offset : Z) : Z :=
  match n with
  | O => offset
  | S k => if negb (isWhiteSpaceAt s (offset - 1)) then getWordStart_loop k s (offset - 1) else offset
  end.

Definition getWordStart (s : string) (offset limit : Z) : Z :=
  getWordStart_loop (Z.to_nat (offset - limit)) s offset.

Fixpoint getWordEnd_loop (n : nat) (s : string) (offset : Z) : Z :=
  match n with
  | O => offset
  | S k => if negb (isWhiteSpaceAt s offset) then getWordEnd_loop k s (offset + 1) else offset
  end.

Definition getWordEnd (s : string) (offset limit : Z) : Z :=
  getWordEnd_loop (Z.to_nat (limit - offset)) s offset.

Section Completion.

(** [createScanner(text, offset, initialState)]: the tokens the
    successive [scan()] calls of a fresh scanner yield; once they are
    used up [scan()] answers [EOS]. *)
Variable createScanner : string -> Z -> ScannerState.t -> list Token.t.

(** [isEmptyElement(tag)] of [../parser/htmlTags]: the void elements. *)
Variable isEmptyElement : string -> bool.

(** [allTagProviders] of [./tagProviders]. *)
Variable allTagProviders : list Provider.t.

(** [componentUtil.tagFromFile(URI.parse(uri).fsPath, sfdxWorkspace)]:
    the component a template belongs to. *)
Variable tagFromFile : string -> bool -> option string.
Variable fsPath : string -> string.

(** [CompletionConfiguration]: an object of flags. *)
Local Abbreviation Settings := (option (gmap string bool)).

(** [isFollowedBy(s, offset, intialState, expectedToken)] *)
Fixpoint skipWhitespace (tokens : list Token.t) : TokenType.t :=
  match tokens with
  | [] => TokenType.EOS
  | tok :: rest =>
      if TokenType.eqb (Token.type tok) TokenType.Whitespace
      then skipWhitespace rest
      else Token.type tok
  end.

Definition isFollowedBy (s : string) (offset : Z) (intialState : ScannerState.t)
           (expectedToken : TokenType.t) : bool :=
  TokenType.eqb (skipWhitespace (createScanner s offset intialState)) expectedToken.

Section Closures.

(** The variables [doComplete] binds before its inner functions. *)
Variable document : TextDocument.t.
Variable sfdxWorkspace : bool.
Variable settings : Settings.
Variable tagProviders : list Provider.t.
Variable text : string.
Variable offset : Z.
Variable node : Node.t.

Local Abbreviation positionAt := (TextDocument.positionAt document).

(** [getReplaceRange(replaceStart, replaceEnd = offset)] *)
Definition getReplaceRange (replaceStart replaceEnd : Z) : Range :=
  let replaceStart := if replaceStart >? offset then offset else replaceStart in
  {| start := positionAt replaceStart; end_ := positionAt replaceEnd |}.

Definition openTagItem (range : Range) (detail : option string)
           (e : Provider.TagEntry) : CompletionItem.t :=
  {| CompletionItem.label := Provider.tag e;
     CompletionItem.kind := CompletionItemKind.Property;
     CompletionItem.detail := detail;
     CompletionItem.documentation := Provider.tagDocumentation e;
     CompletionItem.filterText := None;
     CompletionItem.textEdit := TextEdit.replace range (Provider.tag e);
     CompletionItem.insertTextFormat := InsertTextFormat.PlainText |}.

Definition collectOpenTagSuggestions (afterOpenBracket tagNameEnd : Z)
           (result : CompletionList.t) : CompletionList.t :=
  let range := getReplaceRange afterOpenBracket tagNameEnd in
  CompletionList.pushAll result
    (flat_map (fun provider =>
       let detail := if String.eqb (Provider.getId provider) "lwc" then Some "LWC tag" else None in
       map (openTagItem range detail) (Provider.collectTags provider))
     tagProviders).

(** [getLineIndent(offset)]: [start] counts down from the offset given. *)
Fixpoint getLineIndent_from (start : nat) (offset : Z) : option string :=
  match start with
  | O => Some (JS.substring text 0 offset)
  | S start' =>
      let ch := JS.charAt text (Z.of_nat start') in
      if String.eqb ch "" || String.eqb ch (String "010" "") || String.eqb ch (String "013" "")
      then Some (JS.substring text (Z.of_nat start) offset)
      else if negb (isWhiteSpace ch) then None
      else getLineIndent_from start' offset
  end.

Definition getLineIndent (offset : Z) : option string :=
  getLineIndent_from (Z.to_nat offset) offset.

(** The [while (curr)] loop of [collectCloseTagSuggestions]: the first
    node, from [curr] upwards, that has a tag and is not closed or whose
    end tag starts after the cursor. *)
Fixpoint openAncestor (curr : Node.t) : option (Node.t * string) :=
  let continue :=
    match Node.parent curr with
    | Some p => openAncestor p
    | None => None
    end in
  match Node.tag curr with
  | Some tag =>
      if JS.truthy tag &&
         (negb (Node.closed curr) ||
          match Node.endTagStart curr with Some e => e >? offset | None => false end)
      then Some (curr, tag)
      else continue
  | None => continue
  end.

Definition closeTagItem (range : Range) (closeTag : string) (documentation : option string)
           (tag : string) : CompletionItem.t :=
  {| CompletionItem.label := "/" +:+ tag;
     CompletionItem.kind := CompletionItemKind.Property;
     CompletionItem.detail := None;
     CompletionItem.documentation := documentation;
     CompletionItem.filterText := Some ("/" +:+ tag +:+ closeTag);
     CompletionItem.textEdit := TextEdit.replace range ("/" +:+ tag +:+ closeTag);
     CompletionItem.insertTextFormat := InsertTextFormat.PlainText |}.

(** The item built for the ancestor [curr] found, with the re-indentation
    of lines 93-99. *)
Definition closeAncestorItem (afterOpenBracket : Z) (range : Range) (closeTag : string)
           (curr : Node.t) (tag : string) : CompletionItem.t :=
  let item := closeTagItem range closeTag None tag in
  let startIndent := getLineIndent (Node.start curr) in
  let endIndent := getLineIndent (afterOpenBracket - 1) in
  match startIndent, endIndent with
  | Some startIndent, Some endIndent =>
      if negb (String.eqb startIndent endIndent) then
        let insertText := startIndent +:+ "</" +:+ tag +:+ closeTag in
        {| CompletionItem.label := CompletionItem.label item;
           CompletionItem.kind := CompletionItem.kind item;
           CompletionItem.detail := CompletionItem.detail item;
           CompletionItem.documentation := CompletionItem.documentation item;
           CompletionItem.filterText := Some (endIndent +:+ "</" +:+ tag +:+ closeTag);
           CompletionItem.textEdit :=
             TextEdit.replace
               (getReplaceRange (afterOpenBracket - 1 - JS.length endIndent) offset)
               insertText;
           CompletionItem.insertTextFormat := CompletionItem.insertTextFormat item |}
      else item
  | _, _ => item
  end.

(** [collectCloseTagSuggestions(afterOpenBracket, inOpenTag, tagNameEnd = offset)] *)
Definition collectCloseTagSuggestions (afterOpenBracket : Z) (inOpenTag : bool)
           (tagNameEnd : Z) (result : CompletionList.t) : CompletionList.t :=
  let range := getReplaceRange afterOpenBracket tagNameEnd in
  let closeTag :=
    if isFollowedBy text tagNameEnd ScannerState.WithinEndTag TokenType.EndTagClose
    then "" else ">" in
  let curr := if inOpenTag then Node.parent node else Some node in
  match curr ≫= openAncestor with
  | Some (curr, tag) =>
      CompletionList.push result (closeAncestorItem afterOpenBracket range closeTag curr tag)
  | None =>
      if inOpenTag then result
      else
        CompletionList.pushAll result
          (flat_map (fun provider =>
             map (fun e => closeTagItem range closeTag (Provider.tagDocumentation e) (Provider.tag e))
                 (Provider.collectTags provider))
           tagProviders)
  end.

(** [settings && settings.hideAutoCompleteProposals] *)
Definition hideAutoCompleteProposals : bool :=
  match settings with
  | Some flags =>
      match flags !! "hideAutoCompleteProposals" with
      | Some b => b
      | None => false
      end
  | None => false
  end.

Definition autoCloseItem (tagCloseEnd : Z) (tag : string) : CompletionItem.t :=
  let pos := positionAt tagCloseEnd in
  {| CompletionItem.label := "</" +:+ tag +:+ ">";
     CompletionItem.kind := CompletionItemKind.Property;
     CompletionItem.detail := None;
     CompletionItem.documentation := None;
     CompletionItem.filterText := Some ("</" +:+ tag +:+ ">");
     CompletionItem.textEdit := TextEdit.insert pos ("$0</" +:+ tag +:+ ">");
     CompletionItem.insertTextFormat := InsertTextFormat.Snippet |}.

Definition collectAutoCloseTagSuggestion (tagCloseEnd : Z) (tag : string)
           (result : CompletionList.t) : CompletionList.t :=
  if hideAutoCompleteProposals then result
  else if negb (isEmptyElement tag)
       then CompletionList.push result (autoCloseItem tagCloseEnd tag)
       else result.

Definition collectTagSuggestions (tagStart tagEnd : Z)
           (result : CompletionList.t) : CompletionList.t :=
  let result := collectOpenTagSuggestions tagStart tagEnd result in
  collectCloseTagSuggestions tagStart true tagEnd result.

(** The [while] loop of [collectAttributeNameSuggestions], at most
    [nameEnd - offset] steps. *)
Fixpoint attributeReplaceEnd (n : nat) (replaceEnd : Z) : Z :=
  match n with
  | O => replaceEnd
  | S k => if negb (charIs text replaceEnd "<") then attributeReplaceEnd k (replaceEnd + 1)
           else replaceEnd
  end.

Definition attributeNameItem (range : Range) (value : string)
           (e : Provider.AttributeEntry) : CompletionItem.t :=
  let attribute := Provider.attribute e in
  let codeSnippet :=
    if negb (bool_decide (Provider.type e = Some "v")) && JS.truthy value
    then attribute +:+ value
    else attribute in
  {| CompletionItem.label := attribute;
     CompletionItem.kind :=
       if bool_decide (Provider.type e = Some "handler")
       then CompletionItemKind.Function else CompletionItemKind.Value;
     CompletionItem.detail := Provider.detail e;
     CompletionItem.documentation := Provider.documentation e;
     CompletionItem.filterText := None;
     CompletionItem.textEdit := TextEdit.replace range codeSnippet;
     CompletionItem.insertTextFormat := InsertTextFormat.Snippet |}.

(** [collectAttributeNameSuggestions(nameStart, nameEnd = offset)];
    [currentTag] is the variable of that name in [doComplete]. *)
Definition collectAttributeNameSuggestions (currentTag : string) (nameStart nameEnd : Z)
           (result : CompletionList.t) : CompletionList.t :=
  let replaceEnd := attributeReplaceEnd (Z.to_nat (nameEnd - offset)) offset in
  let range := getReplaceRange nameStart replaceEnd in
  let value :=
    if isFollowedBy text nameEnd ScannerState.AfterAttributeName TokenType.DelimiterAssign
    then "" else "=$1" in
  let tag := JS.toLowerCase currentTag in
  CompletionList.pushAll result
    (flat_map (fun provider =>
       map (attributeNameItem range value) (Provider.collectAttributes provider tag))
     tagProviders).

Definition templateTag : option string :=
  tagFromFile (fsPath (TextDocument.uri document)) sfdxWorkspace.

Definition expressionItem (range : Range) (value : string) : CompletionItem.t :=
  {| CompletionItem.label := value;
     CompletionItem.kind := CompletionItemKind.Reference;
     CompletionItem.detail := None;
     CompletionItem.documentation := None;
     CompletionItem.filterText := None;
     CompletionItem.textEdit :=
       TextEdit.replace range (value +:+ (if charIs text offset "}" then "" else "}"));
     CompletionItem.insertTextFormat := InsertTextFormat.PlainText |}.

(** The [for] loop of [collectExpressionSuggestions]: [i] runs down from
    [offset - 1] for [n] steps; [Some] is [return true] with the items
    pushed. *)
Fixpoint expressionLoop (n : nat) (i : Z) (result : CompletionList.t)
  : option CompletionList.t :=
  match n with
  | O => None
  | S k =>
      if charIs text i "{" then
        match templateTag with
        | Some templateTag =>
            if JS.truthy templateTag then
              let range := getReplaceRange (i + 1) offset in
              Some (CompletionList.pushAll result
                      (flat_map (fun provider =>
                         map (expressionItem range)
                             (Provider.collectExpressionValues provider templateTag))
                       tagProviders))
            else expressionLoop k (i - 1) result
        | None => expressionLoop k (i - 1) result
        end
      else expressionLoop k (i - 1) result
  end.

(** [collectExpressionSuggestions(valueStart)]: [None] is [return false]. *)
Definition collectExpressionSuggestions (valueStart : Z) (result : CompletionList.t)
  : option CompletionList.t :=
  if (valueStart >=? 0) && (offset <? JS.length text) &&
     (charIs text offset "}" || charIs text offset ">")
  then expressionLoop (Z.to_nat (offset - valueStart)) (offset - 1) result
  else None.

Definition attributeValueItem (range : Range) (addQuotes : bool) (value : string)
  : CompletionItem.t :=
  let insertText :=
    if addQuotes then String JS.dquote (value +:+ String JS.dquote "") else value in
  {| CompletionItem.label := value;
     CompletionItem.kind := CompletionItemKind.Unit;
     CompletionItem.detail := None;
     CompletionItem.documentation := None;
     CompletionItem.filterText := Some insertText;
     CompletionItem.textEdit := TextEdit.replace range insertText;
     CompletionItem.insertTextFormat := InsertTextFormat.PlainText |}.

(** [collectAttributeValueSuggestions(valueStart, valueEnd = offset)];
    [currentAttributeName] is [undefined] until an attribute name has been
    scanned, and [undefined.toLowerCase()] throws. *)
Definition collectAttributeValueSuggestions (currentTag : string)
           (currentAttributeName : option string) (valueStart valueEnd : Z)
           (result : CompletionList.t) : Outcome CompletionList.t :=
  match collectExpressionSuggestions valueStart result with
  | Some result => Returns result
  | None =>
      let '(range, addQuotes) :=
        if (offset >? valueStart) && (offset <=? valueEnd) && charIs text valueStart JS.dquote
        then
          let valueEnd :=
            if (valueEnd >? offset) && charIs text (valueEnd - 1) JS.dquote
            then valueEnd - 1 else valueEnd in
          let wsBefore := getWordStart text offset (valueStart + 1) in
          let wsAfter := getWordEnd text offset valueEnd in
          (getReplaceRange wsBefore wsAfter, false)
        else (getReplaceRange valueStart valueEnd, true) in
      let tag := JS.toLowerCase currentTag in
      match currentAttributeName with
      | None => Throws (TypeError "Cannot read property 'toLowerCase' of undefined")
      | Some name =>
          let attribute := JS.toLowerCase name in
          Returns (CompletionList.pushAll result
                     (flat_map (fun provider =>
                        map (attributeValueItem range addQuotes)
                            (Provider.collectValues provider tag attribute))
                      tagProviders))
      end
  end.

(** [scanNextForEndPos(nextToken)], called while the scanner shows
    [tok] and [rest] is still to come. *)
Definition scanNextForEndPos (tok : Token.t) (rest : list Token.t)
           (nextToken : TokenType.t) : Z :=
  if offset =? Token.end_ tok then
    match rest with
    | next :: _ =>
        if TokenType.eqb (Token.type next) nextToken && (Token.offset next =? offset)
        then Token.end_ next
        else offset
    | [] => offset
    end
  else offset.

(** The inner [while (start >= 0)] of the [EndTag] case: [start] is one
    below the counter. *)
Fixpoint slashBefore (start1 : nat) : option Z :=
  match start1 with
  | O => None
  | S start =>
      let ch := JS.charAt text (Z.of_nat start) in
      if String.eqb ch "/" then Some (Z.of_nat start)
      else if negb (isWhiteSpace ch) then None
      else slashBefore start
  end.

(** The main loop of [doComplete]: [tokens] are the tokens from the
    current one on. *)
Fixpoint scanTokens (tokens : list Token.t) (currentTag : string)
         (currentAttributeName : option string) (result : CompletionList.t)
  : Outcome CompletionList.t :=
  match tokens with
  | [] => Returns result
  | tok :: rest =>
      let continue := scanTokens rest currentTag currentAttributeName result in
      let tokenOffset := Token.offset tok in
      let tokenEnd := Token.end_ tok in
      if TokenType.eqb (Token.type tok) TokenType.EOS then Returns result
      else if negb (tokenOffset <=? offset) then Returns result
      else
        match Token.type tok with
        | TokenType.StartTagOpen =>
            if tokenEnd =? offset then
              let endPos := scanNextForEndPos tok rest TokenType.StartTag in
              Returns (collectTagSuggestions offset endPos result)
            else continue
        | TokenType.StartTag =>
            if (tokenOffset <=? offset) && (offset <=? tokenEnd) then
              Returns (collectOpenTagSuggestions tokenOffset tokenEnd result)
            else scanTokens rest (Token.text text tok) currentAttributeName result
        | TokenType.AttributeName =>
            if (tokenOffset <=? offset) && (offset <=? tokenEnd) then
              Returns (collectAttributeNameSuggestions currentTag tokenOffset tokenEnd result)
            else scanTokens rest currentTag (Some (Token.text text tok)) result
        | TokenType.DelimiterAssign =>
            if tokenEnd =? offset then
              collectAttributeValueSuggestions currentTag currentAttributeName tokenEnd offset result
            else continue
        | TokenType.AttributeValue =>
            if (tokenOffset <=? offset) && (offset <=? tokenEnd) then
              collectAttributeValueSuggestions currentTag currentAttributeName
                                               tokenOffset tokenEnd result
            else continue
        | TokenType.Whitespace =>
            if offset <=? tokenEnd then
              match Token.state tok with
              | ScannerState.AfterOpeningStartTag =>
                  let startPos := tokenOffset in
                  let endTagPos := scanNextForEndPos tok rest TokenType.StartTag in
                  Returns (collectTagSuggestions startPos endTagPos result)
              | ScannerState.WithinTag
              | ScannerState.AfterAttributeName =>
                  Returns (collectAttributeNameSuggestions currentTag tokenEnd offset result)
              | ScannerState.BeforeAttributeValue =>
                  collectAttributeValueSuggestions currentTag currentAttributeName
                                                   tokenEnd offset result
              | ScannerState.AfterOpeningEndTag =>
                  Returns (collectCloseTagSuggestions (tokenOffset - 1) false offset result)
              | _ => continue
              end
            else continue
        | TokenType.EndTagOpen =>
            if offset <=? tokenEnd then
              let afterOpenBracket := tokenOffset + 1 in
              let endOffset := scanNextForEndPos tok rest TokenType.EndTag in
              Returns (collectCloseTagSuggestions afterOpenBracket false endOffset result)
            else continue
        | TokenType.EndTag =>
            if offset <=? tokenEnd then
              match slashBefore (Z.to_nat tokenOffset) with
              | Some start => Returns (collectCloseTagSuggestions start false tokenEnd result)
              | None => continue
              end
            else continue
        | TokenType.StartTagClose =>
            if (offset <=? tokenEnd) && JS.truthy currentTag then
              Returns (collectAutoCloseTagSuggestion tokenEnd currentTag result)
            else continue
        | _ =>
            match collectExpressionSuggestions (Token.length tok) result with
            | Some result => Returns result
            | None => if offset <=? tokenEnd then Returns result else continue
            end
        end
  end.

End Closures.

Definition emptyList : CompletionList.t :=
  {| CompletionList.isIncomplete := false; CompletionList.items := [] |}.

(** [p.isApplicable(document.languageId) && (!settings || settings[p.getId()] !== false)] *)
Definition enabledProvider (document : TextDocument.t) (settings : Settings)
           (p : Provider.t) : bool :=
  Provider.isApplicable p (TextDocument.languageId document) &&
  match settings with
  | None => true
  | Some flags => negb (bool_decide (flags !! Provider.getId p = Some false))
  end.

Definition doComplete (document : TextDocument.t) (position : Position)
           (htmlDocument : HTMLDocument.t) (sfdxWorkspace : bool) (settings : Settings)
  : Outcome CompletionList.t :=
  let result := emptyList in
  let tagProviders := List.filter (enabledProvider document settings) allTagProviders in
  let text := TextDocument.getText document in
  let offset := TextDocument.offsetAt document position in
  match HTMLDocument.findNodeBefore htmlDocument offset with
  | None => Returns result
  | Some node =>
      let scanner := createScanner text (Node.start node) ScannerState.WithinContent in
      scanTokens document sfdxWorkspace settings tagProviders text offset node
                 scanner "" None result
  end.

(** The two scanning loops of [doTagComplete]: is there, among the tokens
    that end at or before the offset, one of kind [wanted] ending exactly
    at the offset? *)
Fixpoint endsAt (wanted : TokenType.t) (offset : Z) (tokens : list Token.t) : bool :=
  match tokens with
  | [] => false
  | tok :: rest =>
      if TokenType.eqb (Token.type tok) TokenType.EOS then false
      else if negb (Token.end_ tok <=? offset) then false
      else if TokenType.eqb (Token.type tok) wanted && (Token.end_ tok =? offset) then true
      else endsAt wanted offset rest
  end.

(** [while (node && node.closed) node = node.parent] *)
Fixpoint skipClosed (node : Node.t) : option Node.t :=
  if Node.closed node then
    match Node.parent node with
    | Some p => skipClosed p
    | None => None
    end
  else Some node.

Definition doTagComplete (document : TextDocument.t) (position : Position)
           (htmlDocument : HTMLDocument.t) : option string :=
  let offset := TextDocument.offsetAt document position in
  if offset <=? 0 then None
  else
    let char := JS.charAt (TextDocument.getText document) (offset - 1) in
    if String.eqb char ">" then
      match HTMLDocument.findNodeBefore htmlDocument offset with
      | Some node =>
          match Node.tag node with
          | Some tag =>
              if JS.truthy tag && negb (isEmptyElement tag) && (Node.start node <? offset) &&
                 match Node.endTagStart node with
                 | None => true
                 | Some e => (e =? 0) || (e >? offset)
                 end
              then
                if endsAt TokenType.StartTagClose offset
                     (createScanner (TextDocument.getText document) (Node.start node)
                                    ScannerState.WithinContent)
                then Some ("$0</" +:+ tag +:+ ">")
                else None
              else None
          | None => None
          end
      | None => None
      end
    else if String.eqb char "/" then
      match HTMLDocument.findNodeBefore htmlDocument offset ≫= skipClosed with
      | Some node =>
          match Node.tag node with
          | Some tag =>
              if JS.truthy tag then
                if endsAt TokenType.EndTagOpen offset
                     (createScanner (TextDocument.getText document) (Node.start node)
                                    ScannerState.WithinContent)
                then Some (tag +:+ ">")
                else None
              else None
          | None => None
          end
      | None => None
      end
    else None.

End Completion.

(** ** Kebab case *)

(** A kebab-case name: non-empty words of lower-case letters and digits,
    separated by single hyphens.  [afterHyphen] tells that the previous
    character was a hyphen, or that the name starts here. *)
Fixpoint kebab_from (afterHyphen : bool) (s : string) : bool :=
  match s with
  | EmptyString => negb afterHyphen
  | String c r =>
      if Ascii.eqb c "-" then negb afterHyphen && kebab_from true r
      else (JS.is_lower c || JS.is_digit c) && kebab_from false r
  end.

Definition kebab_case (s : string) : bool := kebab_from true s.

(** A lower camel-case name: a lower-case letter followed by letters and
    digits. *)
Definition is_alnum (c : ascii) : bool := JS.is_lower c || JS.is_upper c || JS.is_digit c.

Definition lower_camel_case (s : string) : bool :=
  match s with
  | EmptyString => false
  | String c r => JS.is_lower c && JS.all_chars is_alnum r
  end.

Definition no_upper (s : string) : bool := JS.all_chars (fun c => negb (JS.is_upper c)) s.


(** ** Vocabulary of the completion properties *)

(** The token kinds [doComplete] handles in the [default] branch. *)
Definition isFallback (type : TokenType.t) : bool :=
  match type with
  | TokenType.StartTagOpen | TokenType.StartTag | TokenType.AttributeName
  | TokenType.DelimiterAssign | TokenType.AttributeValue | TokenType.Whitespace
  | TokenType.EndTagOpen | TokenType.EndTag | TokenType.StartTagClose
  | TokenType.EOS => false
  | _ => true
  end.

(** A token stream in order: no token starts before [from] or before the
    end of the one preceding it, none ends before it starts, and [EOS]
    does not occur inside. *)
Fixpoint inOrder (from : Z) (tokens : list Token.t) : bool :=
  match tokens with
  | [] => true
  | tok :: rest =>
      (from <=? Token.offset tok) && (Token.offset tok <=? Token.end_ tok) &&
      negb (TokenType.eqb (Token.type tok) TokenType.EOS) &&
      inOrder (Token.end_ tok) rest
  end.

(** The value of [currentTag] after the loop of [doComplete] went through
    [tokens] without returning. *)
Fixpoint tagAfter (text : string) (currentTag : string) (tokens : list Token.t) : string :=
  match tokens with
  | [] => currentTag
  | tok :: rest =>
      tagAfter text
        (if TokenType.eqb (Token.type tok) TokenType.StartTag
         then Token.text text tok else currentTag)
        rest
  end.

(** Likewise [currentAttributeName]. *)
Fixpoint nameAfter (text : string) (currentAttributeName : option string)
         (tokens : list Token.t) : option string :=
  match tokens with
  | [] => currentAttributeName
  | tok :: rest =>
      nameAfter text
        (if TokenType.eqb (Token.type tok) TokenType.AttributeName
         then Some (Token.text text tok) else currentAttributeName)
        rest
  end.

(** Of the items [doComplete] builds, only the auto-close suggestion is a
    snippet of kind [Property]: tag suggestions are plain text, and
    attribute-name snippets are of kind [Function] or [Value]. *)
Definition isAutoCloseSuggestion (item : CompletionItem.t) : bool :=
  bool_decide (CompletionItem.kind item = CompletionItemKind.Property) &&
  bool_decide (CompletionItem.insertTextFormat item = InsertTextFormat.Snippet).

Definition isAttributeNameSuggestion (item : CompletionItem.t) : bool :=
  (bool_decide (CompletionItem.kind item = CompletionItemKind.Function) ||
   bool_decide (CompletionItem.kind item = CompletionItemKind.Value)) &&
  bool_decide (CompletionItem.insertTextFormat item = InsertTextFormat.Snippet).

(** A line feed or a carriage return. *)
Definition isLineBreak (ch : string) : Prop :=
  ch = String "010" "" \/ ch = String "013" "".

(** [r'] is [r] with further items, none of them an auto-close
    suggestion. *)
Definition extendedPlainly (r r' : CompletionList.t) : Prop :=
  exists new,
    r' = CompletionList.pushAll r new
    /\ Forall (fun item => isAutoCloseSuggestion item = false) new.

(** Modelled from the spec: the custom-component provider of
    [./tagProviders], which is not among the sources: "a custom-component
    provider backed by the registry", whose id is [lwc] (line 46 of
    [htmlCompletion.ts]).  It enumerates the registered tags, the
    attributes of the tag asked for, and as expression values the
    properties and methods of the template's tag. *)
Definition lwcTagProvider (LWC_TAGS : gmap string (TagInfo.t string)) : Provider.t :=
  {| Provider.getId := "lwc";
     Provider.isApplicable := fun languageId => String.eqb languageId "html";
     Provider.collectTags :=
       map (fun entry : string * TagInfo.t string =>
              {| Provider.tag := fst entry;
                 Provider.tagDocumentation := TagInfo.documentation (snd entry) |})
           (map_to_list LWC_TAGS);
     Provider.collectAttributes := fun tag =>
       match LWC_TAGS !! tag with
       | Some info =>
           map (fun a =>
                  {| Provider.attribute := AttributeInfo.name a;
                     Provider.detail := AttributeInfo.detail a;
                     Provider.documentation := AttributeInfo.documentation a;
                     Provider.type := None |})
               (TagInfo.attributes info)
       | None => []
       end;
     Provider.collectValues := fun _ _ => [];
     Provider.collectExpressionValues := fun templateTag =>
       match LWC_TAGS !! templateTag with
       | Some info =>
           (default [] (TagInfo.properties info) ++ default [] (TagInfo.methods info))%list
       | None => []
       end |}.

(** ** Sample inputs *)

Module Sample.

(** A registry world whose compiler knows three files: one that throws,
    one without metadata and without diagnostics, one that compiles. *)
Definition tagFromFile (file : string) (sfdx : bool) : option string :=
  if String.eqb file "lwc/foo/foo.js" then Some "c-foo"
  else if String.eqb file "lwc/bar/bar.js" then Some "c-bar"
  else if String.eqb file "lwc/baz/baz.js" then Some "c-baz"
  else None.

Definition compileFile (file : string) : string + CompilerResult unit string :=
  if String.eqb file "lwc/foo/foo.js" then inl "SyntaxError"
  else if String.eqb file "lwc/bar/bar.js" then inr {| metadata := None; diagnostics := [] |}
  else inr {| metadata := Some tt; diagnostics := [] |}.

Definition extractAttributes (md : unit) (uri : string) : list AttributeInfo.t :=
  [AttributeInfo.create "label" None None None None].

Definition noTag : TagInfo.t string :=
  TagInfo.create true [] None None None None None None.

Definition world0 : World string string string :=
  {| LWC_TAGS := <["c-bar" := noTag]> ∅; console := [] |}.

Definition pascalResource : list (string * StandardTag.t) :=
  [("button",
    {| StandardTag.description := None;
       StandardTag.attributes :=
         Some [ {| StandardAttribute.name := "IconName";
                   StandardAttribute.description := None;
                   StandardAttribute.type := None |} ] |})].

Definition camelResource : list (string * StandardTag.t) :=
  [("button",
    {| StandardTag.description := Some "A button";
       StandardTag.attributes :=
         Some [ {| StandardAttribute.name := "iconName";
                   StandardAttribute.description := None;
                   StandardAttribute.type := Some "string" |} ] |})].

(** A one-line document: positions are (0, offset). *)
Definition oneLine (uri text : string) : TextDocument.t :=
  {| TextDocument.uri := uri;
     TextDocument.languageId := "html";
     TextDocument.getText := text;
     TextDocument.offsetAt := fun p => JS.clamp text (character p);
     TextDocument.positionAt := fun o => {| line := 0; character := JS.clamp text o |} |}.

Definition root (len : Z) : Node.t :=
  Node.create None 0 len false None None.

(** The template [<c-foo ></c-foo>] of the component [c-foo]. *)
Definition fooText : string := "<c-foo ></c-foo>".

Definition fooDocument : TextDocument.t := oneLine "file:///lwc/foo/foo.html" fooText.

Definition fooNode : Node.t :=
  Node.create (Some "c-foo") 0 16 true (Some 8) (Some (root 16)).

(** The tokens of [fooText], from offset 0. *)
Definition fooTokens : list Token.t :=
  [ Token.create TokenType.StartTagOpen 0 1 ScannerState.AfterOpeningStartTag;
    Token.create TokenType.StartTag 1 6 ScannerState.WithinTag;
    Token.create TokenType.Whitespace 6 7 ScannerState.WithinTag;
    Token.create TokenType.StartTagClose 7 8 ScannerState.WithinContent;
    Token.create TokenType.EndTagOpen 8 10 ScannerState.AfterOpeningEndTag;
    Token.create TokenType.EndTag 10 15 ScannerState.WithinEndTag;
    Token.create TokenType.EndTagClose 15 16 ScannerState.WithinContent ].

(** The template [<c-foo / x{y}z>]: a stray [/] is an [Unknown] token,
    and the attribute name that follows holds braces. *)
Definition braceText : string := "<c-foo / x{y}z>".

Definition braceDocument : TextDocument.t := oneLine "file:///lwc/foo/foo.html" braceText.

Definition braceNode : Node.t :=
  Node.create (Some "c-foo") 0 15 false None (Some (root 15)).

Definition braceTokens : list Token.t :=
  [ Token.create TokenType.StartTagOpen 0 1 ScannerState.AfterOpeningStartTag;
    Token.create TokenType.StartTag 1 6 ScannerState.WithinTag;
    Token.create TokenType.Whitespace 6 7 ScannerState.WithinTag;
    Token.create TokenType.Unknown 7 8 ScannerState.WithinTag;
    Token.create TokenType.Whitespace 8 9 ScannerState.WithinTag;
    Token.create TokenType.AttributeName 9 14 ScannerState.AfterAttributeName;
    Token.create TokenType.StartTagClose 14 15 ScannerState.WithinContent ].

(** The template [<c-foo label>]. *)
Definition labelText : string := "<c-foo label>".

Definition labelDocument : TextDocument.t := oneLine "file:///lwc/foo/foo.html" labelText.

Definition labelNode : Node.t :=
  Node.create (Some "c-foo") 0 13 false None (Some (root 13)).

Definition labelTokens : list Token.t :=
  [ Token.create TokenType.StartTagOpen 0 1 ScannerState.AfterOpeningStartTag;
    Token.create TokenType.StartTag 1 6 ScannerState.WithinTag;
    Token.create TokenType.Whitespace 6 7 ScannerState.WithinTag;
    Token.create TokenType.AttributeName 7 12 ScannerState.AfterAttributeName;
    Token.create TokenType.StartTagClose 12 13 ScannerState.WithinContent ].

(** The template [<br>]. *)
Definition brText : string := "<br>".

Definition brDocument : TextDocument.t := oneLine "file:///lwc/foo/foo.html" brText.

Definition brNode : Node.t :=
  Node.create (Some "br") 0 4 false None (Some (root 4)).

Definition brTokens : list Token.t :=
  [ Token.create TokenType.StartTagOpen 0 1 ScannerState.AfterOpeningStartTag;
    Token.create TokenType.StartTag 1 3 ScannerState.WithinTag;
    Token.create TokenType.StartTagClose 3 4 ScannerState.WithinContent ].

(** A document of several lines, separated by line feeds. *)
Definition LF : string := String "010" "".

Fixpoint positionFrom (s : string) (n : nat) (l c : Z) : Position :=
  match n, s with
  | S k, String ch r =>
      if Ascii.eqb ch "010" then positionFrom r k (l + 1) 0 else positionFrom r k l (c + 1)
  | _, _ => {| line := l; character := c |}
  end.

Fixpoint lineStart (s : string) (l : nat) (acc : Z) : Z :=
  match s with
  | EmptyString => acc
  | String ch r =>
      match l with
      | O => acc
      | S k => if Ascii.eqb ch "010" then lineStart r k (acc + 1) else lineStart r l (acc + 1)
      end
  end.

Definition lines (uri text : string) : TextDocument.t :=
  {| TextDocument.uri := uri;
     TextDocument.languageId := "html";
     TextDocument.getText := text;
     TextDocument.offsetAt := fun p =>
       JS.clamp text (lineStart text (Z.to_nat (line p)) 0 + character p);
     TextDocument.positionAt := fun o => positionFrom text (Z.to_nat (JS.clamp text o)) 0 0 |}.

(** The template [<div>], a line feed, two spaces and [</]: the end tag
    is being typed with an indentation the start tag does not have. *)
Definition indentedText : string := "<div>" +:+ LF +:+ "  </".

Definition indentedDocument : TextDocument.t := lines "file:///lwc/foo/foo.html" indentedText.

Definition divNode : Node.t :=
  Node.create (Some "div") 0 10 false None (Some (root 10)).

Definition indentedTokens : list Token.t :=
  [ Token.create TokenType.StartTagOpen 0 1 ScannerState.AfterOpeningStartTag;
    Token.create TokenType.StartTag 1 4 ScannerState.WithinTag;
    Token.create TokenType.StartTagClose 4 5 ScannerState.WithinContent;
    Token.create TokenType.Content 5 8 ScannerState.WithinContent;
    Token.create TokenType.EndTagOpen 8 10 ScannerState.AfterOpeningEndTag ].

(** The scanner on the sample texts: the tokens from the offset asked
    for; the initial state only matters for a scan that starts inside a
    tag, where it yields the same tokens. *)
Definition tokensOf (text : string) : list Token.t :=
  if String.eqb text fooText then fooTokens
  else if String.eqb text braceText then braceTokens
  else if String.eqb text labelText then labelTokens
  else if String.eqb text brText then brTokens
  else if String.eqb text indentedText then indentedTokens
  else [].

Definition createScanner (text : string) (offset : Z) (initialState : ScannerState.t)
  : list Token.t :=
  List.filter (fun tok => offset <=? Token.offset tok) (tokensOf text).

Definition isEmptyElement (tag : string) : bool :=
  String.eqb tag "br" || String.eqb tag "hr" || String.eqb tag "img" || String.eqb tag "input".

Definition htmlDocument (node : Node.t) : HTMLDocument.t :=
  {| HTMLDocument.findNodeBefore := fun _ => Some node |}.

Definition emptyDocument : HTMLDocument.t :=
  {| HTMLDocument.findNodeBefore := fun _ => None |}.

(** The registry after the upsert of [c-foo], whose one attribute is
    [label] and whose one property is [name]. *)
Definition registry : gmap string (TagInfo.t string) :=
  addCustomTag (fun _ : unit => None) (fun _ => @None unit) extractAttributes
               (fun _ => ["name"]) (fun _ => []) (fun _ => zeroRange)
               "c-foo" "file:///lwc/foo/foo.js" tt ∅.

Definition providers : list Provider.t := [lwcTagProvider registry].

Definition templateOf (path : string) (sfdx : bool) : option string :=
  if String.eqb path "/lwc/foo/foo.html" then Some "c-foo" else None.

Definition fsPath (uri : string) : string := JS.substring uri 7 (JS.length uri).

Definition complete (document : TextDocument.t) (offset : Z) (node : HTMLDocument.t)
  : Outcome CompletionList.t :=
  doComplete createScanner isEmptyElement providers templateOf fsPath
             document {| line := 0; character := offset |} node true None.

End Sample.

(** ** Further code of [custom-components-util.ts] *)

Arguments removeCustomTagFromFile {ClassMember Diagnostic Error}.
Arguments addCustomTagFromResults {Metadata ClassMember SourceLocation Diagnostic Error}.

(** [FileChangeType] and [FileEvent] of [vscode-languageserver]. *)
Module FileChangeType.
Inductive t := Created | Changed | Deleted.
End FileChangeType.

Module FileEvent.
Record t := { uri : string; type : FileChangeType.t }.
End FileEvent.

Section Indexing.

Variables Metadata ClassMember SourceLocation Diagnostic Error : Type.
Variable doc : Metadata -> option string.
Variable declarationLoc : Metadata -> option SourceLocation.
Variable extractAttributes : Metadata -> string -> list AttributeInfo.t.
Variable getProperties : Metadata -> list ClassMember.
Variable getMethods : Metadata -> list ClassMember.
Variable toVSCodeRange : SourceLocation -> Range.
Variable tagFromFile : string -> bool -> option string.
Variable fileUri : string -> string.
Variable compileFile : string -> Error + CompilerResult Metadata Diagnostic.

(** The upsert that [addCustomTagFromFile] ends in, if it reaches
    [addCustomTag]: the tag of the file and the record built from the
    metadata. *)
Definition upsertOf (file : string) (sfdxProject : bool)
  : option (string * TagInfo.t ClassMember) :=
  match tagFromFile file sfdxProject with
  | Some tag =>
      if JS.truthy tag then
        match compileFile file with
        | inr r =>
            match metadata r with
            | Some md =>
                Some (tag, customTagInfo doc declarationLoc extractAttributes getProperties
                                         getMethods toVSCodeRange tag (fileUri file) md)
            | None => None
            end
        | inl _ => None
        end
      else None
  | None => None
  end.

(** The record of the last file of [filePaths] whose upsert is for [tag]. *)
Fixpoint lastUpsert (filePaths : list string) (sfdxProject : bool) (tag : string)
  : option (TagInfo.t ClassMember) :=
  match filePaths with
  | [] => None
  | file :: rest =>
      match lastUpsert rest sfdxProject tag with
      | Some R => Some R
      | None =>
          match upsertOf file sfdxProject with
          | Some (t, R) => if String.eqb t tag then Some R else None
          | None => None
          end
      end
  end.

(** [s.startsWith(p)] *)
Fixpoint startsWith (p s : string) : bool :=
  match p, s with
  | EmptyString, _ => true
  | String a p', String b s' => Ascii.eqb a b && startsWith p' s'
  | String _ _, EmptyString => false
  end.

(** *** File-change events: [updateCustomComponentIndex]

    [addCustomTagFromFile] is called without [await]: the call runs up to
    its [await compileFile(file)], which it reaches when the file has a
    tag, and the rest of it, which is all of its effect on the registry
    and the console, runs after the loop over the events is over.  The
    files of the calls left in flight are kept in [inFlight]. *)

(** [f.uri.match(`.*${path.sep}lwc${path.sep}.*.js`)] *)
Variable inLwcFolder : string -> bool.

(** [URI.parse(uri).fsPath] and [componentUtil.isJSComponent(file)] *)
Variable fsPath : string -> string.
Variable isJSComponent : string -> bool.

Inductive Notification :=
| OnCreated (file : string)   (* onCreatedCustomComponent(context, file) *)
| OnDeleted (file : string).  (* onDeletedCustomComponent(context, file) *)

Record Index := {
  world : World ClassMember Diagnostic Error;
  inFlight : list string;
  notified : list Notification
}.

(** The body of the [forEach] callback. *)
Definition onFileEvent (isSfdxProject : bool) (s : Index) (f : FileEvent.t) : Index :=
  if inLwcFolder (FileEvent.uri f) then
    let file := fsPath (FileEvent.uri f) in
    if isJSComponent file then
      match FileEvent.type f with
      | FileChangeType.Created =>
          let started :=
            match tagFromFile file isSfdxProject with
            | Some tag => if JS.truthy tag then [file] else []
            | None => []
            end in
          {| world := world s;
             inFlight := inFlight s ++ started;
             notified := notified s ++ [OnCreated file] |}
      | FileChangeType.Deleted =>
          {| world := fst (removeCustomTagFromFile tagFromFile file isSfdxProject (world s));
             inFlight := inFlight s;
             notified := notified s ++ [OnDeleted file] |}
      | FileChangeType.Changed => s
      end
    else s
  else s.

(** [updateCustomComponentIndex(updatedFiles, context)], up to its
    return; [isSfdxProject] is [context.type === WorkspaceType.SFDX]. *)
Definition updateCustomComponentIndex (updatedFiles : list FileEvent.t)
           (isSfdxProject : bool) (s : Index) : Index :=
  fold_left (onFileEvent isSfdxProject) updatedFiles s.

(** The calls in flight completing, in the order [completion]. *)
Definition settle (completion : list string) (isSfdxProject : bool)
           (w : World ClassMember Diagnostic Error) : World ClassMember Diagnostic Error :=
  fold_left
    (fun w file =>
       fst (addCustomTagFromFile doc declarationLoc extractAttributes getProperties getMethods
                                 toVSCodeRange tagFromFile fileUri compileFile
                                 file isSfdxProject w))
    completion w.

End Indexing.

Arguments upsertOf {Metadata ClassMember SourceLocation Diagnostic Error}.
Arguments lastUpsert {Metadata ClassMember SourceLocation Diagnostic Error}.
Arguments Index : clear implicits.
Arguments world {ClassMember Diagnostic Error}.
Arguments inFlight {ClassMember Diagnostic Error}.
Arguments notified {ClassMember Diagnostic Error}.
Arguments onFileEvent {ClassMember Diagnostic Error}.
Arguments updateCustomComponentIndex {ClassMember Diagnostic Error}.
Arguments settle {Metadata ClassMember SourceLocation Diagnostic Error}.

(** A workspace for the sample runs of the indexing code: four component
    files, of which one fails to compile, one compiles to nothing, one
    compiles, and one compiles with a diagnostic. *)
Module Workspace.

Definition tagFromFile (file : string) (sfdx : bool) : option string :=
  if String.eqb file "/ws/lwc/foo/foo.js" then Some "c-foo"
  else if String.eqb file "/ws/lwc/bar/bar.js" then Some "c-bar"
  else if String.eqb file "/ws/lwc/baz/baz.js" then Some "c-baz"
  else if String.eqb file "/ws/lwc/qux/qux.js" then Some "c-qux"
  else None.

Definition compileFile (file : string) : string + CompilerResult string string :=
  if String.eqb file "/ws/lwc/foo/foo.js" then inl "SyntaxError"
  else if String.eqb file "/ws/lwc/bar/bar.js" then inr {| metadata := None; diagnostics := [] |}
  else if String.eqb file "/ws/lwc/qux/qux.js"
       then inr {| metadata := Some "qux"; diagnostics := ["unused import"] |}
       else inr {| metadata := Some "baz"; diagnostics := [] |}.

Definition doc (md : string) : option string := Some md.

Definition declarationLoc (md : string) : option unit := None.

Definition extractAttributes (md : string) (uri : string) : list AttributeInfo.t :=
  [AttributeInfo.create "label" None None None None].

Definition members (md : string) : list string := [].

Definition toVSCodeRange (loc : unit) : Range := zeroRange.

Definition fileUri (file : string) : string := "file://" +:+ file.

Definition fsPath (uri : string) : string := JS.substring uri 7 (JS.length uri).

Definition inLwcFolder (uri : string) : bool :=
  match String.index 0 "/lwc/" uri with
  | Some _ => true
  | None => false
  end.

Definition isJSComponent (file : string) : bool :=
  match tagFromFile file true with
  | Some _ => true
  | None => false
  end.

Definition oldBar : TagInfo.t string :=
  TagInfo.create true [] None (Some "registered earlier") (Some "c-bar") (Some "c") None None.

Definition world0 : World string string string :=
  {| LWC_TAGS := <["c-bar" := oldBar]> ∅; console := [] |}.

Definition index0 : Index string string string :=
  {| world := world0; inFlight := []; notified := [] |}.

Definition addFile :=
  addCustomTagFromFile doc declarationLoc extractAttributes members members toVSCodeRange
                       tagFromFile fileUri compileFile.

Definition scan :=
  loadCustomTagsFromFiles doc declarationLoc extractAttributes members members toVSCodeRange
                          tagFromFile fileUri compileFile.

Definition update :=
  updateCustomComponentIndex (ClassMember := string) (Diagnostic := string) (Error := string)
                             tagFromFile inLwcFolder fsPath isJSComponent.

Definition event (type : FileChangeType.t) (file : string) : FileEvent.t :=
  {| FileEvent.uri := fileUri file; FileEvent.type := type |}.

End Workspace.

(** ** Vocabulary of the further completion properties *)

(** The context an item of [doComplete] belongs to, read off its kind and
    its format as the five builders set them. *)
Inductive Context :=
| TagNameContext | AutoCloseContext | AttributeNameContext
| AttributeValueContext | ExpressionContext.

Definition contextOf (item : CompletionItem.t) : Context :=
  match CompletionItem.kind item, CompletionItem.insertTextFormat item with
  | CompletionItemKind.Property, InsertTextFormat.PlainText => TagNameContext
  | CompletionItemKind.Property, InsertTextFormat.Snippet => AutoCloseContext
  | CompletionItemKind.Function, _ => AttributeNameContext
  | CompletionItemKind.Value, _ => AttributeNameContext
  | CompletionItemKind.Unit, _ => AttributeValueContext
  | CompletionItemKind.Reference, _ => ExpressionContext
  end.

(** A token at which [doComplete] may ask for attribute values. *)
Definition asksForValues (tok : Token.t) : bool :=
  match Token.type tok with
  | TokenType.DelimiterAssign | TokenType.AttributeValue => true
  | TokenType.Whitespace =>
      bool_decide (Token.state tok = ScannerState.BeforeAttributeValue)
  | _ => false
  end.

(** No token asks for attribute values before an attribute name has been
    scanned. *)
Fixpoint namedBeforeValue (tokens : list Token.t) : bool :=
  match tokens with
  | [] => true
  | tok :: rest =>
      if TokenType.eqb (Token.type tok) TokenType.AttributeName then true
      else negb (asksForValues tok) && namedBeforeValue rest
  end.

(** A node followed by its ancestors, nearest first. *)
Fixpoint ancestors (node : Node.t) : list Node.t :=
  node :: match Node.parent node with
          | Some p => ancestors p
          | None => []
          end.

(** The test of line 85: the node has a tag and is not closed, or its end
    tag starts after the cursor. *)
Definition awaitsEndTag (offset : Z) (node : Node.t) : bool :=
  match Node.tag node with
  | Some tag =>
      JS.truthy tag &&
      (negb (Node.closed node) ||
       match Node.endTagStart node with Some e => e >? offset | None => false end)
  | None => false
  end.

(** ** Further sample inputs *)

Module Forms.

(** A provider of plain HTML vocabulary. *)
Definition html5 : Provider.t :=
  {| Provider.getId := "html5";
     Provider.isApplicable := fun languageId => String.eqb languageId "html";
     Provider.collectTags :=
       [ {| Provider.tag := "div"; Provider.tagDocumentation := None |};
         {| Provider.tag := "input"; Provider.tagDocumentation := Some "An input field" |} ];
     Provider.collectAttributes := fun tag =>
       if String.eqb tag "input"
       then [ {| Provider.attribute := "type"; Provider.detail := None;
                 Provider.documentation := None; Provider.type := None |};
              {| Provider.attribute := "disabled"; Provider.detail := None;
                 Provider.documentation := None; Provider.type := Some "v" |} ]
       else [];
     Provider.collectValues := fun tag attribute =>
       if String.eqb tag "input" && String.eqb attribute "type"
       then ["text"; "checkbox"] else [];
     Provider.collectExpressionValues := fun _ => [] |}.

Definition providers : list Provider.t := [lwcTagProvider Sample.registry; html5].

(** The template [<input type=>]. *)
Definition assignText : string := "<input type=>".

Definition assignTokens : list Token.t :=
  [ Token.create TokenType.StartTagOpen 0 1 ScannerState.AfterOpeningStartTag;
    Token.create TokenType.StartTag 1 6 ScannerState.WithinTag;
    Token.create TokenType.Whitespace 6 7 ScannerState.WithinTag;
    Token.create TokenType.AttributeName 7 11 ScannerState.AfterAttributeName;
    Token.create TokenType.DelimiterAssign 11 12 ScannerState.BeforeAttributeValue;
    Token.create TokenType.StartTagClose 12 13 ScannerState.WithinContent ].

(** The template [<input type=QaSbQ>], with double quotes for [Q] and a
    space for [S]. *)
Definition quotedText : string :=
  "<input type=" +:+ String JS.dquote ("a b" +:+ String JS.dquote ">").

Definition quotedTokens : list Token.t :=
  [ Token.create TokenType.StartTagOpen 0 1 ScannerState.AfterOpeningStartTag;
    Token.create TokenType.StartTag 1 6 ScannerState.WithinTag;
    Token.create TokenType.Whitespace 6 7 ScannerState.WithinTag;
    Token.create TokenType.AttributeName 7 11 ScannerState.AfterAttributeName;
    Token.create TokenType.DelimiterAssign 11 12 ScannerState.BeforeAttributeValue;
    Token.create TokenType.AttributeValue 12 17 ScannerState.WithinTag;
    Token.create TokenType.StartTagClose 17 18 ScannerState.WithinContent ].

Definition createScanner (text : string) (offset : Z) (initialState : ScannerState.t)
  : list Token.t :=
  if String.eqb text assignText
  then List.filter (fun tok => offset <=? Token.offset tok) assignTokens
  else if String.eqb text quotedText
       then List.filter (fun tok => offset <=? Token.offset tok) quotedTokens
       else Sample.createScanner text offset initialState.

Definition inputNode (len : Z) : Node.t :=
  Node.create (Some "input") 0 len false None (Some (Sample.root len)).

Definition complete (text : string) (node : Node.t) (offset : Z)
           (settings : option (gmap string bool)) : Outcome CompletionList.t :=
  doComplete createScanner Sample.isEmptyElement providers Sample.templateOf Sample.fsPath
             (Sample.oneLine "file:///lwc/foo/foo.html" text)
             {| line := 0; character := offset |} (Sample.htmlDocument node) true settings.

(** The template [<div><p><b></b></div>] and its nodes for a cursor in
    the end tag of [div]: [b] is closed, [p] is not, [div] is closed by
    the end tag the cursor is in. *)
Definition nestedText : string := "<div><p><b></b></div>".

Definition nestedDocument : TextDocument.t :=
  Sample.oneLine "file:///lwc/foo/foo.html" nestedText.

Definition divElement : Node.t :=
  Node.create (Some "div") 0 21 true (Some 15) (Some (Sample.root 21)).

Definition pElement : Node.t :=
  Node.create (Some "p") 5 15 false None (Some divElement).

Definition bElement : Node.t :=
  Node.create (Some "b") 8 15 true (Some 11) (Some pElement).


Definition nameReference : CompletionItem.t :=
  {| CompletionItem.label := "name";
     CompletionItem.kind := CompletionItemKind.Reference;
     CompletionItem.detail := None;
     CompletionItem.documentation := None;
     CompletionItem.filterText := None;
     CompletionItem.textEdit :=
       TextEdit.replace {| start := {| line := 0; character := 11 |};
                           end_ := {| line := 0; character := 12 |} |} "name";
     CompletionItem.insertTextFormat := InsertTextFormat.PlainText |}.

End Forms.

(** ** Properties of the registry *)

Section RegistryProperties.

Context {Metadata ClassMember SourceLocation Diagnostic Error : Type}.
Variable doc : Metadata -> option string.
Variable declarationLoc : Metadata -> option SourceLocation.
Variable extractAttributes : Metadata -> string -> list AttributeInfo.t.
Variable getProperties : Metadata -> list ClassMember.
Variable getMethods : Metadata -> list ClassMember.
Variable toVSCodeRange : SourceLocation -> Range.
Variable tagFromFile : string -> bool -> option string.
Variable fileUri : string -> string.
Variable compileFile : string -> Error + CompilerResult Metadata Diagnostic.

Local Abbreviation Tags := (gmap string (TagInfo.t ClassMember)).
Local Abbreviation customTagInfo' :=
  (customTagInfo doc declarationLoc extractAttributes getProperties getMethods toVSCodeRange).
Local Abbreviation addCustomTag' :=
  (addCustomTag doc declarationLoc extractAttributes getProperties getMethods toVSCodeRange).
Local Abbreviation addCustomTagFromFile' :=
  (addCustomTagFromFile doc declarationLoc extractAttributes getProperties getMethods
                        toVSCodeRange tagFromFile fileUri compileFile).
Local Abbreviation forEachFile' :=
  (forEachFile doc declarationLoc extractAttributes getProperties getMethods
               toVSCodeRange tagFromFile fileUri compileFile).
Local Abbreviation loadCustomTagsFromFiles' :=
  (loadCustomTagsFromFiles doc declarationLoc extractAttributes getProperties getMethods
                           toVSCodeRange tagFromFile fileUri compileFile).

(** C2. Whatever the registry holds, [get] after an upsert of [R] under
    [t] yields [R], also when [t] was bound before (last write wins), and
    [get] after [remove] yields nothing; the upsert of the single-file
    path stores the record it built. *)
Theorem upsert_get_remove_round_trip
        (t : string) (R R' : TagInfo.t ClassMember) (uri : string) (md : Metadata)
        (registry : Tags) :
  getLwcByTag (setTag t R registry) t = Some R
  /\ getLwcByTag (setTag t R (setTag t R' registry)) t = Some R
  /\ getLwcByTag (removeCustomTag t registry) t = None
  /\ getLwcByTag (removeCustomTag t (setTag t R registry)) t = None
  /\ getLwcByTag (addCustomTag' t uri md registry) t = Some (customTagInfo' t uri md).
Proof.
  unfold getLwcByTag, addCustomTag, setTag, removeCustomTag.
  rewrite !lookup_insert_eq, !lookup_delete_eq. auto.
Qed.

(** C10. The record [addCustomTag] stores always has a declaration
    location: the converted location of the metadata when there is one,
    and otherwise the range (0,0)-(0,0), at the URI given. *)
Theorem addCustomTag_location_present
        (tag uri : string) (md : Metadata) (registry : Tags) :
  exists info : TagInfo.t ClassMember,
    getLwcByTag (addCustomTag' tag uri md registry) tag = Some info
    /\ TagInfo.declarationLocation info =
       Some {| uri := uri;
               range :=
                 match declarationLoc md with
                 | Some loc => toVSCodeRange loc
                 | None => {| start := {| line := 0; character := 0 |};
                              end_ := {| line := 0; character := 0 |} |}
                 end |}.
Proof.
  exists (customTagInfo' tag uri md). split.
  - unfold getLwcByTag, addCustomTag, setTag. apply lookup_insert_eq.
  - unfold customTagInfo. simpl. destruct (declarationLoc md); reflexivity.
Qed.

(** *** The workspace scan *)

Lemma addCustomTagFromFile_returns (file : string) (sfdx : bool)
      (w : World ClassMember Diagnostic Error) :
  snd (addCustomTagFromFile' file sfdx w) = inr tt.
Proof.
  unfold addCustomTagFromFile.
  destruct (tagFromFile file sfdx) as [tag|]; [|reflexivity].
  destruct (JS.truthy tag); [|reflexivity].
  unfold tryCatch, bind, await, when.
  destruct (compileFile file) as [e|r]; [reflexivity|].
  destruct (nonEmpty (diagnostics r)); simpl;
    destruct (metadata r); reflexivity.
Qed.

Lemma forEachFile_returns (files : list string) (sfdx : bool)
      (w : World ClassMember Diagnostic Error) :
  snd (forEachFile' files sfdx w) = inr tt.
Proof.
  revert w. induction files as [|file rest IH]; intros w; [reflexivity|].
  simpl. unfold bind at 1.
  pose proof (addCustomTagFromFile_returns file sfdx w) as Hret.
  destruct (addCustomTagFromFile' file sfdx w) as [w' [e|[]]]; simpl in Hret.
  - discriminate.
  - apply IH.
Qed.

Lemma loadCustomTagsFromFiles_returns (files : list string) (sfdx : bool)
      (w : World ClassMember Diagnostic Error) :
  snd (loadCustomTagsFromFiles' files sfdx w) = inr tt.
Proof.
  unfold loadCustomTagsFromFiles, bind.
  pose proof (forEachFile_returns files sfdx w) as Hret.
  destruct (forEachFile' files sfdx w) as [w' [e|[]]]; simpl in Hret.
  - discriminate.
  - reflexivity.
Qed.

(** C4, as the code has it.  For a component file (one a tag is derived
    from) whose compilation throws or yields no metadata, the registry is
    left as it was, the console receives the error when the compiler threw
    and the diagnostics when it returned some, the loop goes on with the
    remaining files, and the scan as a whole returns normally. *)
Theorem compile_failure_skips_file
        (file tag : string) (rest : list string) (sfdx : bool)
        (w : World ClassMember Diagnostic Error) :
  tagFromFile file sfdx = Some tag ->
  JS.truthy tag = true ->
  match compileFile file with
  | inl _ => True
  | inr r => metadata r = None
  end ->
  let w' := {| LWC_TAGS := LWC_TAGS w;
               console := console w ++ failureReport file (compileFile file) |} in
  addCustomTagFromFile' file sfdx w = (w', inr tt)
  /\ forEachFile' (file :: rest) sfdx w = forEachFile' rest sfdx w'
  /\ snd (loadCustomTagsFromFiles' (file :: rest) sfdx w) = inr tt.
Proof.
  intros Htag Htruthy Hfail w'.
  assert (Hone : addCustomTagFromFile' file sfdx w = (w', inr tt)).
  { unfold addCustomTagFromFile. rewrite Htag, Htruthy.
    unfold tryCatch, bind, await, when, w', failureReport.
    destruct (compileFile file) as [e|r]; [reflexivity|].
    rewrite Hfail.
    destruct (nonEmpty (diagnostics r)); simpl.
    - reflexivity.
    - rewrite app_nil_r. destruct w; reflexivity. }
  split; [exact Hone|]. split.
  - simpl. unfold bind at 1. rewrite Hone. reflexivity.
  - apply loadCustomTagsFromFiles_returns.
Qed.

End RegistryProperties.

(** C4, witness: the file whose compilation throws. *)
Lemma compile_failure_skips_file_witness :
  Sample.tagFromFile "lwc/foo/foo.js" true = Some "c-foo"
  /\ addCustomTagFromFile (fun _ => None) (fun _ => None) Sample.extractAttributes
       (fun _ => []) (fun _ => []) (fun u : unit => zeroRange)
       Sample.tagFromFile (fun f => f) Sample.compileFile "lwc/foo/foo.js" true Sample.world0
     = ({| LWC_TAGS := LWC_TAGS Sample.world0;
           console := [LogError "lwc/foo/foo.js" "SyntaxError"] |}, inr tt).
Proof.
  split; [reflexivity|].
  apply (compile_failure_skips_file (fun _ => None) (fun _ => None) Sample.extractAttributes
           (fun _ => []) (fun _ => []) (fun u : unit => zeroRange)
           Sample.tagFromFile (fun f => f) Sample.compileFile
           "lwc/foo/foo.js" "c-foo" [] true Sample.world0);
    [reflexivity | reflexivity | exact I].
Defined.

(** C4, as stated, fails: a compilation that returns neither metadata nor
    diagnostics leaves the console as it was, so nothing is reported. *)
Lemma absent_metadata_not_reported :
  Sample.tagFromFile "lwc/bar/bar.js" true = Some "c-bar"
  /\ Sample.compileFile "lwc/bar/bar.js" = inr {| metadata := None; diagnostics := [] |}
  /\ console
       (fst (loadCustomTagsFromFiles (fun _ => None) (fun _ => None) Sample.extractAttributes
               (fun _ => []) (fun _ => []) (fun u : unit => zeroRange)
               Sample.tagFromFile (fun f => f) Sample.compileFile
               ["lwc/bar/bar.js"] true Sample.world0))
     = [LogProcessed 1].
Proof. repeat split; reflexivity. Qed.

(** A scan over the three sample files: the first throws and the second
    has no metadata, yet the third is compiled and registered; the entry
    of the second file's tag is the one the registry held before. *)
Example scan_goes_on_after_failures :
  let w := fst (loadCustomTagsFromFiles (fun _ => None) (fun _ => None) Sample.extractAttributes
                  (fun _ => []) (fun _ => []) (fun u : unit => zeroRange)
                  Sample.tagFromFile (fun f => f) Sample.compileFile
                  ["lwc/foo/foo.js"; "lwc/bar/bar.js"; "lwc/baz/baz.js"] true Sample.world0) in
  console w = [LogError "lwc/foo/foo.js" "SyntaxError"; LogProcessed 3]
  /\ LWC_TAGS w !! "c-foo" = None
  /\ LWC_TAGS w !! "c-bar" = Some Sample.noTag
  /\ TagInfo.tagName <$> LWC_TAGS w !! "c-baz" = Some (Some "c-baz").
Proof. repeat split; vm_compute; reflexivity. Qed.

(** *** The bulk load of the standard tags *)

Lemma append_empty_l (s : string) : "" +:+ s = s.
Proof. reflexivity. Qed.

Lemma append_cons (c : ascii) (r s : string) : String c r +:+ s = String c (r +:+ s).
Proof. reflexivity. Qed.

Lemma upper_lowered (c : ascii) :
  JS.is_upper c = true ->
  Ascii.eqb (JS.lower_char c) "-" = false
  /\ JS.is_lower (JS.lower_char c) = true
  /\ JS.is_upper (JS.lower_char c) = false.
Proof.
  destruct c as [b0 b1 b2 b3 b4 b5 b6 b7].
  destruct b0, b1, b2, b3, b4, b5, b6, b7; vm_compute; intros H;
    try discriminate H; repeat split.
Qed.

Lemma alnum_not_upper (c : ascii) :
  JS.is_upper c = false -> is_alnum c = true ->
  Ascii.eqb c "-" = false /\ JS.is_lower c || JS.is_digit c = true.
Proof.
  destruct c as [b0 b1 b2 b3 b4 b5 b6 b7].
  destruct b0, b1, b2, b3, b4, b5, b6, b7; vm_compute; intros H1 H2;
    try discriminate H1; try discriminate H2; repeat split.
Qed.

Lemma camelToKebab_no_upper (name : string) : no_upper (camelToKebab name) = true.
Proof.
  unfold no_upper. induction name as [|c r IH]; [reflexivity|].
  simpl. destruct (JS.is_upper c) eqn:Hc.
  - destruct (upper_lowered c Hc) as (_ & _ & Hup).
    simpl. rewrite append_empty_l, Hup, IH. reflexivity.
  - simpl. rewrite Hc, IH. reflexivity.
Qed.

Lemma camelToKebab_words (r : string) :
  JS.all_chars is_alnum r = true -> kebab_from false (camelToKebab r) = true.
Proof.
  induction r as [|c r IH]; [reflexivity|].
  simpl. intros [Hc Hr]%andb_prop.
  destruct (JS.is_upper c) eqn:Hup.
  - destruct (upper_lowered c Hup) as (Hhy & Hlow & _).
    simpl. rewrite append_empty_l, Hhy, Hlow. simpl. auto.
  - destruct (alnum_not_upper c Hup Hc) as (Hhy & Hlow).
    simpl. rewrite Hhy, Hlow. simpl. auto.
Qed.

Lemma camelToKebab_kebab_case (name : string) :
  lower_camel_case name = true -> kebab_case (camelToKebab name) = true.
Proof.
  destruct name as [|c r]; [discriminate|].
  simpl. intros [Hc Hr]%andb_prop.
  assert (Hup : JS.is_upper c = false).
  { destruct c as [b0 b1 b2 b3 b4 b5 b6 b7].
    destruct b0, b1, b2, b3, b4, b5, b6, b7; vm_compute in Hc |- *;
      try discriminate Hc; reflexivity. }
  rewrite Hup. unfold kebab_case. simpl.
  assert (Hal : is_alnum c = true) by (unfold is_alnum; rewrite Hc; reflexivity).
  destruct (alnum_not_upper c Hup Hal) as (Hhy & Hlow).
  rewrite Hhy, Hlow. simpl. apply camelToKebab_words, Hr.
Qed.

Lemma standard_names (ClassMember : Type) (d : StandardTag.t) :
  map AttributeInfo.name (TagInfo.attributes (@standardTagInfo ClassMember d)) =
  map (fun a => camelToKebab (StandardAttribute.name a))
      (default [] (StandardTag.attributes d)).
Proof.
  unfold standardTagInfo. simpl.
  destruct (StandardTag.attributes d) as [l|]; [|reflexivity].
  simpl. rewrite map_map. reflexivity.
Qed.

Lemma lightning_prefix_inj (a b : string) :
  "lightning-" +:+ a = "lightning-" +:+ b -> a = b.
Proof. simpl. intros H. injection H. auto. Qed.

Lemma loadStandardComponents_other {ClassMember : Type}
      (l : list (string * StandardTag.t)) (tag : string)
      (registry : gmap string (TagInfo.t ClassMember)) :
  ~ In tag (map fst l) ->
  loadStandardComponents l registry !! ("lightning-" +:+ tag) =
  registry !! ("lightning-" +:+ tag).
Proof.
  revert registry. induction l as [|[t d] rest IH]; intros registry Hnot; [reflexivity|].
  simpl in Hnot |- *. rewrite IH by tauto.
  unfold setTag. rewrite lookup_insert_ne; [reflexivity|].
  intros Heq. apply lightning_prefix_inj in Heq. tauto.
Qed.

Lemma loadStandardComponents_lookup {ClassMember : Type}
      (l : list (string * StandardTag.t)) (tag : string) (d : StandardTag.t)
      (registry : gmap string (TagInfo.t ClassMember)) :
  NoDup (map fst l) -> In (tag, d) l ->
  loadStandardComponents l registry !! ("lightning-" +:+ tag) = Some (standardTagInfo d).
Proof.
  revert registry. induction l as [|[t e] rest IH]; intros registry Hnd Hin; [destruct Hin|].
  simpl in Hnd. apply NoDup_cons in Hnd as [Hfresh Hnd].
  destruct Hin as [Heq|Hin].
  - injection Heq as -> ->. simpl.
    rewrite loadStandardComponents_other.
    + unfold setTag. apply lookup_insert_eq.
    + intros Hin. apply Hfresh. apply list_elem_of_In. exact Hin.
  - simpl. apply IH; assumption.
Qed.

(** C5, as the code has it.  After the load, each tag of the resource is
    registered under [lightning-] followed by its name; each of its
    attribute names is the source name with every letter A..Z replaced by
    a hyphen and the lower-case letter, so it holds no such letter, and it
    is kebab case when the source name is lower camel case. *)
Theorem standard_attribute_names_converted {ClassMember : Type}
        (lwcStandard : list (string * StandardTag.t)) (tag : string) (d : StandardTag.t)
        (registry : gmap string (TagInfo.t ClassMember)) :
  NoDup (map fst lwcStandard) ->
  In (tag, d) lwcStandard ->
  exists info : TagInfo.t ClassMember,
    getLwcByTag (loadStandardComponents lwcStandard registry) ("lightning-" +:+ tag) = Some info
    /\ map AttributeInfo.name (TagInfo.attributes info) =
       map (fun a => camelToKebab (StandardAttribute.name a))
           (default [] (StandardTag.attributes d))
    /\ Forall (fun a => no_upper (AttributeInfo.name a) = true) (TagInfo.attributes info)
    /\ Forall (fun a => lower_camel_case (StandardAttribute.name a) = true ->
                        kebab_case (camelToKebab (StandardAttribute.name a)) = true)
              (default [] (StandardTag.attributes d)).
Proof.
  intros Hnd Hin. exists (standardTagInfo d). split; [|split; [|split]].
  - unfold getLwcByTag. apply loadStandardComponents_lookup; assumption.
  - apply standard_names.
  - unfold standardTagInfo. simpl.
    destruct (StandardTag.attributes d) as [l|]; [|constructor].
    apply List.Forall_forall. intros a [s [<- _]]%in_map_iff.
    apply camelToKebab_no_upper.
  - apply List.Forall_forall. intros a _. apply camelToKebab_kebab_case.
Qed.

(** C5, witness: [iconName] is stored as [icon-name] under
    [lightning-button]. *)
Lemma standard_attribute_names_converted_witness :
  exists info : TagInfo.t unit,
    getLwcByTag (loadStandardComponents Sample.camelResource ∅) "lightning-button" = Some info
    /\ map AttributeInfo.name (TagInfo.attributes info) = ["icon-name"]
    /\ kebab_case "icon-name" = true.
Proof.
  destruct (standard_attribute_names_converted (ClassMember := unit)
              Sample.camelResource "button"
              {| StandardTag.description := Some "A button";
                 StandardTag.attributes :=
                   Some [ {| StandardAttribute.name := "iconName";
                             StandardAttribute.description := None;
                             StandardAttribute.type := Some "string" |} ] |} ∅)
    as (info & Hget & Hnames & _ & _).
  - repeat constructor. simpl. intros H. inversion H.
  - left. reflexivity.
  - exists info. split; [exact Hget|]. split; [exact Hnames|reflexivity].
Defined.

(** C5, as stated, fails: the source name [IconName] is stored as
    [-icon-name], which is not kebab case. *)
Lemma pascal_case_name_not_kebab :
  (map AttributeInfo.name ∘ TagInfo.attributes) <$>
    getLwcByTag (loadStandardComponents (ClassMember := unit) Sample.pascalResource ∅)
                "lightning-button"
  = Some ["-icon-name"]
  /\ kebab_case "-icon-name" = false.
Proof. split; vm_compute; reflexivity. Qed.

(** ** Properties of the completion engine *)

Section CompletionProperties.

Variable createScanner : string -> Z -> ScannerState.t -> list Token.t.
Variable isEmptyElement : string -> bool.
Variable allTagProviders : list Provider.t.
Variable tagFromFile : string -> bool -> option string.
Variable fsPath : string -> string.

Local Abbreviation doComplete' :=
  (doComplete createScanner isEmptyElement allTagProviders tagFromFile fsPath).
Local Abbreviation doTagComplete' := (doTagComplete createScanner isEmptyElement).

(** C8. When the parse tree has no node before the offset, [doComplete]
    returns the empty list, not incomplete, and does not throw. *)
Theorem doComplete_without_node
        (document : TextDocument.t) (position : Position)
        (htmlDocument : HTMLDocument.t) (sfdxWorkspace : bool)
        (settings : option (gmap string bool)) :
  HTMLDocument.findNodeBefore htmlDocument (TextDocument.offsetAt document position) = None ->
  doComplete' document position htmlDocument sfdxWorkspace settings =
  Returns {| CompletionList.isIncomplete := false; CompletionList.items := [] |}.
Proof. intros Hnode. unfold doComplete. rewrite Hnode. reflexivity. Qed.

(** C9. [doTagComplete] answers [null] when the offset is not positive or
    the character before it is neither [>] nor [/], whatever the parse
    tree and the scanner say. *)
Theorem doTagComplete_other_character
        (document : TextDocument.t) (position : Position) (htmlDocument : HTMLDocument.t) :
  let offset := TextDocument.offsetAt document position in
  let char := JS.charAt (TextDocument.getText document) (offset - 1) in
  offset <= 0 \/ (char <> ">" /\ char <> "/") ->
  doTagComplete' document position htmlDocument = None.
Proof.
  intros offset char Hother. unfold doTagComplete. fold offset. fold char.
  destruct (offset <=? 0) eqn:Hpos; [reflexivity|].
  destruct Hother as [Hle|[Hgt Hslash]].
  - apply Z.leb_gt in Hpos. lia.
  - apply String.eqb_neq in Hgt, Hslash. rewrite Hgt, Hslash. reflexivity.
Qed.

(** *** Going through the tokens that end before the cursor *)

Section Scan.

Variable document : TextDocument.t.
Variable sfdxWorkspace : bool.
Variable settings : option (gmap string bool).
Variable tagProviders : list Provider.t.
Variable text : string.
Variable offset : Z.
Variable node : Node.t.

Local Abbreviation scan :=
  (scanTokens createScanner isEmptyElement tagFromFile fsPath document sfdxWorkspace
              settings tagProviders text offset node).
Local Abbreviation expressions :=
  (collectExpressionSuggestions tagFromFile fsPath document sfdxWorkspace tagProviders
                                text offset).
Local Abbreviation attributeNames :=
  (collectAttributeNameSuggestions createScanner document tagProviders text offset).

Lemma expressionLoop_none (n : nat) (i : Z) (r r' : CompletionList.t) :
  expressionLoop tagFromFile fsPath document sfdxWorkspace tagProviders text offset n i r = None ->
  expressionLoop tagFromFile fsPath document sfdxWorkspace tagProviders text offset n i r' = None.
Proof.
  revert i. induction n as [|n IH]; intros i; simpl; [reflexivity|].
  destruct (charIs text i "{"); [|apply IH].
  destruct (templateTag tagFromFile fsPath document sfdxWorkspace) as [tag|]; [|apply IH].
  destruct (JS.truthy tag); [discriminate|apply IH].
Qed.

Lemma expressions_none (valueStart : Z) (r r' : CompletionList.t) :
  expressions valueStart r = None -> expressions valueStart r' = None.
Proof.
  unfold collectExpressionSuggestions.
  destruct (_ && _ && _); [apply expressionLoop_none|reflexivity].
Qed.

Lemma inOrder_app (pre : list Token.t) (tok : Token.t) (from : Z) :
  inOrder from (pre ++ [tok]) = true ->
  inOrder from pre = true
  /\ from <= Token.offset tok
  /\ Forall (fun t => Token.end_ t <= Token.offset tok) pre
  /\ Token.offset tok <= Token.end_ tok
  /\ Token.type tok <> TokenType.EOS.
Proof.
  revert from. induction pre as [|t pre IH]; intros from; simpl.
  - rewrite !andb_true_iff, negb_true_iff. intros [[[Hfrom Hle] Heos] _].
    repeat split; [lia|constructor|lia|].
    unfold TokenType.eqb in Heos. apply bool_decide_eq_false in Heos. exact Heos.
  - rewrite !andb_true_iff. intros [[[Hfrom Hle] Heos] Hrest].
    destruct (IH _ Hrest) as (Hpre & Hnext & Hall & Htok & Hne).
    split; [|split; [|split; [|split]]]; try assumption.
    + auto.
    + lia.
    + constructor; [lia|exact Hall].
Qed.

(** A token that ends before the cursor makes the loop go on, with
    [currentTag] and [currentAttributeName] updated, unless it is of a
    [default] kind and an expression is detected. *)
Lemma scan_skip (pre rest : list Token.t) (from : Z) (currentTag : string)
      (currentAttributeName : option string) (result : CompletionList.t) :
  inOrder from pre = true ->
  Forall (fun t => Token.end_ t < offset) pre ->
  Forall (fun t => isFallback (Token.type t) = true ->
                   expressions (Token.length t) emptyList = None) pre ->
  scan (pre ++ rest) currentTag currentAttributeName result =
  scan rest (tagAfter text currentTag pre) (nameAfter text currentAttributeName pre) result.
Proof.
  revert from currentTag currentAttributeName.
  induction pre as [|[ty o e st] pre IH]; intros from ct ca Hord Hend Hexpr; [reflexivity|].
  simpl in Hord. rewrite !andb_true_iff, negb_true_iff in Hord.
  destruct Hord as [[[_ Hle] Heos] Hord]. simpl in Hle, Heos, Hord.
  apply Forall_cons in Hend as [He Hend]. simpl in He.
  apply Forall_cons in Hexpr as [Hx Hexpr]. simpl in Hx.
  assert (H1 : (o <=? offset) = true) by lia.
  assert (H2 : (e =? offset) = false) by lia.
  assert (H3 : (offset <=? e) = false) by lia.
  simpl app. simpl scanTokens. rewrite Heos, H1, ?H2, ?H3. simpl negb. cbv iota.
  destruct ty; simpl in Heos; try discriminate Heos;
    rewrite ?H1, ?H2, ?H3, ?andb_false_r; simpl;
    try (apply (IH e); assumption);
    (rewrite (expressions_none _ emptyList result (Hx eq_refl));
     apply (IH e); assumption).
Qed.

Lemma attributeNames_items (currentTag : string) (nameStart nameEnd : Z) :
  Forall (fun item => isAttributeNameSuggestion item = true)
         (CompletionList.items (attributeNames currentTag nameStart nameEnd emptyList)).
Proof.
  unfold collectAttributeNameSuggestions. simpl.
  apply List.Forall_forall. intros item Hin.
  apply in_flat_map in Hin as (p & _ & Hin).
  apply in_map_iff in Hin as (entry & <- & _).
  unfold isAttributeNameSuggestion, attributeNameItem. simpl.
  destruct (bool_decide (Provider.type entry = Some "handler")); reflexivity.
Qed.

(** *** Where auto-close suggestions come from *)

Lemma extendedPlainly_refl (r : CompletionList.t) : extendedPlainly r r.
Proof.
  exists []. split; [|constructor].
  destruct r. unfold CompletionList.pushAll. simpl. rewrite app_nil_r. reflexivity.
Qed.

Lemma extendedPlainly_trans (r1 r2 r3 : CompletionList.t) :
  extendedPlainly r1 r2 -> extendedPlainly r2 r3 -> extendedPlainly r1 r3.
Proof.
  intros (n1 & -> & H1) (n2 & -> & H2). exists (n1 ++ n2). split.
  - unfold CompletionList.pushAll. simpl. rewrite app_assoc. reflexivity.
  - apply Forall_app. split; assumption.
Qed.

Lemma pushAll_plainly {A B : Type} (r : CompletionList.t) (outer : list A)
      (inner : A -> list B) (mk : A -> B -> CompletionItem.t) :
  (forall a b, isAutoCloseSuggestion (mk a b) = false) ->
  extendedPlainly r
    (CompletionList.pushAll r (flat_map (fun a => map (mk a) (inner a)) outer)).
Proof.
  intros Hmk. eexists. split; [reflexivity|].
  apply List.Forall_forall. intros item Hin.
  apply in_flat_map in Hin as (a & _ & Hin).
  apply in_map_iff in Hin as (b & <- & _). apply Hmk.
Qed.

Lemma push_plainly (r : CompletionList.t) (item : CompletionItem.t) :
  isAutoCloseSuggestion item = false -> extendedPlainly r (CompletionList.push r item).
Proof. intros H. exists [item]. split; [reflexivity|]. repeat constructor. exact H. Qed.

Lemma open_plainly (afterOpenBracket tagNameEnd : Z) (r : CompletionList.t) :
  extendedPlainly r
    (collectOpenTagSuggestions document tagProviders offset afterOpenBracket tagNameEnd r).
Proof.
  unfold collectOpenTagSuggestions.
  apply (pushAll_plainly r tagProviders Provider.collectTags
           (fun provider =>
              openTagItem (getReplaceRange document offset afterOpenBracket tagNameEnd)
                (if String.eqb (Provider.getId provider) "lwc" then Some "LWC tag" else None))).
  reflexivity.
Qed.

Lemma close_plainly (afterOpenBracket : Z) (inOpenTag : bool) (tagNameEnd : Z)
      (r : CompletionList.t) :
  extendedPlainly r
    (collectCloseTagSuggestions createScanner document tagProviders text offset node
                                afterOpenBracket inOpenTag tagNameEnd r).
Proof.
  unfold collectCloseTagSuggestions.
  destruct (_ ≫= openAncestor offset) as [[curr tag]|].
  - apply push_plainly. unfold closeAncestorItem.
    destruct (getLineIndent text (Node.start curr)) as [s|]; [|reflexivity].
    destruct (getLineIndent text (afterOpenBracket - 1)) as [e|]; [|reflexivity].
    destruct (negb (String.eqb s e)); reflexivity.
  - destruct inOpenTag; [apply extendedPlainly_refl|].
    match goal with
    | |- context [closeTagItem ?range ?closeTag] =>
        apply (pushAll_plainly r tagProviders Provider.collectTags
                 (fun _ e => closeTagItem range closeTag (Provider.tagDocumentation e)
                                          (Provider.tag e)))
    end.
    reflexivity.
Qed.

Lemma tag_plainly (tagStart tagEnd : Z) (r : CompletionList.t) :
  extendedPlainly r
    (collectTagSuggestions createScanner document tagProviders text offset node
                           tagStart tagEnd r).
Proof.
  unfold collectTagSuggestions.
  eapply extendedPlainly_trans; [apply open_plainly|apply close_plainly].
Qed.

Lemma attributeNames_plainly (currentTag : string) (nameStart nameEnd : Z)
      (r : CompletionList.t) :
  extendedPlainly r (attributeNames currentTag nameStart nameEnd r).
Proof.
  unfold collectAttributeNameSuggestions.
  match goal with
  | |- context [attributeNameItem ?range ?value] =>
      apply (pushAll_plainly r tagProviders
               (fun provider => Provider.collectAttributes provider (JS.toLowerCase currentTag))
               (fun _ => attributeNameItem range value))
  end.
  intros _ e. unfold isAutoCloseSuggestion, attributeNameItem. simpl.
  destruct (bool_decide (Provider.type e = Some "handler")); reflexivity.
Qed.

Lemma expressionLoop_plainly (n : nat) (i : Z) (r r' : CompletionList.t) :
  expressionLoop tagFromFile fsPath document sfdxWorkspace tagProviders text offset n i r = Some r' ->
  extendedPlainly r r'.
Proof.
  revert i. induction n as [|n IH]; intros i; simpl; [discriminate|].
  destruct (charIs text i "{"); [|apply IH].
  destruct (templateTag tagFromFile fsPath document sfdxWorkspace) as [tag|]; [|apply IH].
  destruct (JS.truthy tag); [|apply IH].
  intros [= <-].
  apply (pushAll_plainly r tagProviders
           (fun provider => Provider.collectExpressionValues provider tag)
           (fun _ => expressionItem text offset (getReplaceRange document offset (i + 1) offset))).
  reflexivity.
Qed.

Lemma expressions_plainly (valueStart : Z) (r r' : CompletionList.t) :
  expressions valueStart r = Some r' -> extendedPlainly r r'.
Proof.
  unfold collectExpressionSuggestions.
  destruct (_ && _ && _); [apply expressionLoop_plainly|discriminate].
Qed.

Lemma attributeValues_plainly (currentTag : string) (currentAttributeName : option string)
      (valueStart valueEnd : Z) (r r' : CompletionList.t) :
  collectAttributeValueSuggestions tagFromFile fsPath document sfdxWorkspace tagProviders
    text offset currentTag currentAttributeName valueStart valueEnd r = Returns r' ->
  extendedPlainly r r'.
Proof.
  unfold collectAttributeValueSuggestions.
  destruct (expressions valueStart r) as [r0|] eqn:Hexpr.
  - intros [= <-]. apply expressions_plainly in Hexpr. exact Hexpr.
  - destruct (_ && _ && _); destruct currentAttributeName as [name|]; try discriminate;
      intros [= <-];
      match goal with
      | |- context [attributeValueItem ?range ?q] =>
          apply (pushAll_plainly r tagProviders
                   (fun provider => Provider.collectValues provider (JS.toLowerCase currentTag)
                                                           (JS.toLowerCase name))
                   (fun _ => attributeValueItem range q))
      end; intros _ v; unfold isAutoCloseSuggestion; reflexivity.
Qed.

(** A run of the loop either adds no auto-close suggestion, or returns
    at a [StartTagClose] token with the one auto-close suggestion for the
    tag name scanned last, which is then not a void element. *)
Lemma scan_auto_close (tokens : list Token.t) (currentTag : string)
      (currentAttributeName : option string) (result r : CompletionList.t) :
  scan tokens currentTag currentAttributeName result = Returns r ->
  extendedPlainly result r
  \/ exists pre tok post,
       tokens = pre ++ tok :: post
       /\ Token.type tok = TokenType.StartTagClose
       /\ Token.offset tok <= offset <= Token.end_ tok
       /\ JS.truthy (tagAfter text currentTag pre) = true
       /\ isEmptyElement (tagAfter text currentTag pre) = false
       /\ hideAutoCompleteProposals settings = false
       /\ r = CompletionList.push result
                (autoCloseItem document (Token.end_ tok) (tagAfter text currentTag pre)).
Proof.
  revert currentTag currentAttributeName.
  induction tokens as [|tok rest IH]; intros ct ca Hrun.
  { simpl in Hrun. injection Hrun as <-. left. apply extendedPlainly_refl. }
  assert (Hcont : forall ca',
             scan rest (if TokenType.eqb (Token.type tok) TokenType.StartTag
                        then Token.text text tok else ct) ca' result = Returns r ->
             extendedPlainly result r
             \/ exists pre tok' post,
                  tok :: rest = pre ++ tok' :: post
                  /\ Token.type tok' = TokenType.StartTagClose
                  /\ Token.offset tok' <= offset <= Token.end_ tok'
                  /\ JS.truthy (tagAfter text ct pre) = true
                  /\ isEmptyElement (tagAfter text ct pre) = false
                  /\ hideAutoCompleteProposals settings = false
                  /\ r = CompletionList.push result
                           (autoCloseItem document (Token.end_ tok') (tagAfter text ct pre))).
  { intros ca' Hrest. apply IH in Hrest as [Hplain|(pre & tok' & post & -> & Hrest)].
    - left. exact Hplain.
    - right. exists (tok :: pre), tok', post. split; [reflexivity|exact Hrest]. }
  clear IH. destruct tok as [ty o e st]. simpl in Hrun, Hcont.
  destruct (TokenType.eqb ty TokenType.EOS) eqn:Heos.
  { injection Hrun as <-. left. apply extendedPlainly_refl. }
  destruct (o <=? offset) eqn:Ho; simpl in Hrun;
    [|injection Hrun as <-; left; apply extendedPlainly_refl].
  destruct ty; simpl in Heos, Hcont; try discriminate Heos;
    repeat match type of Hrun with
           | (if ?c then _ else _) = _ => destruct c eqn:?
           | match ?s with
             | ScannerState.WithinContent => _ | _ => _
             end = _ => destruct s
           | match slashBefore ?t ?n with Some _ => _ | None => _ end = _ =>
               destruct (slashBefore t n)
           | match expressions ?v ?res with Some _ => _ | None => _ end = _ =>
               let H := fresh "Hexpr" in
               destruct (expressions v res) eqn:H;
               [apply expressions_plainly in H|]
           end;
    try (apply (Hcont _ Hrun));
    try (apply attributeValues_plainly in Hrun; left; exact Hrun);
    try (injection Hrun as <-; left;
         first [ apply extendedPlainly_refl | apply tag_plainly | apply open_plainly
               | apply close_plainly | apply attributeNames_plainly | assumption ]).
  (* the [StartTagClose] token under the cursor *)
  injection Hrun as <-.
  match goal with H : _ && _ = true |- _ => apply andb_true_iff in H as [He Htruthy] end.
  unfold collectAutoCloseTagSuggestion.
  destruct (hideAutoCompleteProposals settings) eqn:Hhide;
    [left; apply extendedPlainly_refl|].
  destruct (isEmptyElement ct) eqn:Hvoid; simpl;
    [left; apply extendedPlainly_refl|].
  right. exists [], (Token.create TokenType.StartTagClose o e st), rest.
  simpl. repeat split; try assumption; lia.
Qed.

End Scan.

(** C1, as the code has it.  When the cursor lies strictly inside an
    attribute-name token of the stream scanned from the node, the tokens
    before it being in order, and expression detection answers no at each
    token of a [default] kind before it, then [doComplete] returns
    exactly the attribute-name suggestions for the tag name last scanned:
    every item is an attribute-name snippet. *)
Theorem attribute_name_context_only
        (document : TextDocument.t) (position : Position)
        (htmlDocument : HTMLDocument.t) (sfdxWorkspace : bool)
        (settings : option (gmap string bool))
        (node : Node.t) (pre post : list Token.t) (tok : Token.t) :
  let text := TextDocument.getText document in
  let offset := TextDocument.offsetAt document position in
  let tagProviders := List.filter (enabledProvider document settings) allTagProviders in
  HTMLDocument.findNodeBefore htmlDocument offset = Some node ->
  createScanner text (Node.start node) ScannerState.WithinContent = pre ++ tok :: post ->
  inOrder (Node.start node) (pre ++ [tok]) = true ->
  Token.type tok = TokenType.AttributeName ->
  Token.offset tok < offset < Token.end_ tok ->
  Forall (fun t => isFallback (Token.type t) = true ->
                   collectExpressionSuggestions tagFromFile fsPath document sfdxWorkspace
                     tagProviders text offset (Token.length t) emptyList = None) pre ->
  exists result,
    doComplete' document position htmlDocument sfdxWorkspace settings = Returns result
    /\ result = collectAttributeNameSuggestions createScanner document tagProviders text offset
                  (tagAfter text "" pre) (Token.offset tok) (Token.end_ tok) emptyList
    /\ Forall (fun item => isAttributeNameSuggestion item = true) (CompletionList.items result).
Proof.
  intros text offset tagProviders Hnode Hscan Hord Hty Hin Hexpr.
  eexists. split; [|split; [reflexivity|apply attributeNames_items]].
  unfold doComplete. fold offset. rewrite Hnode. fold text. rewrite Hscan.
  destruct (inOrder_app _ _ _ Hord) as (Hpre & _ & Hends & _ & _).
  fold tagProviders.
  rewrite scan_skip with (from := Node.start node); try assumption.
  - destruct tok as [ty o e st]. simpl in Hty, Hin. subst ty. simpl.
    assert (H1 : (o <=? offset) = true) by lia.
    assert (H2 : (offset <=? e) = true) by lia.
    rewrite H1, H2. reflexivity.
  - eapply Forall_impl; [exact Hends|]. simpl. intros t Ht. lia.
Qed.

(** C3, as the code has it.  In [<c-foo ></c-foo>] with the cursor after
    [<c-foo ] and no [=] following, an enabled provider that offers the
    attribute [label] for [c-foo] (not of the valueless kind [v]) yields
    an item labelled [label], whose edit replaces the empty range at the
    cursor by the snippet [label=$1]; all items returned are
    attribute-name suggestions. *)
Theorem attribute_name_after_tag_name
        (document : TextDocument.t) (position : Position)
        (htmlDocument : HTMLDocument.t) (sfdxWorkspace : bool)
        (settings : option (gmap string bool))
        (node : Node.t) (rest : list Token.t)
        (provider : Provider.t) (entry : Provider.AttributeEntry) :
  TextDocument.getText document = "<c-foo ></c-foo>" ->
  TextDocument.offsetAt document position = 7 ->
  HTMLDocument.findNodeBefore htmlDocument 7 = Some node ->
  Node.start node = 0 ->
  createScanner "<c-foo ></c-foo>" 0 ScannerState.WithinContent =
    Token.create TokenType.StartTagOpen 0 1 ScannerState.AfterOpeningStartTag
    :: Token.create TokenType.StartTag 1 6 ScannerState.WithinTag
    :: Token.create TokenType.Whitespace 6 7 ScannerState.WithinTag
    :: rest ->
  isFollowedBy createScanner "<c-foo ></c-foo>" 7 ScannerState.AfterAttributeName
               TokenType.DelimiterAssign = false ->
  In provider allTagProviders ->
  enabledProvider document settings provider = true ->
  In entry (Provider.collectAttributes provider "c-foo") ->
  Provider.attribute entry = "label" ->
  Provider.type entry <> Some "v" ->
  exists result item,
    doComplete' document position htmlDocument sfdxWorkspace settings = Returns result
    /\ In item (CompletionList.items result)
    /\ CompletionItem.label item = "label"
    /\ CompletionItem.textEdit item =
       TextEdit.replace {| start := TextDocument.positionAt document 7;
                           end_ := TextDocument.positionAt document 7 |}
                        "label=$1"
    /\ CompletionItem.insertTextFormat item = InsertTextFormat.Snippet
    /\ Forall (fun item => isAttributeNameSuggestion item = true) (CompletionList.items result).
Proof.
  intros Htext Hoff Hnode Hstart Hscan Hfollow Hprov Hen Hentry Hname Hkind.
  unfold doComplete. rewrite Hoff, Hnode, Htext, Hstart, Hscan.
  set (tagProviders := List.filter (enabledProvider document settings) allTagProviders).
  set (range := {| start := TextDocument.positionAt document 7;
                   end_ := TextDocument.positionAt document 7 |}).
  exists (collectAttributeNameSuggestions createScanner document tagProviders
            "<c-foo ></c-foo>" 7 "c-foo" 7 7 emptyList).
  exists (attributeNameItem range "=$1" entry).
  split; [reflexivity|]. split; [|split; [|split; [|split]]].
  - unfold collectAttributeNameSuggestions. rewrite Hfollow. simpl.
    apply in_flat_map. exists provider. split.
    + apply filter_In. split; assumption.
    + apply in_map. exact Hentry.
  - simpl. exact Hname.
  - unfold attributeNameItem. simpl. rewrite Hname.
    rewrite bool_decide_eq_false_2 by exact Hkind. reflexivity.
  - reflexivity.
  - apply attributeNames_items.
Qed.

(** C6.  Whatever the document and the cursor, an auto-close suggestion
    that [doComplete] returns stems from a [StartTagClose] token at the
    cursor, for the tag name scanned before it, which is not a void
    element, with auto-close not hidden by the settings; it is the only
    item, and it inserts, at the position of the end of [>], the snippet
    made of the placeholder [$0] followed by the end tag.  And with the
    cursor right after the [>] that closes a start tag, no expression
    being detected before it, [doComplete] returns nothing for a void
    element or with auto-close hidden, and that one suggestion
    otherwise. *)
Theorem auto_close_suggestion
        (document : TextDocument.t) (position : Position)
        (htmlDocument : HTMLDocument.t) (sfdxWorkspace : bool)
        (settings : option (gmap string bool)) :
  let text := TextDocument.getText document in
  let offset := TextDocument.offsetAt document position in
  let tagProviders := List.filter (enabledProvider document settings) allTagProviders in
  (forall result item,
      doComplete' document position htmlDocument sfdxWorkspace settings = Returns result ->
      In item (CompletionList.items result) ->
      isAutoCloseSuggestion item = true ->
      exists node pre tok post,
        HTMLDocument.findNodeBefore htmlDocument offset = Some node
        /\ createScanner text (Node.start node) ScannerState.WithinContent = pre ++ tok :: post
        /\ Token.type tok = TokenType.StartTagClose
        /\ Token.offset tok <= offset <= Token.end_ tok
        /\ isEmptyElement (tagAfter text "" pre) = false
        /\ hideAutoCompleteProposals settings = false
        /\ CompletionList.items result = [item]
        /\ item =
           {| CompletionItem.label := "</" +:+ tagAfter text "" pre +:+ ">";
              CompletionItem.kind := CompletionItemKind.Property;
              CompletionItem.detail := None;
              CompletionItem.documentation := None;
              CompletionItem.filterText := Some ("</" +:+ tagAfter text "" pre +:+ ">");
              CompletionItem.textEdit :=
                TextEdit.insert (TextDocument.positionAt document (Token.end_ tok))
                                ("$0</" +:+ tagAfter text "" pre +:+ ">");
              CompletionItem.insertTextFormat := InsertTextFormat.Snippet |})
  /\
  (forall node pre tok post,
      HTMLDocument.findNodeBefore htmlDocument offset = Some node ->
      createScanner text (Node.start node) ScannerState.WithinContent = pre ++ tok :: post ->
      inOrder (Node.start node) (pre ++ [tok]) = true ->
      Token.type tok = TokenType.StartTagClose ->
      Token.offset tok < offset ->
      Token.end_ tok = offset ->
      JS.truthy (tagAfter text "" pre) = true ->
      Forall (fun t => isFallback (Token.type t) = true ->
                       collectExpressionSuggestions tagFromFile fsPath document sfdxWorkspace
                         tagProviders text offset (Token.length t) emptyList = None) pre ->
      doComplete' document position htmlDocument sfdxWorkspace settings =
      Returns (if hideAutoCompleteProposals settings || isEmptyElement (tagAfter text "" pre)
               then emptyList
               else {| CompletionList.isIncomplete := false;
                       CompletionList.items :=
                         [autoCloseItem document offset (tagAfter text "" pre)] |})).
Proof.
  intros text offset tagProviders. split.
  - intros result item Hrun Hin Hauto. unfold doComplete in Hrun.
    fold offset text in Hrun.
    destruct (HTMLDocument.findNodeBefore htmlDocument offset) as [node|] eqn:Hnode;
      [|injection Hrun as <-; destruct Hin].
    apply scan_auto_close in Hrun
        as [(new & -> & Hnew)|(pre & tok & post & Hscan & Hty & Hat & _ & Hvoid & Hhide & ->)].
    + simpl in Hin. rewrite List.Forall_forall in Hnew.
      rewrite (Hnew _ Hin) in Hauto. discriminate.
    + exists node, pre, tok, post. simpl in Hin. destruct Hin as [<-|[]].
      repeat split; try assumption; lia.
  - intros node pre tok post Hnode Hscan Hord Hty Hlt Hend Htruthy Hexpr.
    unfold doComplete. fold offset text. rewrite Hnode, Hscan.
    destruct (inOrder_app _ _ _ Hord) as (Hpre & _ & Hends & _ & _).
    fold tagProviders.
    rewrite scan_skip with (from := Node.start node); try assumption.
    + destruct tok as [ty o e st]. simpl in Hty, Hlt, Hend. subst ty e. simpl.
      assert (H1 : (o <=? offset) = true) by lia.
      rewrite H1, Z.leb_refl, Htruthy. simpl.
      unfold collectAutoCloseTagSuggestion.
      destruct (hideAutoCompleteProposals settings); [reflexivity|].
      destruct (isEmptyElement _); reflexivity.
    + eapply Forall_impl; [exact Hends|]. simpl. intros t Ht. lia.
Qed.

(** *** The indentation of a line *)

Lemma get_in_range (s : string) (n : nat) :
  (n < String.length s)%nat -> exists c, String.get n s = Some c.
Proof.
  revert n. induction s as [|c r IH]; intros n Hn; simpl in Hn; [lia|].
  destruct n as [|n]; simpl; [eauto|]. apply IH. lia.
Qed.

Lemma substring_length (s : string) (n m : nat) :
  (n + m <= String.length s)%nat -> String.length (String.substring n m s) = m.
Proof.
  revert n m. induction s as [|c r IH]; intros n m Hle; simpl in Hle.
  - assert (n = 0%nat) as -> by lia. assert (m = 0%nat) as -> by lia. reflexivity.
  - destruct n as [|n]; destruct m as [|m]; simpl; try reflexivity.
    + f_equal. apply IH. simpl. lia.
    + apply IH. lia.
    + apply IH. lia.
Qed.

Lemma all_chars_substring (p : ascii -> bool) (s : string) (n m : nat) :
  (forall i c, (n <= i < n + m)%nat -> String.get i s = Some c -> p c = true) ->
  JS.all_chars p (String.substring n m s) = true.
Proof.
  revert n m. induction s as [|c r IH]; intros n m Hp.
  - destruct n, m; reflexivity.
  - destruct n as [|n]; destruct m as [|m]; simpl; try reflexivity.
    + rewrite (Hp 0%nat c) by (simpl; auto; lia). simpl.
      apply IH. intros i d Hi Hget. apply (Hp (S i) d); [lia|exact Hget].
    + apply IH. intros i d Hi Hget. apply (Hp (S i) d); [lia|exact Hget].
    + apply IH. intros i d Hi Hget. apply (Hp (S i) d); [lia|exact Hget].
Qed.

(** What [getLineIndent] returns, for an offset inside the text: the text
    from the start of the line to the offset, which is all white space. *)
Lemma getLineIndent_from_line (text : string) (offset : Z) (start : nat) (indent : string) :
  Z.of_nat start <= offset <= JS.length text ->
  (forall i c, (start <= i)%nat -> Z.of_nat i < offset ->
               String.get i text = Some c -> JS.is_space c = true) ->
  getLineIndent_from text start offset = Some indent ->
  exists lineStart : nat,
    (lineStart <= start)%nat
    /\ indent = JS.substring text (Z.of_nat lineStart) offset
    /\ (lineStart = 0%nat \/ isLineBreak (JS.charAt text (Z.of_nat lineStart - 1)))
    /\ (forall i c, (lineStart <= i)%nat -> Z.of_nat i < offset ->
                    String.get i text = Some c -> JS.is_space c = true).
Proof.
  induction start as [|start IH]; intros Hrange Hspace Hget; simpl in Hget.
  - injection Hget as <-. exists 0%nat. repeat split; auto.
  - assert (Hch : exists c, String.get start text = Some c).
    { apply get_in_range. unfold JS.length in Hrange. lia. }
    destruct Hch as [c Hc].
    assert (Hat : JS.charAt text (Z.of_nat start) = String c "").
    { unfold JS.charAt, JS.index. destruct (Z.of_nat start <? 0) eqn:Hneg; [lia|].
      rewrite Nat2Z.id, Hc. reflexivity. }
    rewrite Hat in Hget.
    destruct (String.eqb (String c "") "" || String.eqb (String c "") (String "010" "")
              || String.eqb (String c "") (String "013" "")) eqn:Hbreak.
    + injection Hget as <-. exists (S start). split; [lia|]. split; [reflexivity|].
      split; [|exact Hspace].
      right. replace (Z.of_nat (S start) - 1) with (Z.of_nat start) by lia. rewrite Hat.
      apply orb_prop in Hbreak as [Hbreak|Hbreak]; [apply orb_prop in Hbreak as [Hbreak|Hbreak]|].
      * simpl in Hbreak. discriminate.
      * left. apply String.eqb_eq. exact Hbreak.
      * right. apply String.eqb_eq. exact Hbreak.
    + destruct (negb (isWhiteSpace (String c ""))) eqn:Hws; [discriminate|].
      apply negb_false_iff in Hws. unfold isWhiteSpace in Hws. simpl in Hws.
      rewrite andb_true_r in Hws.
      destruct (IH ltac:(lia)) as (lineStart & Hle & Hind & Hline & Hall).
      * intros i d Hi Hlt Hgeti. destruct (Nat.eq_dec i start) as [->|Hne].
        -- congruence.
        -- apply (Hspace i d); [lia|exact Hlt|exact Hgeti].
      * exact Hget.
      * exists lineStart. repeat split; auto.
Qed.

Lemma getLineIndent_line (text : string) (offset : Z) (indent : string) :
  0 <= offset <= JS.length text ->
  getLineIndent text offset = Some indent ->
  let lineStart := offset - JS.length indent in
  0 <= lineStart
  /\ indent = JS.substring text lineStart offset
  /\ (lineStart = 0 \/ isLineBreak (JS.charAt text (lineStart - 1)))
  /\ isWhiteSpace indent = true.
Proof.
  intros Hrange Hget. unfold getLineIndent in Hget.
  apply getLineIndent_from_line in Hget as (ls & Hle & Hind & Hline & Hall).
  - assert (Hsub : indent = String.substring ls (Z.to_nat offset - ls) text).
    { rewrite Hind. unfold JS.substring, JS.clamp.
      replace (Z.max 0 (Z.min (Z.of_nat ls) (JS.length text))) with (Z.of_nat ls) by lia.
      replace (Z.max 0 (Z.min offset (JS.length text))) with offset by lia.
      replace (Z.min (Z.of_nat ls) offset) with (Z.of_nat ls) by lia.
      replace (Z.max (Z.of_nat ls) offset) with offset by lia.
      rewrite Nat2Z.id. f_equal. lia. }
    assert (Hlen : JS.length indent = offset - Z.of_nat ls).
    { unfold JS.length. rewrite Hsub, substring_length.
      - lia.
      - unfold JS.length in Hrange. lia. }
    simpl. rewrite Hlen.
    replace (offset - (offset - Z.of_nat ls)) with (Z.of_nat ls) by lia.
    split; [lia|]. split; [exact Hind|]. split.
    + destruct Hline as [->|Hline]; [left; reflexivity|right; exact Hline].
    + unfold isWhiteSpace. rewrite Hsub. apply all_chars_substring.
      intros i c Hi Hgeti. apply (Hall i c); [lia|lia|exact Hgeti].
  - lia.
  - intros i c Hi Hlt _. lia.
Qed.

(** C7.  [collectCloseTagSuggestions] adds, for the open ancestor it
    finds, one item labelled [/tag].  If the line of the ancestor's start
    tag and the line of the [<] being completed both begin with white
    space only and the two indentations differ, the edit replaces from
    the start of the current line (its leading white space included) to
    the cursor by the start tag's indentation followed by the end tag; in
    every other case, equal indentations among them, it is the plain
    replacement of the tag-name range by [/tag] with its closing bracket,
    with no white space.  Without such an ancestor every item added is
    that plain replacement. *)
Theorem close_tag_reindentation
        (document : TextDocument.t) (tagProviders : list Provider.t)
        (text : string) (offset : Z) (node : Node.t)
        (afterOpenBracket : Z) (inOpenTag : bool) (tagNameEnd : Z)
        (result : CompletionList.t) :
  0 <= afterOpenBracket - 1 <= JS.length text ->
  let range := getReplaceRange document offset afterOpenBracket tagNameEnd in
  let closeTag :=
    if isFollowedBy createScanner text tagNameEnd ScannerState.WithinEndTag TokenType.EndTagClose
    then "" else ">" in
  let suggestions :=
    collectCloseTagSuggestions createScanner document tagProviders text offset node
      afterOpenBracket inOpenTag tagNameEnd result in
  let plain (tag : string) (item : CompletionItem.t) :=
    CompletionItem.textEdit item = TextEdit.replace range ("/" +:+ tag +:+ closeTag)
    /\ CompletionItem.filterText item = Some ("/" +:+ tag +:+ closeTag) in
  match (if inOpenTag then Node.parent node else Some node) ≫= openAncestor offset with
  | Some (curr, tag) =>
      let startIndent := getLineIndent text (Node.start curr) in
      let endIndent := getLineIndent text (afterOpenBracket - 1) in
      exists item,
        suggestions = CompletionList.push result item
        /\ CompletionItem.label item = "/" +:+ tag
        /\ CompletionItem.insertTextFormat item = InsertTextFormat.PlainText
        /\ (forall s e,
              startIndent = Some s -> endIndent = Some e -> s <> e ->
              let lineStart := afterOpenBracket - 1 - JS.length e in
              CompletionItem.textEdit item =
                TextEdit.replace (getReplaceRange document offset lineStart offset)
                                 (s +:+ "</" +:+ tag +:+ closeTag)
              /\ CompletionItem.filterText item = Some (e +:+ "</" +:+ tag +:+ closeTag)
              /\ 0 <= lineStart
              /\ e = JS.substring text lineStart (afterOpenBracket - 1)
              /\ (lineStart = 0 \/ isLineBreak (JS.charAt text (lineStart - 1)))
              /\ isWhiteSpace e = true)
        /\ (startIndent = None \/ endIndent = None \/ startIndent = endIndent ->
            plain tag item)
  | None =>
      exists new,
        suggestions = CompletionList.pushAll result new
        /\ Forall (fun item => exists tag, CompletionItem.label item = "/" +:+ tag
                                           /\ plain tag item) new
  end.
Proof.
  intros Hrange range closeTag suggestions plain.
  unfold suggestions, collectCloseTagSuggestions. fold closeTag. fold range.
  destruct (_ ≫= openAncestor offset) as [[curr tag]|]; cbv beta iota.
  - exists (closeAncestorItem document text offset afterOpenBracket range closeTag curr tag).
    split; [reflexivity|].
    unfold closeAncestorItem.
    destruct (getLineIndent text (Node.start curr)) as [s|] eqn:Hs;
      [destruct (getLineIndent text (afterOpenBracket - 1)) as [e|] eqn:He|].
    + destruct (String.eqb s e) eqn:Heq; simpl.
      * apply String.eqb_eq in Heq. subst e.
        split; [reflexivity|]. split; [reflexivity|]. split.
        -- intros s' e' [= <-] [= <-] Hne. congruence.
        -- intros _. split; reflexivity.
      * apply String.eqb_neq in Heq.
        split; [reflexivity|]. split; [reflexivity|]. split.
        -- intros s' e' [= <-] [= <-] _.
           destruct (getLineIndent_line text (afterOpenBracket - 1) e Hrange He)
             as (H0 & Hsub & Hline & Hws).
           repeat split; assumption.
        -- intros [Hno|[Hno|Hsame]]; try discriminate. congruence.
    + simpl. split; [reflexivity|]. split; [reflexivity|]. split.
      * intros s' e' _ Hno. discriminate.
      * intros _. split; reflexivity.
    + simpl. split; [reflexivity|]. split; [reflexivity|]. split.
      * intros s' e' Hno. discriminate.
      * intros _. split; reflexivity.
  - destruct inOpenTag.
    + exists []. split; [|constructor].
      destruct result. unfold CompletionList.pushAll. simpl. rewrite app_nil_r. reflexivity.
    + eexists. split; [reflexivity|].
      apply List.Forall_forall. intros item Hin.
      apply in_flat_map in Hin as (p & _ & Hin).
      apply in_map_iff in Hin as (entry & <- & _).
      exists (Provider.tag entry). repeat split.
Qed.

End CompletionProperties.

(** C7, witness: in the sample where the end tag is typed two spaces in,
    the line of [<div>] has no indentation, so the edit replaces the two
    spaces and [</] by [</div>]. *)
Lemma close_tag_reindentation_witness :
  exists item,
    collectCloseTagSuggestions Sample.createScanner Sample.indentedDocument Sample.providers
      Sample.indentedText 10 Sample.divNode 9 false 10 emptyList = CompletionList.push emptyList item
    /\ CompletionItem.label item = "/div"
    /\ CompletionItem.textEdit item =
       TextEdit.replace {| start := {| line := 1; character := 0 |};
                           end_ := {| line := 1; character := 4 |} |} "</div>".
Proof.
  assert (Hrange : 0 <= 9 - 1 <= JS.length Sample.indentedText)
    by (vm_compute; split; discriminate).
  destruct (close_tag_reindentation Sample.createScanner Sample.indentedDocument
              Sample.providers Sample.indentedText 10 Sample.divNode 9 false 10 emptyList
              Hrange)
    as (item & Hrun & Hlabel & _ & Hre & _).
  exists item. split; [exact Hrun|]. split; [exact Hlabel|].
  destruct (Hre "" "  ") as (Hedit & _).
  - reflexivity.
  - reflexivity.
  - discriminate.
  - exact Hedit.
Defined.

(** C8, witness: a parse tree without nodes. *)
Lemma doComplete_without_node_witness :
  Sample.complete Sample.fooDocument 7 Sample.emptyDocument =
  Returns {| CompletionList.isIncomplete := false; CompletionList.items := [] |}.
Proof.
  apply (doComplete_without_node Sample.createScanner Sample.isEmptyElement Sample.providers
           Sample.templateOf Sample.fsPath Sample.fooDocument
           {| line := 0; character := 7 |} Sample.emptyDocument true None).
  reflexivity.
Defined.

(** C9, witness: the offset after [<c-foo], which follows the letter [o],
    and the offset 0. *)
Lemma doTagComplete_other_character_witness :
  doTagComplete Sample.createScanner Sample.isEmptyElement Sample.fooDocument
                {| line := 0; character := 6 |} (Sample.htmlDocument Sample.fooNode) = None
  /\ doTagComplete Sample.createScanner Sample.isEmptyElement Sample.fooDocument
                   {| line := 0; character := 0 |} (Sample.htmlDocument Sample.fooNode) = None.
Proof.
  split.
  - apply (doTagComplete_other_character Sample.createScanner Sample.isEmptyElement
             Sample.fooDocument {| line := 0; character := 6 |}
             (Sample.htmlDocument Sample.fooNode)).
    right. split; vm_compute; discriminate.
  - apply (doTagComplete_other_character Sample.createScanner Sample.isEmptyElement
             Sample.fooDocument {| line := 0; character := 0 |}
             (Sample.htmlDocument Sample.fooNode)).
    left. vm_compute. discriminate.
Defined.

(** C1, witness: the cursor inside [label] in [<c-foo label>]. *)
Lemma attribute_name_context_only_witness :
  exists result,
    Sample.complete Sample.labelDocument 9 (Sample.htmlDocument Sample.labelNode) = Returns result
    /\ Forall (fun item => isAttributeNameSuggestion item = true) (CompletionList.items result).
Proof.
  destruct (attribute_name_context_only Sample.createScanner Sample.isEmptyElement
              Sample.providers Sample.templateOf Sample.fsPath Sample.labelDocument
              {| line := 0; character := 9 |} (Sample.htmlDocument Sample.labelNode) true None
              Sample.labelNode
              [ Token.create TokenType.StartTagOpen 0 1 ScannerState.AfterOpeningStartTag;
                Token.create TokenType.StartTag 1 6 ScannerState.WithinTag;
                Token.create TokenType.Whitespace 6 7 ScannerState.WithinTag ]
              [ Token.create TokenType.StartTagClose 12 13 ScannerState.WithinContent ]
              (Token.create TokenType.AttributeName 7 12 ScannerState.AfterAttributeName))
    as (result & Hrun & _ & Hitems).
  - reflexivity.
  - reflexivity.
  - reflexivity.
  - reflexivity.
  - vm_compute. split; reflexivity.
  - repeat constructor; discriminate.
  - exists result. split; [exact Hrun|exact Hitems].
Defined.

(** C1, as stated, fails: in [<c-foo / x{y}z>] the cursor before [}]
    lies strictly inside the attribute-name token 9..14, and the engine
    returns an expression reference, detected at the [Unknown] token of
    the stray [/], instead of the attribute [label] of [c-foo]. *)
Lemma expression_detected_inside_attribute_name :
  nth_error (Sample.createScanner Sample.braceText 0 ScannerState.WithinContent) 5 =
    Some (Token.create TokenType.AttributeName 9 14 ScannerState.AfterAttributeName)
  /\ 9 < 12 < 14
  /\ inOrder 0 (Sample.createScanner Sample.braceText 0 ScannerState.WithinContent) = true
  /\ Sample.complete Sample.braceDocument 12 (Sample.htmlDocument Sample.braceNode) =
     Returns
       {| CompletionList.isIncomplete := false;
          CompletionList.items :=
            [ {| CompletionItem.label := "name";
                 CompletionItem.kind := CompletionItemKind.Reference;
                 CompletionItem.detail := None;
                 CompletionItem.documentation := None;
                 CompletionItem.filterText := None;
                 CompletionItem.textEdit :=
                   TextEdit.replace {| start := {| line := 0; character := 11 |};
                                       end_ := {| line := 0; character := 12 |} |}
                                    "name";
                 CompletionItem.insertTextFormat := InsertTextFormat.PlainText |} ] |}
  /\ Provider.collectAttributes (lwcTagProvider Sample.registry) "c-foo" <> [].
Proof.
  split; [reflexivity|]. split; [lia|]. split; [reflexivity|].
  split; [vm_compute; reflexivity|].
  vm_compute. discriminate.
Qed.

(** C3, witness: the provider of the registry in which [c-foo] has the
    attribute [label]. *)
Lemma attribute_name_after_tag_name_witness :
  exists result item,
    Sample.complete Sample.fooDocument 7 (Sample.htmlDocument Sample.fooNode) = Returns result
    /\ In item (CompletionList.items result)
    /\ CompletionItem.label item = "label"
    /\ CompletionItem.textEdit item =
       TextEdit.replace {| start := {| line := 0; character := 7 |};
                           end_ := {| line := 0; character := 7 |} |}
                        "label=$1".
Proof.
  destruct (attribute_name_after_tag_name Sample.createScanner Sample.isEmptyElement
              Sample.providers Sample.templateOf Sample.fsPath Sample.fooDocument
              {| line := 0; character := 7 |} (Sample.htmlDocument Sample.fooNode) true None
              Sample.fooNode
              [ Token.create TokenType.StartTagClose 7 8 ScannerState.WithinContent;
                Token.create TokenType.EndTagOpen 8 10 ScannerState.AfterOpeningEndTag;
                Token.create TokenType.EndTag 10 15 ScannerState.WithinEndTag;
                Token.create TokenType.EndTagClose 15 16 ScannerState.WithinContent ]
              (lwcTagProvider Sample.registry)
              {| Provider.attribute := "label"; Provider.detail := None;
                 Provider.documentation := None; Provider.type := None |})
    as (result & item & Hrun & Hin & Hlabel & Hedit & _).
  - reflexivity.
  - reflexivity.
  - reflexivity.
  - reflexivity.
  - reflexivity.
  - reflexivity.
  - left. reflexivity.
  - reflexivity.
  - vm_compute. left. reflexivity.
  - reflexivity.
  - discriminate.
  - exists result, item. repeat split; assumption.
Defined.

(** C3, as stated, fails: the snippet inserted is [label=$1], without
    quotes around the placeholder. *)
Lemma attribute_snippet_is_unquoted :
  exists item,
    Sample.complete Sample.fooDocument 7 (Sample.htmlDocument Sample.fooNode) =
      Returns {| CompletionList.isIncomplete := false; CompletionList.items := [item] |}
    /\ CompletionItem.label item = "label"
    /\ TextEdit.newText (CompletionItem.textEdit item) = "label=$1"
    /\ TextEdit.newText (CompletionItem.textEdit item) <>
       "label=" +:+ String JS.dquote ("$1" +:+ String JS.dquote "").
Proof.
  eexists. split; [vm_compute; reflexivity|].
  split; [reflexivity|]. split; [reflexivity|].
  vm_compute. discriminate.
Qed.

(** C6, witness: nothing for [<br>], the end tag for [<c-foo >], with the
    cursor after the [>]. *)
Lemma auto_close_suggestion_witness :
  Sample.complete Sample.brDocument 4 (Sample.htmlDocument Sample.brNode) = Returns emptyList
  /\ Sample.complete Sample.fooDocument 8 (Sample.htmlDocument Sample.fooNode) =
     Returns
       {| CompletionList.isIncomplete := false;
          CompletionList.items :=
            [ {| CompletionItem.label := "</c-foo>";
                 CompletionItem.kind := CompletionItemKind.Property;
                 CompletionItem.detail := None;
                 CompletionItem.documentation := None;
                 CompletionItem.filterText := Some "</c-foo>";
                 CompletionItem.textEdit :=
                   TextEdit.insert {| line := 0; character := 8 |} "$0</c-foo>";
                 CompletionItem.insertTextFormat := InsertTextFormat.Snippet |} ] |}.
Proof.
  split.
  - apply (proj2 (auto_close_suggestion Sample.createScanner Sample.isEmptyElement
                    Sample.providers Sample.templateOf Sample.fsPath Sample.brDocument
                    {| line := 0; character := 4 |} (Sample.htmlDocument Sample.brNode)
                    true None)
             Sample.brNode
             [ Token.create TokenType.StartTagOpen 0 1 ScannerState.AfterOpeningStartTag;
               Token.create TokenType.StartTag 1 3 ScannerState.WithinTag ]
             (Token.create TokenType.StartTagClose 3 4 ScannerState.WithinContent)
             []);
      try reflexivity.
    repeat constructor; discriminate.
  - apply (proj2 (auto_close_suggestion Sample.createScanner Sample.isEmptyElement
                    Sample.providers Sample.templateOf Sample.fsPath Sample.fooDocument
                    {| line := 0; character := 8 |} (Sample.htmlDocument Sample.fooNode)
                    true None)
             Sample.fooNode
             [ Token.create TokenType.StartTagOpen 0 1 ScannerState.AfterOpeningStartTag;
               Token.create TokenType.StartTag 1 6 ScannerState.WithinTag;
               Token.create TokenType.Whitespace 6 7 ScannerState.WithinTag ]
             (Token.create TokenType.StartTagClose 7 8 ScannerState.WithinContent)
             [ Token.create TokenType.EndTagOpen 8 10 ScannerState.AfterOpeningEndTag;
               Token.create TokenType.EndTag 10 15 ScannerState.WithinEndTag;
               Token.create TokenType.EndTagClose 15 16 ScannerState.WithinContent ]);
      try reflexivity.
    repeat constructor; discriminate.
Defined.

(** ** Further properties of the registry *)

Section IndexingProperties.

Context {Metadata ClassMember SourceLocation Diagnostic Error : Type}.
Variable doc : Metadata -> option string.
Variable declarationLoc : Metadata -> option SourceLocation.
Variable extractAttributes : Metadata -> string -> list AttributeInfo.t.
Variable getProperties : Metadata -> list ClassMember.
Variable getMethods : Metadata -> list ClassMember.
Variable toVSCodeRange : SourceLocation -> Range.
Variable tagFromFile : string -> bool -> option string.
Variable fileUri : string -> string.
Variable compileFile : string -> Error + CompilerResult Metadata Diagnostic.

Local Abbreviation customTagInfo' :=
  (customTagInfo doc declarationLoc extractAttributes getProperties getMethods toVSCodeRange).
Local Abbreviation addCustomTagFromFile' :=
  (addCustomTagFromFile doc declarationLoc extractAttributes getProperties getMethods
                        toVSCodeRange tagFromFile fileUri compileFile).
Local Abbreviation forEachFile' :=
  (forEachFile doc declarationLoc extractAttributes getProperties getMethods
               toVSCodeRange tagFromFile fileUri compileFile).
Local Abbreviation loadCustomTagsFromFiles' :=
  (loadCustomTagsFromFiles doc declarationLoc extractAttributes getProperties getMethods
                           toVSCodeRange tagFromFile fileUri compileFile).
Local Abbreviation upsertOf' :=
  (upsertOf doc declarationLoc extractAttributes getProperties getMethods toVSCodeRange
            tagFromFile fileUri compileFile).
Local Abbreviation lastUpsert' :=
  (lastUpsert doc declarationLoc extractAttributes getProperties getMethods toVSCodeRange
              tagFromFile fileUri compileFile).
Local Abbreviation removeCustomTagFromFile' :=
  (removeCustomTagFromFile (ClassMember := ClassMember) (Diagnostic := Diagnostic)
                           (Error := Error) tagFromFile).

(** The registry after one file: its upsert applied, if there is one. *)
Lemma addCustomTagFromFile_tags (file : string) (sfdx : bool)
      (w : World ClassMember Diagnostic Error) :
  LWC_TAGS (fst (addCustomTagFromFile' file sfdx w)) =
  match upsertOf' file sfdx with
  | Some (tag, R) => <[tag := R]> (LWC_TAGS w)
  | None => LWC_TAGS w
  end.
Proof.
  unfold addCustomTagFromFile, upsertOf.
  destruct (tagFromFile file sfdx) as [tag|]; [|reflexivity].
  destruct (JS.truthy tag); [|reflexivity].
  unfold tryCatch, bind, await, when.
  destruct (compileFile file) as [e|r]; [reflexivity|].
  destruct (nonEmpty (diagnostics r)); simpl; destruct (metadata r); reflexivity.
Qed.

(** X1.  When the compiler returns metadata for a component file, the
    record built from it is stored under the file's tag, whether or not
    diagnostics came with it; the diagnostics, if any, are logged, and
    nothing else is. *)
Theorem compiled_file_is_registered
        (file tag : string) (sfdx : bool) (r : CompilerResult Metadata Diagnostic)
        (md : Metadata) (w : World ClassMember Diagnostic Error) :
  tagFromFile file sfdx = Some tag ->
  JS.truthy tag = true ->
  compileFile file = inr r ->
  metadata r = Some md ->
  let w' := fst (addCustomTagFromFile' file sfdx w) in
  getLwcByTag (LWC_TAGS w') tag = Some (customTagInfo' tag (fileUri file) md)
  /\ console w' =
     console w ++ (if nonEmpty (diagnostics r) then [LogDiagnostics file (diagnostics r)] else [])
  /\ snd (addCustomTagFromFile' file sfdx w) = inr tt.
Proof.
  intros Htag Htruthy Hcompile Hmd. simpl.
  unfold addCustomTagFromFile. rewrite Htag, Htruthy.
  unfold tryCatch, bind, await, when. rewrite Hcompile.
  destruct (nonEmpty (diagnostics r)); simpl; rewrite Hmd; simpl;
    (split; [unfold getLwcByTag, addCustomTag, setTag; apply lookup_insert_eq|]);
    split; try reflexivity.
  rewrite app_nil_r. reflexivity.
Qed.

Lemma forEachFile_tags (files : list string) (sfdx : bool)
      (w : World ClassMember Diagnostic Error) (tag : string) :
  LWC_TAGS (fst (forEachFile' files sfdx w)) !! tag =
  match lastUpsert' files sfdx tag with
  | Some R => Some R
  | None => LWC_TAGS w !! tag
  end.
Proof.
  revert w. induction files as [|file rest IH]; intros w; [reflexivity|].
  simpl. unfold bind at 1.
  pose proof (addCustomTagFromFile_returns doc declarationLoc extractAttributes getProperties
                getMethods toVSCodeRange tagFromFile fileUri compileFile file sfdx w) as Hret.
  pose proof (addCustomTagFromFile_tags file sfdx w) as Htags.
  destruct (addCustomTagFromFile' file sfdx w) as [w1 [e|[]]]; simpl in Hret, Htags;
    [discriminate|].
  rewrite IH. destruct (lastUpsert' rest sfdx tag) as [R|]; [reflexivity|].
  rewrite Htags. destruct (upsertOf' file sfdx) as [[t R]|]; [|reflexivity].
  destruct (String.eqb t tag) eqn:Heq.
  - apply String.eqb_eq in Heq. subst t. apply lookup_insert_eq.
  - apply String.eqb_neq in Heq. apply lookup_insert_ne. exact Heq.
Qed.

Lemma loadCustomTagsFromFiles_tags (files : list string) (sfdx : bool)
      (w : World ClassMember Diagnostic Error) (tag : string) :
  LWC_TAGS (fst (loadCustomTagsFromFiles' files sfdx w)) !! tag =
  match lastUpsert' files sfdx tag with
  | Some R => Some R
  | None => LWC_TAGS w !! tag
  end.
Proof.
  rewrite <- forEachFile_tags. f_equal.
  unfold loadCustomTagsFromFiles, bind.
  destruct (forEachFile' files sfdx w) as [w1 [e|[]]]; reflexivity.
Qed.

(** X2.  After a workspace scan, the entry of a tag is the record of the
    last file of the list whose compilation produced metadata for that
    tag (last write wins); when there is no such file the entry is what
    it was before the scan, so a scan never removes an entry. *)
Theorem scan_last_write_wins
        (files : list string) (sfdx : bool)
        (w : World ClassMember Diagnostic Error) (tag : string) :
  let w' := fst (loadCustomTagsFromFiles' files sfdx w) in
  getLwcByTag (LWC_TAGS w') tag =
    match lastUpsert' files sfdx tag with
    | Some R => Some R
    | None => getLwcByTag (LWC_TAGS w) tag
    end
  /\ (is_Some (getLwcByTag (LWC_TAGS w) tag) -> is_Some (getLwcByTag (LWC_TAGS w') tag)).
Proof.
  simpl. unfold getLwcByTag. rewrite loadCustomTagsFromFiles_tags.
  split; [reflexivity|].
  destruct (lastUpsert' files sfdx tag); [intros _; eauto|auto].
Qed.

(** X3.  A workspace scan changes no entry of a tag that none of its
    files is named for. *)
Theorem scan_leaves_other_tags
        (files : list string) (sfdx : bool)
        (w : World ClassMember Diagnostic Error) (tag : string) :
  Forall (fun file => tagFromFile file sfdx <> Some tag) files ->
  getLwcByTag (LWC_TAGS (fst (loadCustomTagsFromFiles' files sfdx w))) tag =
  getLwcByTag (LWC_TAGS w) tag.
Proof.
  intros Hother.
  assert (Hnone : lastUpsert' files sfdx tag = None).
  { induction files as [|file rest IH]; [reflexivity|].
    apply Forall_cons in Hother as [Hfile Hrest].
    simpl. rewrite (IH Hrest).
    unfold upsertOf. destruct (tagFromFile file sfdx) as [t|]; [|reflexivity].
    destruct (JS.truthy t); [|reflexivity].
    destruct (compileFile file) as [e|r]; [reflexivity|].
    destruct (metadata r); [|reflexivity].
    destruct (String.eqb t tag) eqn:Heq; [|reflexivity].
    apply String.eqb_eq in Heq. congruence. }
  unfold getLwcByTag. rewrite loadCustomTagsFromFiles_tags, Hnone. reflexivity.
Qed.

(** X4.  [removeCustomTagFromFile] after a completed
    [addCustomTagFromFile] of the same component file leaves the file's
    tag unregistered, whatever the compilation gave and whatever was
    registered before; the other entries are as they were before the two
    calls, and the removal logs nothing. *)
Theorem create_then_delete
        (file tag : string) (sfdx : bool) (w : World ClassMember Diagnostic Error) :
  tagFromFile file sfdx = Some tag ->
  JS.truthy tag = true ->
  let w1 := fst (addCustomTagFromFile' file sfdx w) in
  let w2 := fst (removeCustomTagFromFile' file sfdx w1) in
  getLwcByTag (LWC_TAGS w2) tag = None
  /\ (forall other, other <> tag ->
        getLwcByTag (LWC_TAGS w2) other = getLwcByTag (LWC_TAGS w) other)
  /\ console w2 = console w1.
Proof.
  intros Htag Htruthy. simpl.
  unfold removeCustomTagFromFile. rewrite Htag, Htruthy. simpl.
  unfold getLwcByTag, removeCustomTag. split; [apply lookup_delete_eq|].
  split; [|reflexivity].
  intros other Hne. rewrite lookup_delete_ne by congruence.
  rewrite addCustomTagFromFile_tags.
  unfold upsertOf. rewrite Htag, Htruthy.
  destruct (compileFile file) as [e|r]; [reflexivity|].
  destruct (metadata r); [|reflexivity].
  apply lookup_insert_ne. congruence.
Qed.

(** *** File-change events *)

Variable inLwcFolder : string -> bool.
Variable fsPath : string -> string.
Variable isJSComponent : string -> bool.

Local Abbreviation update :=
  (updateCustomComponentIndex (ClassMember := ClassMember) (Diagnostic := Diagnostic)
     (Error := Error) tagFromFile inLwcFolder fsPath isJSComponent).
Local Abbreviation settle' :=
  (settle doc declarationLoc extractAttributes getProperties getMethods toVSCodeRange
          tagFromFile fileUri compileFile).

(** X5.  Events that are not for a JavaScript component under an [lwc]
    folder, and all events of kind [Changed], are ignored: a batch made
    of such events leaves the registry, the console, the calls in flight
    and the listeners' notifications untouched. *)
Theorem unhandled_events_ignored
        (events : list FileEvent.t) (sfdx : bool)
        (s : Index ClassMember Diagnostic Error) :
  Forall (fun f => inLwcFolder (FileEvent.uri f) = false
                   \/ isJSComponent (fsPath (FileEvent.uri f)) = false
                   \/ FileEvent.type f = FileChangeType.Changed) events ->
  update events sfdx s = s.
Proof.
  unfold updateCustomComponentIndex. revert s.
  induction events as [|f rest IH]; intros s Hall; [reflexivity|].
  apply Forall_cons in Hall as [Hf Hrest]. simpl.
  assert (Hone : onFileEvent tagFromFile inLwcFolder fsPath isJSComponent sfdx s f = s).
  { unfold onFileEvent. destruct Hf as [Hf|[Hf|Hf]].
    - rewrite Hf. reflexivity.
    - rewrite Hf. destruct (inLwcFolder _); reflexivity.
    - rewrite Hf. destruct (inLwcFolder _); [destruct (isJSComponent _)|]; reflexivity. }
  rewrite Hone. apply IH. exact Hrest.
Qed.

Lemma settle_tags (completion : list string) (sfdx : bool)
      (w : World ClassMember Diagnostic Error) (tag : string) :
  LWC_TAGS (settle' completion sfdx w) !! tag =
  match lastUpsert' completion sfdx tag with
  | Some R => Some R
  | None => LWC_TAGS w !! tag
  end.
Proof.
  unfold settle. revert w. induction completion as [|file rest IH]; intros w; [reflexivity|].
  simpl. rewrite IH. destruct (lastUpsert' rest sfdx tag) as [R|]; [reflexivity|].
  rewrite addCustomTagFromFile_tags.
  destruct (upsertOf' file sfdx) as [[t R]|]; [|reflexivity].
  destruct (String.eqb t tag) eqn:Heq.
  - apply String.eqb_eq in Heq. subst t. apply lookup_insert_eq.
  - apply String.eqb_neq in Heq. apply lookup_insert_ne. exact Heq.
Qed.

(** X6.  In a batch that creates a component file and then deletes it,
    the delete acts first: when [updateCustomComponentIndex] returns the
    tag is unregistered, both listeners have been notified in the order of
    the events, and the create's compilation is still in flight; once it
    completes with metadata the tag is registered again, although the
    last event for the file was its deletion. *)
Theorem delete_overtaken_by_create
        (uri tag : string) (sfdx : bool) (r : CompilerResult Metadata Diagnostic)
        (md : Metadata) (s : Index ClassMember Diagnostic Error) :
  let file := fsPath uri in
  inLwcFolder uri = true ->
  isJSComponent file = true ->
  tagFromFile file sfdx = Some tag ->
  JS.truthy tag = true ->
  compileFile file = inr r ->
  metadata r = Some md ->
  inFlight s = [] ->
  let s' := update [ {| FileEvent.uri := uri; FileEvent.type := FileChangeType.Created |};
                     {| FileEvent.uri := uri; FileEvent.type := FileChangeType.Deleted |} ]
                   sfdx s in
  getLwcByTag (LWC_TAGS (world s')) tag = None
  /\ console (world s') = console (world s)
  /\ notified s' = notified s ++ [OnCreated file; OnDeleted file]
  /\ inFlight s' = [file]
  /\ getLwcByTag (LWC_TAGS (settle' (inFlight s') sfdx (world s'))) tag =
     Some (customTagInfo' tag (fileUri file) md).
Proof.
  intros file Hlwc Hjs Htag Htruthy Hcompile Hmd Hidle s'.
  assert (Hs' : s' = {| world := {| LWC_TAGS := delete tag (LWC_TAGS (world s));
                                    console := console (world s) |};
                        inFlight := [file];
                        notified := notified s ++ [OnCreated file; OnDeleted file] |}).
  { unfold s', updateCustomComponentIndex, onFileEvent. simpl. fold file.
    rewrite Hlwc, Hjs, Htag, Htruthy, Hidle. simpl.
    unfold removeCustomTagFromFile. rewrite Htag, Htruthy. simpl.
    rewrite <- app_assoc. reflexivity. }
  rewrite Hs'. clear Hs' s'. cbn [world inFlight notified LWC_TAGS console].
  unfold getLwcByTag.
  split; [apply lookup_delete_eq|]. split; [reflexivity|].
  split; [reflexivity|]. split; [reflexivity|].
  rewrite settle_tags. cbn [lastUpsert]. unfold upsertOf.
  rewrite Htag, Htruthy, Hcompile, Hmd, String.eqb_refl. reflexivity.
Qed.

End IndexingProperties.

Lemma lightning_prefix (tag : string) : startsWith "lightning-" ("lightning-" +:+ tag) = true.
Proof. reflexivity. Qed.

(** X7.  The bulk load only adds standard records: an entry whose key
    does not begin with [lightning-] (a custom tag) is after the load
    what it was before, and every entry found after the load either was
    there before or is the record of a tag of the resource, under
    [lightning-] followed by its name. *)
Theorem bulk_load_only_adds_standard_tags {ClassMember : Type}
        (lwcStandard : list (string * StandardTag.t))
        (registry : gmap string (TagInfo.t ClassMember)) :
  (forall key,
      startsWith "lightning-" key = false ->
      getLwcByTag (loadStandardComponents lwcStandard registry) key = getLwcByTag registry key)
  /\ (forall key info,
        getLwcByTag (loadStandardComponents lwcStandard registry) key = Some info ->
        getLwcByTag registry key = Some info
        \/ exists tag d, In (tag, d) lwcStandard
                         /\ key = "lightning-" +:+ tag
                         /\ info = standardTagInfo d).
Proof.
  unfold getLwcByTag. split.
  - intros key Hprefix.
    revert registry. induction lwcStandard as [|[t d] rest IH]; intros registry; [reflexivity|].
    simpl. rewrite IH. unfold setTag. apply lookup_insert_ne.
    intros <-. rewrite lightning_prefix in Hprefix. discriminate.
  - revert registry. induction lwcStandard as [|[t d] rest IH]; intros registry key info Hget.
    + left. exact Hget.
    + simpl in Hget. apply IH in Hget as [Hget|(tag & e & Hin & -> & ->)].
      * unfold setTag in Hget. rewrite lookup_insert in Hget.
        destruct (decide ("lightning-" +:+ t = key)) as [<-|Hne].
        -- injection Hget as <-. right. exists t, d. split; [left; reflexivity|auto].
        -- left. exact Hget.
      * right. exists tag, e. split; [right; exact Hin|auto].
Qed.

(** X1, witness: the file whose compilation gives metadata and a
    diagnostic. *)
Lemma compiled_file_is_registered_witness :
  let w' := fst (Workspace.addFile "/ws/lwc/qux/qux.js" true Workspace.world0) in
  TagInfo.documentation <$> getLwcByTag (LWC_TAGS w') "c-qux" = Some (Some "qux")
  /\ console w' = [LogDiagnostics "/ws/lwc/qux/qux.js" ["unused import"]].
Proof.
  destruct (compiled_file_is_registered Workspace.doc Workspace.declarationLoc
              Workspace.extractAttributes Workspace.members Workspace.members
              Workspace.toVSCodeRange Workspace.tagFromFile Workspace.fileUri
              Workspace.compileFile "/ws/lwc/qux/qux.js" "c-qux" true
              {| metadata := Some "qux"; diagnostics := ["unused import"] |} "qux"
              Workspace.world0)
    as (Hget & Hlog & _); try reflexivity.
  cbv zeta. unfold Workspace.addFile. split.
  - rewrite Hget. reflexivity.
  - exact Hlog.
Defined.

(** X3, witness: a scan of the four sample files leaves the entry of
    [c-other], a tag none of them is named for, absent. *)
Lemma scan_leaves_other_tags_witness :
  getLwcByTag
    (LWC_TAGS (fst (Workspace.scan
                      ["/ws/lwc/foo/foo.js"; "/ws/lwc/bar/bar.js";
                       "/ws/lwc/baz/baz.js"; "/ws/lwc/qux/qux.js"] true Workspace.world0)))
    "c-other"
  = getLwcByTag (LWC_TAGS Workspace.world0) "c-other".
Proof.
  apply (scan_leaves_other_tags Workspace.doc Workspace.declarationLoc
           Workspace.extractAttributes Workspace.members Workspace.members
           Workspace.toVSCodeRange Workspace.tagFromFile Workspace.fileUri
           Workspace.compileFile).
  repeat constructor; vm_compute; discriminate.
Defined.

(** X4, witness: [c-bar], registered before, is gone after the create and
    delete events of its file. *)
Lemma create_then_delete_witness :
  getLwcByTag (LWC_TAGS Workspace.world0) "c-bar" = Some Workspace.oldBar
  /\ getLwcByTag
       (LWC_TAGS (fst (removeCustomTagFromFile Workspace.tagFromFile "/ws/lwc/bar/bar.js" true
                         (fst (Workspace.addFile "/ws/lwc/bar/bar.js" true Workspace.world0)))))
       "c-bar" = None.
Proof.
  split; [reflexivity|].
  apply (create_then_delete Workspace.doc Workspace.declarationLoc
           Workspace.extractAttributes Workspace.members Workspace.members
           Workspace.toVSCodeRange Workspace.tagFromFile Workspace.fileUri
           Workspace.compileFile "/ws/lwc/bar/bar.js" "c-bar" true Workspace.world0);
    reflexivity.
Defined.

(** X5, witness: a changed component, a created style sheet outside any
    [lwc] folder, and a deleted file that is no component. *)
Lemma unhandled_events_ignored_witness :
  Workspace.update
    [ Workspace.event FileChangeType.Changed "/ws/lwc/bar/bar.js";
      Workspace.event FileChangeType.Created "/ws/css/site.js";
      Workspace.event FileChangeType.Deleted "/ws/lwc/bar/helper.js" ]
    true Workspace.index0
  = Workspace.index0.
Proof.
  apply (unhandled_events_ignored Workspace.tagFromFile Workspace.inLwcFolder Workspace.fsPath
           Workspace.isJSComponent).
  constructor; [right; right; reflexivity|].
  constructor; [left; reflexivity|].
  constructor; [right; left; reflexivity|].
  constructor.
Defined.

(** X6, witness: [baz.js] created and deleted in one batch. *)
Lemma delete_overtaken_by_create_witness :
  let s' := Workspace.update
              [ Workspace.event FileChangeType.Created "/ws/lwc/baz/baz.js";
                Workspace.event FileChangeType.Deleted "/ws/lwc/baz/baz.js" ]
              true Workspace.index0 in
  getLwcByTag (LWC_TAGS (world s')) "c-baz" = None
  /\ inFlight s' = ["/ws/lwc/baz/baz.js"]
  /\ TagInfo.documentation <$>
       getLwcByTag
         (LWC_TAGS (settle Workspace.doc Workspace.declarationLoc Workspace.extractAttributes
                           Workspace.members Workspace.members Workspace.toVSCodeRange
                           Workspace.tagFromFile Workspace.fileUri Workspace.compileFile
                           (inFlight s') true (world s')))
         "c-baz"
     = Some (Some "baz").
Proof.
  destruct (delete_overtaken_by_create Workspace.doc Workspace.declarationLoc
              Workspace.extractAttributes Workspace.members Workspace.members
              Workspace.toVSCodeRange Workspace.tagFromFile Workspace.fileUri
              Workspace.compileFile Workspace.inLwcFolder Workspace.fsPath
              Workspace.isJSComponent
              (Workspace.fileUri "/ws/lwc/baz/baz.js") "c-baz" true
              {| metadata := Some "baz"; diagnostics := [] |} "baz" Workspace.index0)
    as (Hgone & _ & _ & Hflight & Hback); try reflexivity.
  cbv zeta. unfold Workspace.update, Workspace.event.
  split; [exact Hgone|]. split; [exact Hflight|].
  rewrite Hback. reflexivity.
Defined.

(** ** Further properties of the completion engine *)

Section CompletionProperties2.

Variable createScanner : string -> Z -> ScannerState.t -> list Token.t.
Variable isEmptyElement : string -> bool.
Variable allTagProviders : list Provider.t.
Variable tagFromFile : string -> bool -> option string.
Variable fsPath : string -> string.

Local Abbreviation doComplete' :=
  (doComplete createScanner isEmptyElement allTagProviders tagFromFile fsPath).
Local Abbreviation doTagComplete' := (doTagComplete createScanner isEmptyElement).

(** *** The tag-completion trigger *)

Lemma endsAt_found (wanted : TokenType.t) (offset : Z) (tokens : list Token.t) :
  endsAt wanted offset tokens = true ->
  exists pre tok post,
    tokens = pre ++ tok :: post
    /\ Token.type tok = wanted
    /\ Token.end_ tok = offset
    /\ Forall (fun t => Token.end_ t <= offset) pre.
Proof.
  induction tokens as [|tok rest IH]; simpl; [discriminate|].
  destruct (TokenType.eqb (Token.type tok) TokenType.EOS); [discriminate|].
  destruct (Token.end_ tok <=? offset) eqn:Hle; simpl; [|discriminate].
  destruct (TokenType.eqb (Token.type tok) wanted && (Token.end_ tok =? offset)) eqn:Hhit.
  - intros _. apply andb_true_iff in Hhit as [Hty Hend].
    exists [], tok, rest. split; [reflexivity|].
    unfold TokenType.eqb in Hty. apply bool_decide_eq_true in Hty.
    repeat split; [exact Hty|lia|constructor].
  - intros Hrest. destruct (IH Hrest) as (pre & t & post & -> & Hty & Hend & Hpre).
    exists (tok :: pre), t, post. repeat split; try assumption.
    constructor; [lia|exact Hpre].
Qed.

Lemma endsAt_reached (wanted : TokenType.t) (offset : Z) (pre post : list Token.t)
      (tok : Token.t) :
  wanted <> TokenType.EOS ->
  Forall (fun t => Token.end_ t <= offset /\ Token.type t <> TokenType.EOS) pre ->
  Token.type tok = wanted ->
  Token.end_ tok = offset ->
  endsAt wanted offset (pre ++ tok :: post) = true.
Proof.
  intros Hwanted Hpre Hty Hend. induction pre as [|t pre IH]; simpl.
  - rewrite Hty. unfold TokenType.eqb.
    rewrite (bool_decide_eq_false_2 _ Hwanted), (bool_decide_eq_true_2 _ eq_refl).
    simpl. rewrite Hend, Z.leb_refl, Z.eqb_refl. reflexivity.
  - apply Forall_cons in Hpre as [[Hle Hne] Hpre].
    unfold TokenType.eqb at 1. rewrite (bool_decide_eq_false_2 _ Hne).
    assert (H1 : (Token.end_ t <=? offset) = true) by lia.
    rewrite H1. simpl. rewrite (IH Hpre).
    destruct (_ && _); reflexivity.
Qed.

Lemma skipClosed_open :
  forall start node : Node.t,
    skipClosed start = Some node ->
    Node.closed node = false
    /\ exists before after,
        ancestors start = before ++ node :: after
        /\ Forall (fun n => Node.closed n = true) before.
Proof.
  fix IH 1. intros [tag s e closed ets parent] node. simpl.
  destruct closed eqn:Hclosed.
  - destruct parent as [p|]; [|discriminate].
    intros Hskip. destruct (IH p node Hskip) as (Hopen & before & after & Hanc & Hall).
    split; [exact Hopen|].
    exists (Node.create tag s e true ets (Some p) :: before), after.
    rewrite Hanc. split; [reflexivity|]. constructor; [reflexivity|exact Hall].
  - intros [= <-]. split; [reflexivity|].
    exists [], match parent with Some p => ancestors p | None => [] end.
    split; [reflexivity|constructor].
Qed.

(** X8.  Whatever [doTagComplete] returns is one of two texts.  After a
    typed [>] it is [$0</tag>] for the node before the cursor, which then
    has a tag that is not a void element, starts before the cursor, has
    no end tag before the cursor, and whose scan shows a [StartTagClose]
    token ending at the cursor.  After a typed [/] it is [tag>] for the
    nearest node, from the one before the cursor upwards, that is not
    closed, whose scan shows an [EndTagOpen] token ending at the
    cursor. *)
Theorem doTagComplete_sound
        (document : TextDocument.t) (position : Position) (htmlDocument : HTMLDocument.t)
        (completion : string) :
  doTagComplete' document position htmlDocument = Some completion ->
  let text := TextDocument.getText document in
  let offset := TextDocument.offsetAt document position in
  0 < offset
  /\ ((JS.charAt text (offset - 1) = ">"
       /\ exists node tag pre tok post,
           HTMLDocument.findNodeBefore htmlDocument offset = Some node
           /\ Node.tag node = Some tag
           /\ isEmptyElement tag = false
           /\ Node.start node < offset
           /\ (forall e, Node.endTagStart node = Some e -> e = 0 \/ offset < e)
           /\ createScanner text (Node.start node) ScannerState.WithinContent
              = pre ++ tok :: post
           /\ Token.type tok = TokenType.StartTagClose
           /\ Token.end_ tok = offset
           /\ completion = "$0</" +:+ tag +:+ ">")
      \/ (JS.charAt text (offset - 1) = "/"
          /\ exists first closedNodes node after tag pre tok post,
              HTMLDocument.findNodeBefore htmlDocument offset = Some first
              /\ ancestors first = closedNodes ++ node :: after
              /\ Forall (fun n => Node.closed n = true) closedNodes
              /\ Node.closed node = false
              /\ Node.tag node = Some tag
              /\ createScanner text (Node.start node) ScannerState.WithinContent
                 = pre ++ tok :: post
              /\ Token.type tok = TokenType.EndTagOpen
              /\ Token.end_ tok = offset
              /\ completion = tag +:+ ">")).
Proof.
  intros Hrun text offset. unfold doTagComplete in Hrun. fold offset text in Hrun.
  destruct (offset <=? 0) eqn:Hpos; [discriminate|].
  split; [lia|].
  destruct (String.eqb (JS.charAt text (offset - 1)) ">") eqn:Hgt.
  - left. apply String.eqb_eq in Hgt. split; [exact Hgt|].
    destruct (HTMLDocument.findNodeBefore htmlDocument offset) as [node|]; [|discriminate].
    destruct (Node.tag node) as [tag|] eqn:Htag; [|discriminate].
    destruct (JS.truthy tag && negb (isEmptyElement tag) && (Node.start node <? offset) && _)
      eqn:Hcond; [|discriminate].
    apply andb_true_iff in Hcond as [Hcond Hend].
    apply andb_true_iff in Hcond as [Hcond Hstart].
    apply andb_true_iff in Hcond as [_ Hvoid].
    destruct (endsAt _ _ _) eqn:Hscan; [|discriminate].
    injection Hrun as <-.
    apply endsAt_found in Hscan as (pre & tok & post & Hstream & Hty & Htok & _).
    exists node, tag, pre, tok, post.
    apply negb_true_iff in Hvoid.
    repeat split; try assumption; try lia.
    intros e He. rewrite He in Hend. lia.
  - destruct (String.eqb (JS.charAt text (offset - 1)) "/") eqn:Hslash; [|discriminate].
    right. apply String.eqb_eq in Hslash. split; [exact Hslash|].
    destruct (HTMLDocument.findNodeBefore htmlDocument offset) as [first|]; [|discriminate].
    simpl in Hrun.
    destruct (skipClosed first) as [node|] eqn:Hskip; [|discriminate].
    destruct (Node.tag node) as [tag|] eqn:Htag; [|discriminate].
    destruct (JS.truthy tag); [|discriminate].
    destruct (endsAt _ _ _) eqn:Hscan; [|discriminate].
    injection Hrun as <-.
    apply endsAt_found in Hscan as (pre & tok & post & Hstream & Hty & Htok & _).
    apply skipClosed_open in Hskip as (Hopen & before & after & Hanc & Hall).
    exists first, before, node, after, tag, pre, tok, post.
    repeat split; assumption.
Qed.

(** X9.  After a typed [>] that closes the start tag of a node whose tag
    is not a void element and which has no end tag yet, [doTagComplete]
    returns the placeholder followed by the end tag: it suffices that the
    scan from the node's start shows, after tokens that end at the cursor
    or before it, a [StartTagClose] token ending at the cursor. *)
Theorem doTagComplete_closes_start_tag
        (document : TextDocument.t) (position : Position) (htmlDocument : HTMLDocument.t)
        (node : Node.t) (tag : string) (pre post : list Token.t) (tok : Token.t) :
  let text := TextDocument.getText document in
  let offset := TextDocument.offsetAt document position in
  JS.charAt text (offset - 1) = ">" ->
  HTMLDocument.findNodeBefore htmlDocument offset = Some node ->
  Node.tag node = Some tag ->
  JS.truthy tag = true ->
  isEmptyElement tag = false ->
  Node.start node < offset ->
  Node.endTagStart node = None ->
  createScanner text (Node.start node) ScannerState.WithinContent = pre ++ tok :: post ->
  inOrder (Node.start node) (pre ++ [tok]) = true ->
  Token.type tok = TokenType.StartTagClose ->
  Token.end_ tok = offset ->
  doTagComplete' document position htmlDocument = Some ("$0</" +:+ tag +:+ ">").
Proof.
  intros text offset Hchar Hnode Htag Htruthy Hvoid Hstart Hend Hscan Hord Hty Htok.
  unfold doTagComplete. fold offset text.
  assert (Hpos : (offset <=? 0) = false).
  { destruct (offset <=? 0) eqn:Hle; [|reflexivity].
    exfalso. unfold JS.charAt, JS.index in Hchar.
    assert (Hneg : (offset - 1 <? 0) = true) by lia.
    rewrite Hneg in Hchar. discriminate. }
  rewrite Hpos, Hchar. simpl. rewrite Hnode, Htag, Htruthy, Hvoid, Hend. simpl.
  assert (Hlt : (Node.start node <? offset) = true) by lia.
  rewrite Hlt. simpl. rewrite Hscan, endsAt_reached; try assumption; [reflexivity|discriminate|].
  destruct (inOrder_app _ _ _ Hord) as (Hpre & _ & Hends & Hle & _).
  clear -Hpre Hends Hle Htok.
  revert Hpre Hends. generalize (Node.start node).
  induction pre as [|t pre IH]; intros from Hpre Hends; [constructor|].
  simpl in Hpre. rewrite !andb_true_iff, negb_true_iff in Hpre.
  destruct Hpre as [[[_ _] Heos] Hpre].
  apply Forall_cons in Hends as [Ht Hends].
  constructor.
  - split; [lia|]. unfold TokenType.eqb in Heos. apply bool_decide_eq_false in Heos. exact Heos.
  - apply (IH (Token.end_ t)); assumption.
Qed.

(** *** Words, attribute names and expressions *)

Lemma getWordStart_loop_word (s : string) (n : nat) (offset : Z) :
  let r := getWordStart_loop n s offset in
  offset - Z.of_nat n <= r <= offset
  /\ (forall i, r <= i < offset -> isWhiteSpaceAt s i = false)
  /\ (r = offset - Z.of_nat n \/ isWhiteSpaceAt s (r - 1) = true).
Proof.
  revert offset. induction n as [|n IH]; intros offset; simpl.
  - split; [lia|]. split; [intros i Hi; lia|left; lia].
  - destruct (isWhiteSpaceAt s (offset - 1)) eqn:Hws; simpl.
    + split; [lia|]. split; [intros i Hi; lia|right; exact Hws].
    + destruct (IH (offset - 1)) as (Hb & Hword & Hstop).
      split; [lia|]. split.
      * intros i Hi. destruct (Z.eq_dec i (offset - 1)) as [->|Hne]; [exact Hws|].
        apply Hword. lia.
      * destruct Hstop as [Hstop|Hstop]; [left; lia|right; exact Hstop].
Qed.

Lemma getWordEnd_loop_word (s : string) (n : nat) (offset : Z) :
  let r := getWordEnd_loop n s offset in
  offset <= r <= offset + Z.of_nat n
  /\ (forall i, offset <= i < r -> isWhiteSpaceAt s i = false)
  /\ (r = offset + Z.of_nat n \/ isWhiteSpaceAt s r = true).
Proof.
  revert offset. induction n as [|n IH]; intros offset; simpl.
  - split; [lia|]. split; [intros i Hi; lia|left; lia].
  - destruct (isWhiteSpaceAt s offset) eqn:Hws; simpl.
    + split; [lia|]. split; [intros i Hi; lia|right; exact Hws].
    + destruct (IH (offset + 1)) as (Hb & Hword & Hstop).
      split; [lia|]. split.
      * intros i Hi. destruct (Z.eq_dec i offset) as [->|Hne]; [exact Hws|].
        apply Hword. lia.
      * destruct Hstop as [Hstop|Hstop]; [left; lia|right; exact Hstop].
Qed.

(** X10.  [getWordStart] and [getWordEnd] delimit the word under the
    cursor within the limits given: between the two results no character
    is white space, each result is its limit or stops at a white-space
    character, and neither passes its limit or the cursor. *)
Theorem word_under_cursor (s : string) (offset low high : Z) :
  low <= offset <= high ->
  let a := getWordStart s offset low in
  let b := getWordEnd s offset high in
  low <= a <= offset
  /\ offset <= b <= high
  /\ (forall i, a <= i < b -> isWhiteSpaceAt s i = false)
  /\ (a = low \/ isWhiteSpaceAt s (a - 1) = true)
  /\ (b = high \/ isWhiteSpaceAt s b = true).
Proof.
  intros Hlim. simpl. unfold getWordStart, getWordEnd.
  destruct (getWordStart_loop_word s (Z.to_nat (offset - low)) offset) as (Ha & Hwa & Hsa).
  destruct (getWordEnd_loop_word s (Z.to_nat (high - offset)) offset) as (Hb & Hwb & Hsb).
  rewrite Z2Nat.id in Ha, Hsa, Hb, Hsb by lia.
  split; [lia|]. split; [lia|]. split; [|split].
  - intros i Hi. destruct (Z_lt_ge_dec i offset); [apply Hwa|apply Hwb]; lia.
  - destruct Hsa as [Hsa|Hsa]; [left; lia|right; exact Hsa].
  - destruct Hsb as [Hsb|Hsb]; [left; lia|right; exact Hsb].
Qed.

Lemma attributeReplaceEnd_stops (text : string) (n : nat) (from : Z) :
  let e := attributeReplaceEnd text n from in
  from <= e <= from + Z.of_nat n
  /\ (forall i, from <= i < e -> charIs text i "<" = false)
  /\ (e = from + Z.of_nat n \/ charIs text e "<" = true).
Proof.
  revert from. induction n as [|n IH]; intros from; simpl.
  - split; [lia|]. split; [intros i Hi; lia|left; lia].
  - destruct (charIs text from "<") eqn:Hlt; simpl.
    + split; [lia|]. split; [intros i Hi; lia|right; exact Hlt].
    + destruct (IH (from + 1)) as (Hb & Hnone & Hstop).
      split; [lia|]. split.
      * intros i Hi. destruct (Z.eq_dec i from) as [->|Hne]; [exact Hlt|].
        apply Hnone. lia.
      * destruct Hstop as [Hstop|Hstop]; [left; lia|right; exact Hstop].
Qed.

(** X11.  The edit of an attribute-name suggestion replaces from the
    start of the name to the first [<] at or after the cursor, or to the
    end of the name when there is none before it: the replaced text never
    runs over a [<], and it ends at the cursor or after it; the snippet
    gets the placeholder [=$1] unless a [=] already follows the name. *)
Theorem attribute_name_range
        (document : TextDocument.t) (tagProviders : list Provider.t) (text : string)
        (offset : Z) (currentTag : string) (nameStart nameEnd : Z)
        (result : CompletionList.t) :
  offset <= nameEnd ->
  exists replaceEnd value,
    collectAttributeNameSuggestions createScanner document tagProviders text offset
      currentTag nameStart nameEnd result
    = CompletionList.pushAll result
        (flat_map (fun provider =>
           map (attributeNameItem (getReplaceRange document offset nameStart replaceEnd) value)
               (Provider.collectAttributes provider (JS.toLowerCase currentTag)))
         tagProviders)
    /\ offset <= replaceEnd <= nameEnd
    /\ (forall i, offset <= i < replaceEnd -> charIs text i "<" = false)
    /\ (replaceEnd = nameEnd \/ charIs text replaceEnd "<" = true)
    /\ value = (if isFollowedBy createScanner text nameEnd ScannerState.AfterAttributeName
                                TokenType.DelimiterAssign
                then "" else "=$1").
Proof.
  intros Hle.
  exists (attributeReplaceEnd text (Z.to_nat (nameEnd - offset)) offset).
  eexists. split; [reflexivity|].
  destruct (attributeReplaceEnd_stops text (Z.to_nat (nameEnd - offset)) offset)
    as (Hb & Hnone & Hstop).
  rewrite Z2Nat.id in Hb, Hstop by lia.
  split; [lia|]. split; [exact Hnone|]. split; [|reflexivity].
  destruct Hstop as [Hstop|Hstop]; [left; lia|right; exact Hstop].
Qed.

Lemma expressionLoop_found (document : TextDocument.t) (sfdxWorkspace : bool)
      (tagProviders : list Provider.t) (text : string) (offset : Z)
      (n : nat) (from : Z) (result r : CompletionList.t) :
  expressionLoop tagFromFile fsPath document sfdxWorkspace tagProviders text offset
                 n from result = Some r ->
  exists i tag,
    from - Z.of_nat n < i <= from
    /\ charIs text i "{" = true
    /\ (forall j, i < j <= from -> charIs text j "{" = false)
    /\ templateTag tagFromFile fsPath document sfdxWorkspace = Some tag
    /\ JS.truthy tag = true
    /\ r = CompletionList.pushAll result
             (flat_map (fun provider =>
                map (expressionItem text offset (getReplaceRange document offset (i + 1) offset))
                    (Provider.collectExpressionValues provider tag))
              tagProviders).
Proof.
  revert from. induction n as [|n IH]; intros from; simpl; [discriminate|].
  destruct (charIs text from "{") eqn:Hbrace.
  - destruct (templateTag tagFromFile fsPath document sfdxWorkspace) as [tag|] eqn:Htag.
    + destruct (JS.truthy tag) eqn:Htruthy.
      * intros [= <-]. exists from, tag.
        split; [lia|]. split; [exact Hbrace|]. split; [intros j Hj; lia|].
        repeat split; auto.
      * intros Hrest. exfalso. clear -Hrest Htag Htruthy.
        revert Hrest. generalize (from - 1). induction n as [|n IHn]; intros z; simpl;
          [discriminate|].
        rewrite Htag, Htruthy. destruct (charIs text z "{"); apply IHn.
    + intros Hrest. exfalso. clear -Hrest Htag.
      revert Hrest. generalize (from - 1). induction n as [|n IHn]; intros z; simpl;
        [discriminate|].
      rewrite Htag. destruct (charIs text z "{"); apply IHn.
  - intros Hrest. destruct (IH _ Hrest) as (i & tag & Hi & Hb & Hnone & Hrest').
    exists i, tag. split; [lia|]. split; [exact Hb|]. split; [|exact Hrest'].
    intros j Hj. destruct (Z.eq_dec j from) as [->|Hne]; [exact Hbrace|].
    apply Hnone. lia.
Qed.

(** X12.  When expression detection succeeds, the character at the
    cursor is [}] or [>], the document belongs to a component, and the
    suggestions replace the text between the nearest [{] before the
    cursor, which is not before [valueStart], and the cursor; each
    inserts a value of that component, followed by [}] unless one is at
    the cursor already. *)
Theorem expression_reference_found
        (document : TextDocument.t) (sfdxWorkspace : bool) (tagProviders : list Provider.t)
        (text : string) (offset valueStart : Z) (result r : CompletionList.t) :
  collectExpressionSuggestions tagFromFile fsPath document sfdxWorkspace tagProviders
                               text offset valueStart result = Some r ->
  exists brace tag new,
    0 <= valueStart <= brace
    /\ brace < offset < JS.length text
    /\ charIs text brace "{" = true
    /\ (forall j, brace < j < offset -> charIs text j "{" = false)
    /\ (charIs text offset "}" = true \/ charIs text offset ">" = true)
    /\ tagFromFile (fsPath (TextDocument.uri document)) sfdxWorkspace = Some tag
    /\ JS.truthy tag = true
    /\ r = CompletionList.pushAll result new
    /\ map CompletionItem.label new =
       flat_map (fun provider => Provider.collectExpressionValues provider tag) tagProviders
    /\ Forall (fun item =>
                 CompletionItem.kind item = CompletionItemKind.Reference
                 /\ TextEdit.range (CompletionItem.textEdit item)
                    = getReplaceRange document offset (brace + 1) offset
                 /\ TextEdit.newText (CompletionItem.textEdit item)
                    = CompletionItem.label item
                      +:+ (if charIs text offset "}" then "" else "}")) new.
Proof.
  unfold collectExpressionSuggestions.
  destruct ((valueStart >=? 0) && (offset <? JS.length text)
            && (charIs text offset "}" || charIs text offset ">")) eqn:Hcond; [|discriminate].
  apply andb_true_iff in Hcond as [Hcond Hat].
  apply andb_true_iff in Hcond as [Hstart Hin].
  intros Hloop.
  apply expressionLoop_found in Hloop as (i & tag & Hi & Hb & Hnone & Htag & Htruthy & ->).
  assert (Hlt : valueStart <= i < offset).
  { destruct (Z_le_gt_dec valueStart offset) as [Hle|Hgt].
    - rewrite Z2Nat.id in Hi by lia. lia.
    - replace (Z.to_nat (offset - valueStart)) with 0%nat in Hi by lia. lia. }
  exists i, tag. eexists.
  split; [lia|]. split; [lia|]. split; [exact Hb|].
  split; [intros j Hj; apply Hnone; lia|].
  split; [apply orb_prop in Hat; exact Hat|].
  split; [exact Htag|]. split; [exact Htruthy|]. split; [reflexivity|]. split.
  - clear. induction tagProviders as [|p ps IH]; [reflexivity|].
    simpl. rewrite map_app, IH, map_map. simpl. rewrite map_id. reflexivity.
  - apply List.Forall_forall. intros item Hitem.
    apply in_flat_map in Hitem as (p & _ & Hitem).
    apply in_map_iff in Hitem as (v & <- & _). repeat split.
Qed.


(** *** The main loop as a whole *)

Section Scan2.

Variable document : TextDocument.t.
Variable sfdxWorkspace : bool.
Variable settings : option (gmap string bool).
Variable tagProviders : list Provider.t.
Variable text : string.
Variable offset : Z.
Variable node : Node.t.

Local Abbreviation scan :=
  (scanTokens createScanner isEmptyElement tagFromFile fsPath document sfdxWorkspace
              settings tagProviders text offset node).
Local Abbreviation expressions :=
  (collectExpressionSuggestions tagFromFile fsPath document sfdxWorkspace tagProviders
                                text offset).
Local Abbreviation values :=
  (collectAttributeValueSuggestions tagFromFile fsPath document sfdxWorkspace tagProviders
                                    text offset).

Lemma values_named (currentTag name : string) (valueStart valueEnd : Z)
      (result : CompletionList.t) :
  exists r, values currentTag (Some name) valueStart valueEnd result = Returns r.
Proof.
  unfold collectAttributeValueSuggestions.
  destruct (expressions valueStart result); [eauto|].
  destruct (_ && _ && _); eauto.
Qed.

(** Once an attribute name has been scanned the loop cannot throw. *)
Lemma scan_named (tokens : list Token.t) (currentTag name : string)
      (result : CompletionList.t) :
  exists r, scan tokens currentTag (Some name) result = Returns r.
Proof.
  revert currentTag name.
  induction tokens as [|[ty o e st] rest IH]; intros ct name; simpl; [eauto|].
  destruct (TokenType.eqb ty TokenType.EOS); [eauto|].
  destruct (o <=? offset); simpl; [|eauto].
  destruct ty;
    repeat match goal with
           | |- exists r, (if ?c then _ else _) = Returns r => destruct c
           | |- exists r, match ?s with
                          | ScannerState.WithinContent => _ | _ => _
                          end = Returns r => destruct s
           | |- exists r, match slashBefore ?t ?n with Some _ => _ | None => _ end = _ =>
               destruct (slashBefore t n)
           | |- exists r, match expressions ?v ?res with Some _ => _ | None => _ end = _ =>
               destruct (expressions v res)
           end;
    eauto using values_named.
Qed.

(** The loop does not throw either when no token asks for values before
    an attribute name has been scanned. *)
Lemma scan_unnamed (tokens : list Token.t) (currentTag : string)
      (result : CompletionList.t) :
  namedBeforeValue tokens = true ->
  exists r, scan tokens currentTag None result = Returns r.
Proof.
  revert currentTag.
  induction tokens as [|[ty o e st] rest IH]; intros ct Hnamed; simpl; [eauto|].
  destruct (TokenType.eqb ty TokenType.EOS); [eauto|].
  destruct (o <=? offset); simpl; [|eauto].
  simpl in Hnamed. unfold asksForValues in Hnamed. simpl in Hnamed.
  destruct ty; simpl in Hnamed; try discriminate Hnamed;
    repeat match goal with
           | |- exists r, (if ?c then _ else _) = Returns r => destruct c
           | |- exists r, match ?s with
                          | ScannerState.WithinContent => _ | _ => _
                          end = Returns r => destruct s
           | |- exists r, match slashBefore ?t ?n with Some _ => _ | None => _ end = _ =>
               destruct (slashBefore t n)
           | |- exists r, match expressions ?v ?res with Some _ => _ | None => _ end = _ =>
               destruct (expressions v res)
           end;
    cbn in Hnamed;
    try discriminate Hnamed;
    eauto using scan_named.
  apply andb_true_iff in Hnamed as [_ Hnamed]. eauto.
Qed.

End Scan2.

(** X14.  [doComplete] throws in one situation only, an attribute-value
    context reached before any attribute name was scanned: it returns a
    list whenever, in the tokens scanned from the node, no [=], attribute
    value or white space before a value comes before the first attribute
    name. *)
Theorem doComplete_returns
        (document : TextDocument.t) (position : Position)
        (htmlDocument : HTMLDocument.t) (sfdxWorkspace : bool)
        (settings : option (gmap string bool)) :
  (forall node,
      HTMLDocument.findNodeBefore htmlDocument (TextDocument.offsetAt document position)
      = Some node ->
      namedBeforeValue (createScanner (TextDocument.getText document) (Node.start node)
                                      ScannerState.WithinContent) = true) ->
  exists result,
    doComplete' document position htmlDocument sfdxWorkspace settings = Returns result.
Proof.
  intros Hnamed. unfold doComplete.
  destruct (HTMLDocument.findNodeBefore htmlDocument _) as [node|]; [|eauto].
  apply scan_unnamed. apply Hnamed. reflexivity.
Qed.

(** *** What every item of a result has in common *)

Section Scan3.

Variable document : TextDocument.t.
Variable sfdxWorkspace : bool.
Variable settings : option (gmap string bool).
Variable tagProviders : list Provider.t.
Variable text : string.
Variable offset : Z.
Variable node : Node.t.

Local Abbreviation scan :=
  (scanTokens createScanner isEmptyElement tagFromFile fsPath document sfdxWorkspace
              settings tagProviders text offset node).
Local Abbreviation expressions :=
  (collectExpressionSuggestions tagFromFile fsPath document sfdxWorkspace tagProviders
                                text offset).
Local Abbreviation values :=
  (collectAttributeValueSuggestions tagFromFile fsPath document sfdxWorkspace tagProviders
                                    text offset).
Local Abbreviation names :=
  (collectAttributeNameSuggestions createScanner document tagProviders text offset).
Local Abbreviation openTags := (collectOpenTagSuggestions document tagProviders offset).
Local Abbreviation closeTags :=
  (collectCloseTagSuggestions createScanner document tagProviders text offset node).
Local Abbreviation tags :=
  (collectTagSuggestions createScanner document tagProviders text offset node).
Local Abbreviation autoClose := (collectAutoCloseTagSuggestion isEmptyElement document settings).
Local Abbreviation rangeOf := (getReplaceRange document offset).

(** The loop returns what one of the builders makes of the empty list,
    or the empty list itself. *)
Lemma scan_items (Q : list CompletionItem.t -> Prop) :
  Q [] ->
  (forall a b, Q (CompletionList.items (tags a b emptyList))) ->
  (forall a b, Q (CompletionList.items (openTags a b emptyList))) ->
  (forall a b c, Q (CompletionList.items (closeTags a b c emptyList))) ->
  (forall ct a b, Q (CompletionList.items (names ct a b emptyList))) ->
  (forall e tag, Q (CompletionList.items (autoClose e tag emptyList))) ->
  (forall v r, expressions v emptyList = Some r -> Q (CompletionList.items r)) ->
  (forall ct ca a b r, values ct ca a b emptyList = Returns r -> Q (CompletionList.items r)) ->
  forall tokens ct ca r,
    scan tokens ct ca emptyList = Returns r -> Q (CompletionList.items r).
Proof.
  intros Qnil Qtags Qopen Qclose Qnames Qauto Qexpr Qvalues.
  induction tokens as [|[ty o e st] rest IH]; intros ct ca r Hrun.
  { injection Hrun as <-. exact Qnil. }
  simpl in Hrun.
  destruct (TokenType.eqb ty TokenType.EOS); [injection Hrun as <-; exact Qnil|].
  destruct (o <=? offset); simpl in Hrun; [|injection Hrun as <-; exact Qnil].
  destruct ty;
    repeat match type of Hrun with
           | (if ?c then _ else _) = _ => destruct c
           | match ?s with
             | ScannerState.WithinContent => _ | _ => _
             end = _ => destruct s
           | match slashBefore ?t ?n with Some _ => _ | None => _ end = _ =>
               destruct (slashBefore t n)
           | match expressions ?v ?res with Some _ => _ | None => _ end = _ =>
               let H := fresh "Hexpr" in destruct (expressions v res) eqn:H
           end;
    try (apply (IH _ _ _ Hrun));
    try (apply Qvalues in Hrun; exact Hrun);
    try (injection Hrun as <-; eauto).
Qed.

Section Items.

Variable P : CompletionItem.t -> Prop.

Lemma pushAll_all {A B : Type} (r : CompletionList.t) (outer : list A)
      (inner : A -> list B) (mk : A -> B -> CompletionItem.t) :
  (forall a b, P (mk a b)) ->
  Forall P (CompletionList.items r) ->
  Forall P (CompletionList.items
              (CompletionList.pushAll r (flat_map (fun a => map (mk a) (inner a)) outer))).
Proof.
  intros Hmk Hr. simpl. apply Forall_app. split; [exact Hr|].
  apply List.Forall_forall. intros item Hin.
  apply in_flat_map in Hin as (a & _ & Hin).
  apply in_map_iff in Hin as (b & <- & _). apply Hmk.
Qed.

Hypothesis P_open : forall a b detail e, P (openTagItem (rangeOf a b) detail e).
Hypothesis P_close : forall a b closeTag d tag, P (closeTagItem (rangeOf a b) closeTag d tag).
Hypothesis P_ancestor : forall afterOpenBracket a b closeTag curr tag,
    P (closeAncestorItem document text offset afterOpenBracket (rangeOf a b) closeTag curr tag).
Hypothesis P_name : forall a b value e, P (attributeNameItem (rangeOf a b) value e).
Hypothesis P_auto : forall e tag, P (autoCloseItem document e tag).
Hypothesis P_expression : forall a b v, P (expressionItem text offset (rangeOf a b) v).
Hypothesis P_value : forall a b quotes v, P (attributeValueItem (rangeOf a b) quotes v).

Lemma open_all (a b : Z) (r : CompletionList.t) :
  Forall P (CompletionList.items r) -> Forall P (CompletionList.items (openTags a b r)).
Proof.
  unfold collectOpenTagSuggestions.
  apply (pushAll_all r tagProviders Provider.collectTags
           (fun provider =>
              openTagItem (rangeOf a b)
                (if String.eqb (Provider.getId provider) "lwc" then Some "LWC tag" else None))).
  intros p e. apply P_open.
Qed.

Lemma close_all (a : Z) (inOpenTag : bool) (b : Z) (r : CompletionList.t) :
  Forall P (CompletionList.items r) ->
  Forall P (CompletionList.items (closeTags a inOpenTag b r)).
Proof.
  intros Hr. unfold collectCloseTagSuggestions.
  destruct (_ ≫= openAncestor offset) as [[curr tag]|].
  - simpl. apply Forall_app. split; [exact Hr|]. repeat constructor. apply P_ancestor.
  - destruct inOpenTag; [exact Hr|].
    match goal with
    | |- context [closeTagItem ?range ?closeTag] =>
        apply (pushAll_all r tagProviders Provider.collectTags
                 (fun _ e => closeTagItem range closeTag (Provider.tagDocumentation e)
                                          (Provider.tag e)))
    end; [|exact Hr].
    intros _ e. apply P_close.
Qed.

Lemma tags_all (a b : Z) (r : CompletionList.t) :
  Forall P (CompletionList.items r) -> Forall P (CompletionList.items (tags a b r)).
Proof. intros Hr. unfold collectTagSuggestions. apply close_all, open_all, Hr. Qed.

Lemma names_all (ct : string) (a b : Z) (r : CompletionList.t) :
  Forall P (CompletionList.items r) -> Forall P (CompletionList.items (names ct a b r)).
Proof.
  unfold collectAttributeNameSuggestions.
  match goal with
  | |- context [attributeNameItem ?range ?value] =>
      apply (pushAll_all r tagProviders
               (fun provider => Provider.collectAttributes provider (JS.toLowerCase ct))
               (fun _ => attributeNameItem range value))
  end.
  intros _ e. apply P_name.
Qed.

Lemma autoClose_all (e : Z) (tag : string) (r : CompletionList.t) :
  Forall P (CompletionList.items r) -> Forall P (CompletionList.items (autoClose e tag r)).
Proof.
  intros Hr. unfold collectAutoCloseTagSuggestion.
  destruct (hideAutoCompleteProposals settings); [exact Hr|].
  destruct (isEmptyElement tag); simpl; [exact Hr|].
  apply Forall_app. split; [exact Hr|]. repeat constructor. apply P_auto.
Qed.

Lemma expressions_all (v : Z) (r r' : CompletionList.t) :
  expressions v r = Some r' ->
  Forall P (CompletionList.items r) -> Forall P (CompletionList.items r').
Proof.
  intros Hexpr Hr.
  unfold collectExpressionSuggestions in Hexpr.
  destruct (_ && _ && _); [|discriminate].
  apply expressionLoop_found in Hexpr as (i & tag & _ & _ & _ & _ & _ & ->).
  apply (pushAll_all r tagProviders
           (fun provider => Provider.collectExpressionValues provider tag)
           (fun _ => expressionItem text offset (rangeOf (i + 1) offset))); [|exact Hr].
  intros _ x. apply P_expression.
Qed.

Lemma values_all (ct : string) (ca : option string) (a b : Z) (r r' : CompletionList.t) :
  values ct ca a b r = Returns r' ->
  Forall P (CompletionList.items r) -> Forall P (CompletionList.items r').
Proof.
  unfold collectAttributeValueSuggestions. intros Hrun Hr.
  destruct (expressions a r) as [r0|] eqn:Hexpr.
  - injection Hrun as <-. eapply expressions_all; eassumption.
  - destruct (_ && _ && _); destruct ca as [name|]; try discriminate;
      injection Hrun as <-;
      match goal with
      | |- context [attributeValueItem ?range ?q] =>
          apply (pushAll_all r tagProviders
                   (fun provider => Provider.collectValues provider (JS.toLowerCase ct)
                                                           (JS.toLowerCase name))
                   (fun _ => attributeValueItem range q))
      end; try exact Hr; intros _ x; apply P_value.
Qed.

End Items.

End Scan3.

Lemma closeAncestorItem_shape (document : TextDocument.t) (text : string)
      (offset afterOpenBracket a b : Z) (closeTag : string) (curr : Node.t) (tag : string) :
  let item := closeAncestorItem document text offset afterOpenBracket
                (getReplaceRange document offset a b) closeTag curr tag in
  CompletionItem.kind item = CompletionItemKind.Property
  /\ CompletionItem.insertTextFormat item = InsertTextFormat.PlainText
  /\ exists a' b',
      TextEdit.range (CompletionItem.textEdit item) = getReplaceRange document offset a' b'.
Proof.
  unfold closeAncestorItem.
  destruct (getLineIndent text (Node.start curr)) as [s|]; [|simpl; eauto].
  destruct (getLineIndent text (afterOpenBracket - 1)) as [e|]; [|simpl; eauto].
  destruct (negb (String.eqb s e)); simpl; eauto.
Qed.


Lemma getReplaceRange_start (document : TextDocument.t) (offset a b : Z) :
  exists a',
    getReplaceRange document offset a b =
      {| start := TextDocument.positionAt document a';
         end_ := TextDocument.positionAt document b |}
    /\ a' <= offset.
Proof.
  unfold getReplaceRange. destruct (a >? offset) eqn:Hgt.
  - exists offset. split; [reflexivity|lia].
  - exists a. split; [reflexivity|lia].
Qed.

(** X16.  A list that [doComplete] returns is never marked incomplete,
    and every edit in it covers positions the document gives for two
    offsets of which the first is the cursor or lies before it, except
    the auto-close suggestion, which inserts at a single position. *)
Theorem doComplete_edits_start_before_cursor
        (document : TextDocument.t) (position : Position)
        (htmlDocument : HTMLDocument.t) (sfdxWorkspace : bool)
        (settings : option (gmap string bool)) (result : CompletionList.t) :
  doComplete' document position htmlDocument sfdxWorkspace settings = Returns result ->
  CompletionList.isIncomplete result = false
  /\ Forall (fun item =>
               exists a b,
                 TextEdit.range (CompletionItem.textEdit item) =
                   {| start := TextDocument.positionAt document a;
                      end_ := TextDocument.positionAt document b |}
                 /\ (a <= TextDocument.offsetAt document position
                     \/ (contextOf item = AutoCloseContext /\ a = b)))
            (CompletionList.items result).
Proof.
  unfold doComplete.
  destruct (HTMLDocument.findNodeBefore htmlDocument _) as [node|];
    [|intros [= <-]; split; [reflexivity|constructor]].
  intros Hrun. split.
  - apply scan_auto_close in Hrun as [(new & -> & _)|(pre & tok & post & H)];
      [reflexivity|].
    destruct H as (_ & _ & _ & _ & _ & _ & ->). reflexivity.
  - revert Hrun.
    set (offset := TextDocument.offsetAt document position).
    set (P := fun item : CompletionItem.t =>
                exists a b,
                  TextEdit.range (CompletionItem.textEdit item) =
                    {| start := TextDocument.positionAt document a;
                       end_ := TextDocument.positionAt document b |}
                  /\ (a <= offset \/ (contextOf item = AutoCloseContext /\ a = b))).
    assert (Hrange : forall (item : CompletionItem.t) a b,
               TextEdit.range (CompletionItem.textEdit item)
               = getReplaceRange document offset a b -> P item).
    { intros item a b Hitem. destruct (getReplaceRange_start document offset a b)
        as (a' & Heq & Hle).
      exists a', b. split; [congruence|left; exact Hle]. }
    assert (Hancestor : forall aob a b closeTag curr tag,
               P (closeAncestorItem document (TextDocument.getText document) offset aob
                    (getReplaceRange document offset a b) closeTag curr tag)).
    { intros aob a b closeTag curr tag.
      destruct (closeAncestorItem_shape document (TextDocument.getText document) offset
                  aob a b closeTag curr tag) as (_ & _ & a' & b' & Heq).
      eapply Hrange. exact Heq. }
    apply (scan_items document sfdxWorkspace settings _ _ _ node (Forall P)).
    + constructor.
    + intros a b. apply tags_all; try constructor; try assumption;
        intros; eapply Hrange; reflexivity.
    + intros a b. apply open_all; [|constructor]. intros; eapply Hrange; reflexivity.
    + intros a b c. apply close_all; try constructor; try assumption;
        intros; eapply Hrange; reflexivity.
    + intros ct a b. apply names_all; [|constructor]. intros; eapply Hrange; reflexivity.
    + intros e tag. apply autoClose_all; [|constructor].
      intros e' tag'. exists e', e'. split; [reflexivity|right; split; reflexivity].
    + intros v r Hexpr. eapply expressions_all; [|exact Hexpr|constructor].
      intros; eapply Hrange; reflexivity.
    + intros ct ca a b r Hrun. eapply values_all; [| |exact Hrun|constructor];
        intros; eapply Hrange; reflexivity.
Qed.

(** *** Tokens after the cursor, and two more contexts *)

Section Scan4.

Variable document : TextDocument.t.
Variable sfdxWorkspace : bool.
Variable settings : option (gmap string bool).
Variable tagProviders : list Provider.t.
Variable text : string.
Variable offset : Z.
Variable node : Node.t.

Local Abbreviation scan :=
  (scanTokens createScanner isEmptyElement tagFromFile fsPath document sfdxWorkspace
              settings tagProviders text offset node).


End Scan4.

(** X18.  With the cursor inside or at the end of a tag name, after its
    first character, [doComplete] returns the open-tag suggestions only:
    one item for each tag of each enabled provider, in their order, whose
    edit replaces the whole tag name by that tag; no closing tag is
    offered.  (The token stream is in order and no expression is detected
    at an earlier token of a [default] kind.) *)
Theorem tag_name_context_only
        (document : TextDocument.t) (position : Position)
        (htmlDocument : HTMLDocument.t) (sfdxWorkspace : bool)
        (settings : option (gmap string bool))
        (node : Node.t) (pre post : list Token.t) (tok : Token.t) :
  let text := TextDocument.getText document in
  let offset := TextDocument.offsetAt document position in
  let tagProviders := List.filter (enabledProvider document settings) allTagProviders in
  HTMLDocument.findNodeBefore htmlDocument offset = Some node ->
  createScanner text (Node.start node) ScannerState.WithinContent = pre ++ tok :: post ->
  inOrder (Node.start node) (pre ++ [tok]) = true ->
  Token.type tok = TokenType.StartTag ->
  Token.offset tok < offset <= Token.end_ tok ->
  Forall (fun t => isFallback (Token.type t) = true ->
                   collectExpressionSuggestions tagFromFile fsPath document sfdxWorkspace
                     tagProviders text offset (Token.length t) emptyList = None) pre ->
  exists result,
    doComplete' document position htmlDocument sfdxWorkspace settings = Returns result
    /\ map CompletionItem.label (CompletionList.items result) =
       flat_map (fun provider => map Provider.tag (Provider.collectTags provider)) tagProviders
    /\ Forall (fun item =>
                 CompletionItem.textEdit item =
                   TextEdit.replace
                     {| start := TextDocument.positionAt document (Token.offset tok);
                        end_ := TextDocument.positionAt document (Token.end_ tok) |}
                     (CompletionItem.label item)
                 /\ contextOf item = TagNameContext)
              (CompletionList.items result).
Proof.
  intros text offset tagProviders Hnode Hscan Hord Hty Hin Hexpr.
  exists (collectOpenTagSuggestions document tagProviders offset
            (Token.offset tok) (Token.end_ tok) emptyList).
  split; [|split].
  - unfold doComplete. fold offset. rewrite Hnode. fold text. rewrite Hscan.
    destruct (inOrder_app _ _ _ Hord) as (Hpre & _ & Hends & _ & _).
    fold tagProviders.
    rewrite scan_skip with (from := Node.start node); try assumption.
    + destruct tok as [ty o e st]. simpl in Hty, Hin. subst ty. simpl.
      assert (H1 : (o <=? offset) = true) by lia.
      assert (H2 : (offset <=? e) = true) by lia.
      rewrite H1, H2. reflexivity.
    + eapply Forall_impl; [exact Hends|]. simpl. intros t Ht. lia.
  - unfold collectOpenTagSuggestions. simpl. clear.
    induction tagProviders as [|p ps IH]; [reflexivity|].
    simpl. rewrite map_app, IH, map_map. reflexivity.
  - unfold collectOpenTagSuggestions. simpl.
    apply List.Forall_forall. intros item Hitem.
    apply in_flat_map in Hitem as (p & _ & Hitem).
    apply in_map_iff in Hitem as (entry & <- & _).
    split; [|reflexivity].
    unfold openTagItem, getReplaceRange. simpl.
    assert (H : (Token.offset tok >? offset) = false) by lia.
    rewrite H. reflexivity.
Qed.

(** X19.  With the cursor right after the [=] that follows an attribute
    name, [doComplete] returns the attribute-value suggestions of the
    enabled providers for the lower-cased tag and attribute names scanned
    last, each inserting its value in double quotes at the cursor,
    replacing nothing; expression detection has no part in it.  (The
    token stream is in order and no expression is detected at an earlier
    token of a [default] kind.) *)
Theorem value_after_assign
        (document : TextDocument.t) (position : Position)
        (htmlDocument : HTMLDocument.t) (sfdxWorkspace : bool)
        (settings : option (gmap string bool))
        (node : Node.t) (pre post : list Token.t) (tok : Token.t) (name : string) :
  let text := TextDocument.getText document in
  let offset := TextDocument.offsetAt document position in
  let tagProviders := List.filter (enabledProvider document settings) allTagProviders in
  HTMLDocument.findNodeBefore htmlDocument offset = Some node ->
  createScanner text (Node.start node) ScannerState.WithinContent = pre ++ tok :: post ->
  inOrder (Node.start node) (pre ++ [tok]) = true ->
  Token.type tok = TokenType.DelimiterAssign ->
  Token.offset tok < offset ->
  Token.end_ tok = offset ->
  nameAfter text None pre = Some name ->
  Forall (fun t => isFallback (Token.type t) = true ->
                   collectExpressionSuggestions tagFromFile fsPath document sfdxWorkspace
                     tagProviders text offset (Token.length t) emptyList = None) pre ->
  doComplete' document position htmlDocument sfdxWorkspace settings =
  Returns
    {| CompletionList.isIncomplete := false;
       CompletionList.items :=
         flat_map (fun provider =>
           map (fun value =>
                  {| CompletionItem.label := value;
                     CompletionItem.kind := CompletionItemKind.Unit;
                     CompletionItem.detail := None;
                     CompletionItem.documentation := None;
                     CompletionItem.filterText :=
                       Some (String JS.dquote (value +:+ String JS.dquote ""));
                     CompletionItem.textEdit :=
                       TextEdit.replace
                         {| start := TextDocument.positionAt document offset;
                            end_ := TextDocument.positionAt document offset |}
                         (String JS.dquote (value +:+ String JS.dquote ""));
                     CompletionItem.insertTextFormat := InsertTextFormat.PlainText |})
               (Provider.collectValues provider (JS.toLowerCase (tagAfter text "" pre))
                                       (JS.toLowerCase name)))
           tagProviders |}.
Proof.
  intros text offset tagProviders Hnode Hscan Hord Hty Hlt Hend Hname Hexpr.
  unfold doComplete. fold offset. rewrite Hnode. fold text. rewrite Hscan.
  destruct (inOrder_app _ _ _ Hord) as (Hpre & _ & Hends & _ & _).
  fold tagProviders.
  rewrite scan_skip with (from := Node.start node); try assumption.
  - destruct tok as [ty o e st]. simpl in Hty, Hlt, Hend. subst ty e. simpl.
    assert (H1 : (o <=? offset) = true) by lia.
    rewrite H1, Z.eqb_refl, Hname. simpl.
    unfold collectAttributeValueSuggestions, collectExpressionSuggestions.
    rewrite Z.sub_diag. simpl.
    destruct (_ && _ && _); simpl.
    + assert (H2 : (offset >? offset) = false) by lia. rewrite H2. simpl.
      unfold getReplaceRange. rewrite H2. reflexivity.
    + assert (H2 : (offset >? offset) = false) by lia. rewrite H2. simpl.
      unfold getReplaceRange. rewrite H2. reflexivity.
  - eapply Forall_impl; [exact Hends|]. simpl. intros t Ht. lia.
Qed.

(** *** The ancestor a closing tag is offered for *)

Lemma openAncestor_first (offset : Z) (before : list Node.t) :
  forall (curr found : Node.t) (after : list Node.t),
    ancestors curr = before ++ found :: after ->
    Forall (fun n => awaitsEndTag offset n = false) before ->
    awaitsEndTag offset found = true ->
    exists tag, Node.tag found = Some tag /\ openAncestor offset curr = Some (found, tag).
Proof.
  induction before as [|m before IH]; intros curr found after Hchain Hbefore Hfound.
  - destruct curr as [tag s e closed ets parent]. simpl in Hchain.
    injection Hchain as <- _. unfold awaitsEndTag in Hfound. simpl in Hfound |- *.
    destruct tag as [tag|]; [|discriminate]. exists tag. split; [reflexivity|].
    rewrite Hfound. reflexivity.
  - apply Forall_cons in Hbefore as [Hm Hbefore].
    destruct curr as [tag s e closed ets parent]. simpl in Hchain.
    injection Hchain as <- Hrest. unfold awaitsEndTag in Hm. simpl in Hm.
    destruct parent as [p|]; [|destruct before; discriminate].
    destruct (IH p found after Hrest Hbefore Hfound) as (t & Htag & Hopen).
    exists t. split; [exact Htag|]. simpl. rewrite Hopen.
    destruct tag as [tag|]; [rewrite Hm|]; reflexivity.
Qed.

Lemma openAncestor_none (offset : Z) (chain : list Node.t) :
  forall curr : Node.t,
    ancestors curr = chain ->
    Forall (fun n => awaitsEndTag offset n = false) chain ->
    openAncestor offset curr = None.
Proof.
  induction chain as [|m chain IH]; intros curr Hchain Hall.
  - destruct curr; discriminate.
  - apply Forall_cons in Hall as [Hm Hall].
    destruct curr as [tag s e closed ets parent]. simpl in Hchain.
    injection Hchain as <- Hrest. unfold awaitsEndTag in Hm. simpl in Hm. simpl.
    assert (Hup : match parent with Some p => openAncestor offset p | None => None end = None).
    { destruct parent as [p|]; [|reflexivity]. apply IH; assumption. }
    rewrite Hup. destruct tag as [tag|]; [rewrite Hm|]; reflexivity.
Qed.

(** X20.  The closing tag offered is the one of the nearest node that
    still awaits its end tag — it has a tag and is not closed, or its end
    tag starts after the cursor — going up from the node at the cursor,
    or from its parent in an opening context, where the tag being opened
    is not offered; exactly one item is added for it.  When no node of
    the chain awaits an end tag, an opening context adds nothing. *)
Theorem close_tag_for_nearest_open_ancestor
        (document : TextDocument.t) (tagProviders : list Provider.t) (text : string)
        (offset : Z) (node : Node.t) (afterOpenBracket : Z) (inOpenTag : bool)
        (tagNameEnd : Z) (result : CompletionList.t)
        (before : list Node.t) (rest : list Node.t) :
  let chain := if inOpenTag then tail (ancestors node) else ancestors node in
  chain = before ++ rest ->
  Forall (fun n => awaitsEndTag offset n = false) before ->
  match rest with
  | found :: _ => awaitsEndTag offset found = true
  | [] => inOpenTag = true
  end ->
  let suggestions :=
    collectCloseTagSuggestions createScanner document tagProviders text offset node
                               afterOpenBracket inOpenTag tagNameEnd result in
  match rest with
  | found :: _ =>
      exists tag item,
        Node.tag found = Some tag
        /\ suggestions = CompletionList.push result item
        /\ CompletionItem.label item = "/" +:+ tag
  | [] => suggestions = result
  end.
Proof.
  intros chain Hchain Hbefore Hrest suggestions.
  assert (Hstart : chain = match (if inOpenTag then Node.parent node else Some node) with
                           | Some c => ancestors c
                           | None => []
                           end).
  { unfold chain. destruct inOpenTag; [|reflexivity].
    destruct node as [tag s e closed ets parent]. reflexivity. }
  unfold suggestions, collectCloseTagSuggestions.
  destruct (if inOpenTag then Node.parent node else Some node) as [curr|] eqn:Hcurr.
  - simpl. destruct rest as [|found after].
    + rewrite app_nil_r in Hchain.
      rewrite (openAncestor_none offset before curr) by congruence.
      rewrite Hrest. reflexivity.
    + destruct (openAncestor_first offset before curr found after) as (tag & Htag & Hopen);
        try assumption; [congruence|].
      rewrite Hopen. exists tag. eexists. split; [exact Htag|]. split; [reflexivity|].
      unfold closeAncestorItem.
      destruct (getLineIndent text (Node.start found)) as [s|]; [|reflexivity].
      destruct (getLineIndent text (afterOpenBracket - 1)) as [e|]; [|reflexivity].
      destruct (negb (String.eqb s e)); reflexivity.
  - simpl. destruct rest as [|found after].
    + rewrite Hrest. reflexivity.
    + exfalso. rewrite Hstart in Hchain. destruct before; discriminate.
Qed.

(** X21.  A provider that does not apply to the language of the document,
    or that the settings switch off under its id, contributes to no
    completion list: [doComplete] with it among the providers gives what
    it gives without it. *)
Theorem disabled_provider_contributes_nothing
        (provider : Provider.t) (before after : list Provider.t)
        (document : TextDocument.t) (position : Position)
        (htmlDocument : HTMLDocument.t) (sfdxWorkspace : bool)
        (settings : option (gmap string bool)) :
  Provider.isApplicable provider (TextDocument.languageId document) = false
  \/ (exists flags, settings = Some flags /\ flags !! Provider.getId provider = Some false) ->
  doComplete createScanner isEmptyElement (before ++ provider :: after) tagFromFile fsPath
             document position htmlDocument sfdxWorkspace settings
  = doComplete createScanner isEmptyElement (before ++ after) tagFromFile fsPath
               document position htmlDocument sfdxWorkspace settings.
Proof.
  intros Hoff.
  assert (Hdisabled : enabledProvider document settings provider = false).
  { unfold enabledProvider. destruct Hoff as [Hno|(flags & -> & Hflag)].
    - rewrite Hno. reflexivity.
    - rewrite Hflag, bool_decide_eq_true_2 by reflexivity. apply andb_false_r. }
  unfold doComplete. rewrite !List.filter_app. simpl. rewrite Hdisabled. reflexivity.
Qed.

(** *** When a line has no indentation to speak of *)

Lemma charAt_in_range (text : string) (i : nat) :
  (i < String.length text)%nat ->
  exists c, JS.charAt text (Z.of_nat i) = String c "".
Proof.
  intros Hi. destruct (get_in_range text i Hi) as [c Hc]. exists c.
  unfold JS.charAt, JS.index. destruct (Z.of_nat i <? 0) eqn:Hneg; [lia|].
  rewrite Nat2Z.id, Hc. reflexivity.
Qed.

Lemma getLineIndent_from_null (text : string) (offset : Z) (start : nat) :
  (start <= String.length text)%nat ->
  getLineIndent_from text start offset = None <->
  exists i : nat,
    (i < start)%nat
    /\ isWhiteSpace (JS.charAt text (Z.of_nat i)) = false
    /\ forall j : nat, (i < j < start)%nat ->
                       isWhiteSpace (JS.charAt text (Z.of_nat j)) = true
                       /\ ~ isLineBreak (JS.charAt text (Z.of_nat j)).
Proof.
  induction start as [|start IH]; intros Hlen.
  - simpl. split; [discriminate|]. intros (i & Hi & _). lia.
  - destruct (charAt_in_range text start ltac:(lia)) as [c Hc].
    simpl. rewrite Hc.
    destruct (String.eqb (String c "") "" || String.eqb (String c "") (String "010" "")
              || String.eqb (String c "") (String "013" "")) eqn:Hbreak.
    + assert (Hlb : isLineBreak (String c "")).
      { apply orb_prop in Hbreak as [Hbreak|Hbreak];
          [apply orb_prop in Hbreak as [Hbreak|Hbreak]|].
        - discriminate.
        - left. apply String.eqb_eq. exact Hbreak.
        - right. apply String.eqb_eq. exact Hbreak. }
      split; [discriminate|]. intros (i & Hi & Hnot & Hbetween). exfalso.
      destruct (Nat.eq_dec i start) as [->|Hne].
      * rewrite Hc in Hnot. destruct Hlb as [Hlb|Hlb]; rewrite Hlb in Hnot; discriminate.
      * destruct (Hbetween start ltac:(lia)) as [_ Hno]. apply Hno. rewrite Hc. exact Hlb.
    + assert (Hnolb : ~ isLineBreak (String c "")).
      { intros [Hlb|Hlb]; rewrite Hlb in Hbreak; discriminate. }
      destruct (isWhiteSpace (String c "")) eqn:Hws; simpl.
      * rewrite IH by lia. split.
        -- intros (i & Hi & Hnot & Hbetween). exists i. split; [lia|]. split; [exact Hnot|].
           intros j Hj. destruct (Nat.eq_dec j start) as [->|Hne].
           ++ rewrite Hc. split; assumption.
           ++ apply Hbetween. lia.
        -- intros (i & Hi & Hnot & Hbetween).
           destruct (Nat.eq_dec i start) as [->|Hne]; [congruence|].
           exists i. split; [lia|]. split; [exact Hnot|].
           intros j Hj. apply Hbetween. lia.
      * split; [|reflexivity]. intros _. exists start. split; [lia|].
        split; [rewrite Hc; exact Hws|]. intros j Hj. lia.
Qed.

(** X22.  For an offset inside the text, [getLineIndent] answers [null]
    exactly when the offset is preceded on its line by a character that
    is not white space: some character before the offset is not white
    space, and between it and the offset there is only white space
    without line breaks. *)
Theorem getLineIndent_null (text : string) (offset : Z) :
  0 <= offset <= JS.length text ->
  getLineIndent text offset = None <->
  exists i,
    0 <= i < offset
    /\ isWhiteSpace (JS.charAt text i) = false
    /\ forall j, i < j < offset ->
                 isWhiteSpace (JS.charAt text j) = true
                 /\ ~ isLineBreak (JS.charAt text j).
Proof.
  intros Hrange. unfold getLineIndent, JS.length in *.
  rewrite getLineIndent_from_null by lia. split.
  - intros (i & Hi & Hnot & Hbetween). exists (Z.of_nat i).
    split; [lia|]. split; [exact Hnot|].
    intros j Hj. replace j with (Z.of_nat (Z.to_nat j)) by lia. apply Hbetween. lia.
  - intros (i & Hi & Hnot & Hbetween). exists (Z.to_nat i).
    split; [lia|]. rewrite Z2Nat.id by lia. split; [exact Hnot|].
    intros j Hj. apply Hbetween. lia.
Qed.

End CompletionProperties2.

(** ** The properties of completion at sample inputs *)

Lemma doTagComplete_sound_witness :
  doTagComplete Sample.createScanner Sample.isEmptyElement Sample.labelDocument
                {| line := 0; character := 13 |} (Sample.htmlDocument Sample.labelNode)
  = Some "$0</c-foo>"
  /\ JS.charAt Sample.labelText 12 = ">".
Proof.
  assert (H : doTagComplete Sample.createScanner Sample.isEmptyElement Sample.labelDocument
                            {| line := 0; character := 13 |}
                            (Sample.htmlDocument Sample.labelNode)
              = Some "$0</c-foo>") by reflexivity.
  split; [exact H|].
  pose proof (doTagComplete_sound _ _ _ _ _ _ H) as Hs. cbv zeta in Hs.
  destruct Hs as [_ [[Hchar _]|[Hchar _]]].
  - exact Hchar.
  - vm_compute in Hchar. discriminate.
Defined.

Lemma doTagComplete_closes_start_tag_witness :
  doTagComplete Sample.createScanner Sample.isEmptyElement Sample.labelDocument
                {| line := 0; character := 13 |} (Sample.htmlDocument Sample.labelNode)
  = Some "$0</c-foo>".
Proof.
  apply (doTagComplete_closes_start_tag
           Sample.createScanner Sample.isEmptyElement Sample.labelDocument
           {| line := 0; character := 13 |} (Sample.htmlDocument Sample.labelNode)
           Sample.labelNode "c-foo" (firstn 4 Sample.labelTokens) []
           (Token.create TokenType.StartTagClose 12 13 ScannerState.WithinContent));
    reflexivity.
Defined.

Lemma word_under_cursor_witness :
  0 <= getWordStart "ab cd ef" 4 0 <= 4
  /\ 4 <= getWordEnd "ab cd ef" 4 8 <= 8
  /\ isWhiteSpaceAt "ab cd ef" 3 = false.
Proof.
  destruct (word_under_cursor "ab cd ef" 4 0 8) as (Ha & Hb & Hword & _); [lia|].
  split; [exact Ha|]. split; [exact Hb|]. reflexivity.
Defined.

Lemma attribute_name_range_witness :
  exists replaceEnd value,
    collectAttributeNameSuggestions Sample.createScanner Sample.labelDocument
      Sample.providers Sample.labelText 9 "c-foo" 7 12 emptyList
    = CompletionList.pushAll emptyList
        (flat_map (fun provider =>
           map (attributeNameItem
                  (getReplaceRange Sample.labelDocument 9 7 replaceEnd) value)
               (Provider.collectAttributes provider (JS.toLowerCase "c-foo")))
         Sample.providers)
    /\ 9 <= replaceEnd <= 12.
Proof.
  destruct (attribute_name_range Sample.createScanner Sample.labelDocument Sample.providers
              Sample.labelText 9 "c-foo" 7 12 emptyList)
    as (replaceEnd & value & Hcall & Hbounds & _); [lia|].
  exists replaceEnd, value. split; assumption.
Defined.

Lemma expression_reference_found_witness :
  exists brace tag,
    1 <= brace < 12
    /\ charIs Sample.braceText brace "{" = true
    /\ Sample.templateOf (Sample.fsPath (TextDocument.uri Sample.braceDocument)) true
       = Some tag.
Proof.
  destruct (expression_reference_found Sample.templateOf Sample.fsPath Sample.braceDocument
              true Sample.providers Sample.braceText 12 1 emptyList
              (CompletionList.push emptyList Forms.nameReference))
    as (brace & tag & new & Hstart & Hend & Hbrace & _ & _ & Htag & _); [reflexivity|].
  exists brace, tag. split; [lia|]. split; assumption.
Defined.


Lemma doComplete_returns_witness :
  exists result,
    Forms.complete Forms.assignText (Forms.inputNode 13) 12 None = Returns result.
Proof.
  apply doComplete_returns.
  intros node Hnode. simpl in Hnode. injection Hnode as <-. reflexivity.
Defined.


Lemma doComplete_edits_start_before_cursor_witness :
  Forall (fun item =>
            exists a b,
              TextEdit.range (CompletionItem.textEdit item) =
                {| start := {| line := 0; character := JS.clamp Forms.quotedText a |};
                   end_ := {| line := 0; character := JS.clamp Forms.quotedText b |} |}
              /\ (a <= 16 \/ (contextOf item = AutoCloseContext /\ a = b)))
         (map (attributeValueItem
                 {| start := {| line := 0; character := 15 |};
                    end_ := {| line := 0; character := 16 |} |} false)
              ["text"; "checkbox"]).
Proof.
  apply (doComplete_edits_start_before_cursor Forms.createScanner Sample.isEmptyElement
           Forms.providers Sample.templateOf Sample.fsPath
           (Sample.oneLine "file:///lwc/foo/foo.html" Forms.quotedText)
           {| line := 0; character := 16 |} (Sample.htmlDocument (Forms.inputNode 18))
           true None
           {| CompletionList.isIncomplete := false;
              CompletionList.items :=
                map (attributeValueItem
                       {| start := {| line := 0; character := 15 |};
                          end_ := {| line := 0; character := 16 |} |} false)
                    ["text"; "checkbox"] |}).
  reflexivity.
Defined.


Lemma tag_name_context_only_witness :
  exists result,
    Forms.complete Sample.labelText Sample.labelNode 3 None = Returns result
    /\ map CompletionItem.label (CompletionList.items result) = ["c-foo"; "div"; "input"].
Proof.
  destruct (tag_name_context_only Forms.createScanner Sample.isEmptyElement Forms.providers
              Sample.templateOf Sample.fsPath Sample.labelDocument
              {| line := 0; character := 3 |} (Sample.htmlDocument Sample.labelNode)
              true None Sample.labelNode (firstn 1 Sample.labelTokens)
              (skipn 2 Sample.labelTokens)
              (Token.create TokenType.StartTag 1 6 ScannerState.WithinTag))
    as (result & Hrun & Hlabels & _).
  - reflexivity.
  - reflexivity.
  - reflexivity.
  - reflexivity.
  - vm_compute. split; [reflexivity|discriminate].
  - constructor; [intros _; reflexivity|constructor].
  - exists result. split; [exact Hrun|exact Hlabels].
Defined.

Lemma value_after_assign_witness :
  exists result,
    Forms.complete Forms.assignText (Forms.inputNode 13) 12 None = Returns result
    /\ map CompletionItem.label (CompletionList.items result) = ["text"; "checkbox"]
    /\ Forall (fun item =>
                 TextEdit.range (CompletionItem.textEdit item)
                 = {| start := {| line := 0; character := 12 |};
                      end_ := {| line := 0; character := 12 |} |})
              (CompletionList.items result).
Proof.
  eexists. split.
  - apply (value_after_assign Forms.createScanner Sample.isEmptyElement Forms.providers
             Sample.templateOf Sample.fsPath
             (Sample.oneLine "file:///lwc/foo/foo.html" Forms.assignText)
             {| line := 0; character := 12 |} (Sample.htmlDocument (Forms.inputNode 13))
             true None (Forms.inputNode 13) (firstn 4 Forms.assignTokens)
             (skipn 5 Forms.assignTokens)
             (Token.create TokenType.DelimiterAssign 11 12 ScannerState.BeforeAttributeValue)
             "type").
    + reflexivity.
    + reflexivity.
    + reflexivity.
    + reflexivity.
    + reflexivity.
    + reflexivity.
    + reflexivity.
    + repeat (constructor; [intros _; reflexivity|]). constructor.
  - split; [reflexivity|]. repeat constructor.
Defined.

Lemma close_tag_for_nearest_open_ancestor_witness :
  exists item,
    collectCloseTagSuggestions Sample.createScanner Forms.nestedDocument Sample.providers
                               Forms.nestedText 17 Forms.bElement 17 false 20 emptyList
    = CompletionList.push emptyList item
    /\ CompletionItem.label item = "/p".
Proof.
  pose proof (close_tag_for_nearest_open_ancestor Sample.createScanner Forms.nestedDocument
                Sample.providers Forms.nestedText 17 Forms.bElement 17 false 20 emptyList
                [Forms.bElement] [Forms.pElement; Forms.divElement; Sample.root 21]) as Hs.
  cbv zeta in Hs.
  destruct Hs as (tag & item & Htag & Hcall & Hlabel).
  - reflexivity.
  - constructor; [reflexivity|constructor].
  - reflexivity.
  - exists item. split; [exact Hcall|].
    injection Htag as <-. exact Hlabel.
Defined.

Lemma disabled_provider_contributes_nothing_witness :
  doComplete Sample.createScanner Sample.isEmptyElement
             ([lwcTagProvider Sample.registry] ++ Forms.html5 :: [])
             Sample.templateOf Sample.fsPath Sample.labelDocument
             {| line := 0; character := 3 |} (Sample.htmlDocument Sample.labelNode) true
             (Some (<["html5" := false]> ∅))
  = doComplete Sample.createScanner Sample.isEmptyElement
               ([lwcTagProvider Sample.registry] ++ [])
               Sample.templateOf Sample.fsPath Sample.labelDocument
               {| line := 0; character := 3 |} (Sample.htmlDocument Sample.labelNode) true
               (Some (<["html5" := false]> ∅)).
Proof.
  apply disabled_provider_contributes_nothing.
  right. exists (<["html5" := false]> ∅). split; reflexivity.
Defined.

Lemma getLineIndent_null_witness :
  getLineIndent Sample.fooText 7 = None.
Proof.
  apply (getLineIndent_null Sample.fooText 7); [vm_compute; split; discriminate|].
  exists 5. split; [lia|]. split; [reflexivity|].
  intros j Hj. assert (Hsix : j = 6) by lia. subst j.
  split; [reflexivity|]. intros [Hbreak|Hbreak]; discriminate.
Defined.
